(** * ScanSoftware: checkpoint scheduling and prompt serialisation

    A shallow embedding of [main.py]: the per-station timers ([TimerData]),
    the scheduler ([schedule], its [worker] threads), the prompt queue and
    its semaphore ([prompt_q], [prompt_lock], [prompt_user]), the operator
    actions [start] and [cancel], the tree view, the log, and the worksheet
    that holds the day's records.

    Conventions.
    - A [datetime] is a number of microseconds (the resolution of Python's
      [datetime]), counted from a local midnight; a [timedelta] is a number
      of microseconds.  [total_seconds] is the exact rational, where Python
      returns the nearest float.
    - A [str] is the list of the code points of its characters.  The white
      space of [strip], the digits of [isdigit] and the decimal digits that
      [int] reads are those of the Unicode database of CPython 3.11
      (Unicode 14.0); [int] refuses a text of more than 4300 digits, the
      default limit of the interpreter.  The labels of the fields, which
      are constants of the program, are [string]s.
    - Python objects that are shared and mutated ([TimerData], referenced
      from the [timers] dict and from the closures of the worker threads)
      live in a heap and are named by their allocation index.
    - Threads are interleaved at the granularity of their blocking calls:
      a label of the transition system is one wake-up of a sleeping worker,
      one [prompt_q.get()], one successful [prompt_lock.acquire()], or one
      operator action on a window.
    - The worksheet is the list of its rows as [load_workbook] reads them,
      row 1 (the template's header) first; [ws.delete_rows(r)] removes the
      row at the 1-based position [r], the rows below moving up.  Of
      openpyxl, [ws.append] is taken to refuse a text that holds a control
      character (IllegalCharacterError), to keep the first 32767
      characters of a text, and to store an empty text as an empty cell;
      every other value is read back as it was written.
    - The tree view ([refresh_tree]) and the log ([log]) are functions of
      the state of the transition system and of their own contents, and
      stand beside it; the beep, the placement of the windows and the
      text of the message boxes are not modelled; reading and writing the
      file does not fail. *)

From Stdlib Require Import ZArith NArith QArith String Ascii List Lia Bool.
From stdpp Require Import gmap strings list sorting.
From Stdlib Require DecimalString DecimalPos DecimalN DecimalZ DecimalFacts.

Local Open Scope Z_scope.

(** ** Python and library primitives *)

(** The [str] of a literal of the source. *)
Definition py (s : string) : list N := N_of_ascii <$> list_ascii_of_string s.

Module Py.

(** A character is its code point. *)
Abbreviation str := (list N) (only parsing).

(** [a == b] on two [str]. *)
Definition eqb (a b : str) : bool := bool_decide (a = b).

(** The characters for which [str.isspace] holds, which are those that
    [str.strip] removes. *)
Definition space_chars : list N :=
  [
    9; 10; 11; 12; 13; 28; 29; 30; 31; 32;
    133; 160; 5760; 8192; 8193; 8194; 8195; 8196; 8197; 8198;
    8199; 8200; 8201; 8202; 8232; 8233; 8239; 8287; 12288
  ]%N.

Definition is_space (c : N) : bool := bool_decide (c ∈ space_chars).

(** The decimal digits (category Nd) come in runs of ten, from zero to
    nine: the zero of each run. *)
Definition decimal_zeros : list N :=
  [
    48; 1632; 1776; 1984; 2406; 2534; 2662; 2790; 2918; 3046;
    3174; 3302; 3430; 3558; 3664; 3792; 3872; 4160; 4240; 6112;
    6160; 6470; 6608; 6784; 6800; 6992; 7088; 7232; 7248; 42528;
    43216; 43264; 43472; 43504; 43600; 44016; 65296; 66720; 68912; 69734;
    69872; 69942; 70096; 70384; 70736; 70864; 71248; 71360; 71472; 71904;
    72016; 72784; 73040; 73120; 92768; 92864; 93008; 120782; 120792; 120802;
    120812; 120822; 123200; 123632; 125264; 130032
  ]%N.

(** The value of a decimal digit. *)
Definition decimal_value (c : N) : option Z :=
  z ← List.find (λ z, (z <=? c) && (c <=? z + 9))%N decimal_zeros;
  Some (Z.of_N (c - z)).

(** The other characters for which [str.isdigit] holds (superscripts,
    circled digits and the like), as ranges. *)
Definition other_digits : list (N * N) :=
  [
    (178, 179); (185, 185); (4969, 4977); (6618, 6618);
    (8304, 8304); (8308, 8313); (8320, 8329); (9312, 9320);
    (9332, 9340); (9352, 9360); (9450, 9450); (9461, 9469);
    (9471, 9471); (10102, 10110); (10112, 10120); (10122, 10130);
    (68160, 68163); (69216, 69224); (69714, 69722); (127232, 127242)
  ]%N.

Definition is_digit (c : N) : bool :=
  match decimal_value c with
  | Some _ => true
  | None => existsb (λ r, (r.1 <=? c) && (c <=? r.2))%N other_digits
  end.

Definition is_ascii_digit (c : N) : bool := ((48 <=? c) && (c <=? 57))%N.

(** [str.isdigit()]: non-empty and every character a digit. *)
Definition isdigit (s : str) : bool :=
  match s with
  | [] => false
  | _ => forallb is_digit s
  end.

(** The number that a run of decimal digits denotes. *)
Definition digits_value (s : str) : option Z :=
  ds ← mapM decimal_value s;
  Some (fold_left (fun acc d => 10 * acc + d) ds 0).

Definition int_max_str_digits : nat := 4300.

(** [int(s)] for a text that passes [isdigit], the only ones that the
    program converts; [None] is ValueError: a digit that is no decimal
    digit, or more digits than the limit. *)
Definition int (s : str) : option Z :=
  match s with
  | [] => None
  | _ =>
      if (int_max_str_digits <? length s)%nat then None else digits_value s
  end.

Fixpoint lstrip_chars (l : str) : str :=
  match l with
  | c :: l' => if is_space c then lstrip_chars l' else l
  | [] => []
  end.

(** [str.strip()] *)
Definition strip (s : str) : str :=
  rev (lstrip_chars (rev (lstrip_chars s))).

(** [str.zfill(width)]: pad with zeros on the left, after a leading sign. *)
Definition zfill (width : nat) (s : str) : str :=
  if (width <=? length s)%nat then s
  else
    let fill := replicate (width - length s) 48%N in
    match s with
    | c :: rest =>
        if ((c =? 43) || (c =? 45))%N
        then c :: fill ++ rest
        else fill ++ s
    | [] => fill
    end.

(** [sum(l)] *)
Definition sum (l : list Z) : Z := fold_left Z.add l 0.

(** [enumerate(l, start)] *)
Fixpoint enumerate {A} (start : nat) (l : list A) : list (nat * A) :=
  match l with
  | [] => []
  | x :: l' => (start, x) :: enumerate (S start) l'
  end.

Abbreviation datetime := Z (only parsing).
Abbreviation timedelta := Z (only parsing).

(** [timedelta(seconds=n)] *)
Definition seconds (n : Z) : timedelta := n * 1000000.

(** [d.total_seconds()] *)
Definition total_seconds (d : timedelta) : Q := d # 1000000.

(** [int(d.total_seconds())]: truncation towards zero. *)
Definition int_total_seconds (d : timedelta) : Z := Z.quot d 1000000.

Definition two_digits (n : Z) : str :=
  let d k := (48 + Z.to_N k)%N in
  [d (n / 10 mod 10); d (n mod 10)].

(** [t.strftime('%H:%M:%S')] *)
Definition strftime_HMS (t : datetime) : str :=
  let s := (t / 1000000) mod 86400 in
  two_digits (s / 3600) ++ py ":" ++ two_digits (s / 60 mod 60) ++ py ":"
    ++ two_digits (s mod 60).

End Py.

(** What openpyxl does with the values of an appended row. *)
Module Openpyxl.

(** [ILLEGAL_CHARACTERS_RE]: the control characters but tab, line feed
    and carriage return. *)
Definition illegal_char (c : N) : bool :=
  ((c <=? 8) || ((11 <=? c) && (c <=? 12)) || ((14 <=? c) && (c <=? 31)))%N.

Definition max_length : nat := Pos.to_nat 32767.

(** [Cell.check_string]: the text as the cell keeps it; [None] is
    IllegalCharacterError. *)
Definition check_string (s : Py.str) : option Py.str :=
  let v := take max_length s in
  if existsb illegal_char v then None else Some v.

End Openpyxl.

(** ** Data model *)

Abbreviation station_t := Z (only parsing).

Record TimerData := mkTimerData {
  serial : Py.str;
  station : station_t;
  tech : Py.str;
  start_time : Py.datetime;      (* [self.start] *)
  done_checks : nat;
  cancelled : bool;
  error : bool
}.

(** [TimerData.__init__], with the clock reading [now]. *)
Definition TimerData_init (serial : Py.str) (station : station_t)
    (tech : Py.str) (now : Py.datetime) : TimerData :=
  mkTimerData serial station tech now 0 false false.

Definition set_cancelled (td : TimerData) : TimerData :=
  mkTimerData (serial td) (station td) (tech td) (start_time td)
              (done_checks td) true (error td).

Definition set_checked (err : bool) (td : TimerData) : TimerData :=
  mkTimerData (serial td) (station td) (tech td) (start_time td)
              (S (done_checks td)) (cancelled td) err.

(** The tuple put on [prompt_q]. *)
Record Event := mkEvent {
  ev_serial : Py.str;
  ev_station : station_t;
  ev_idx : nat;
  ev_sched : Py.datetime;
  ev_tech : Py.str
}.

(** A thread running [worker(idx, delay, start)], asleep; [wk_td] is the
    [td] of the enclosing [schedule] call, the other three fields its
    [serial], [station] and [tech]. *)
Record Worker := mkWorker {
  wk_td : nat;
  wk_serial : Py.str;
  wk_station : station_t;
  wk_tech : Py.str;
  wk_idx : nat;
  wk_delay : Z;
  wk_start : Py.datetime
}.

(** A worksheet cell value. *)
Inductive Cell :=
| CStr (s : Py.str)
| CInt (z : Z)
| CNone.

Definition Row := list Cell.

Definition cell_eqb (a b : Cell) : bool :=
  match a, b with
  | CStr s, CStr t => Py.eqb s t
  | CInt x, CInt y => Z.eqb x y
  | CNone, CNone => true
  | _, _ => false
  end.

Inductive FieldType := digit | toggle.

Definition fields : list (string * FieldType) :=
  [ ("Voltage", digit); ("Current", digit);
    ("Clamp Current", digit); ("Temperature", digit);
    ("Control Light", toggle); ("Load Bank Light", toggle) ]%string.

(** What [entries] and [widgets] hold under a label: the contents of the
    two entry boxes of a digit field, or of the variable of a toggle. *)
Inductive Val :=
| VDigit (e1 e2 : Py.str)
| VToggle (var : Py.str).

(** The window of one [popup]. *)
Inductive Phase :=
| PVerify                                          (* [scan] dialog open *)
| PAskDigit (entries : gmap string Val) (label : string) (iv dv : Py.str)
| PAskToggle (entries : gmap string Val) (label : string)
| PReview (widgets : gmap string Val).

Record Flow := mkFlow {
  fl_event : Event;
  fl_phase : Phase
}.

Record State := mkState {
  timers : gmap station_t nat;     (* the dict, values are heap indices *)
  heap : list TimerData;
  workers : list Worker;           (* sleeping worker threads *)
  prompt_q : list Event;           (* head is the next [get] *)
  popups : list Event;             (* [popup] threads before [acquire] *)
  prompt_lock : nat;               (* the semaphore's counter *)
  flows : list Flow;               (* [popup]s past [acquire] *)
  sheet : list Row                 (* the worksheet of LOG_PATH *)
}.

(** ** The program *)

Section Program.

(** [NUM_STATIONS] is read from [config.json]; [CHECKPOINTS] is the list
    of offsets in seconds ([[20, 40]] in the source). *)
Variable NUM_STATIONS : Z.
Variable CHECKPOINTS : list Z.

(** *** [TimerData.next_delta] *)

Definition next_delta (now : Py.datetime) (td : TimerData) : option Q :=
  if (length CHECKPOINTS <=? done_checks td)%nat then None
  else
    match CHECKPOINTS !! done_checks td with
    | Some off =>
        let target := start_time td + Py.seconds off in
        Some (Py.total_seconds (target - now))
    | None => None
    end.

(** *** State updates *)

Definition with_flows (fs : list Flow) (s : State) : State :=
  mkState (timers s) (heap s) (workers s) (prompt_q s) (popups s)
          (prompt_lock s) fs (sheet s).

Definition with_lock (n : nat) (s : State) : State :=
  mkState (timers s) (heap s) (workers s) (prompt_q s) (popups s) n
          (flows s) (sheet s).

Definition set_phase (f : nat) (ev : Event) (ph : Phase) (s : State) : State :=
  with_flows (<[f := mkFlow ev ph]> (flows s)) s.

(** The window of flow [f] is gone. *)
Definition drop_flow (f : nat) (s : State) : State :=
  with_flows (delete f (flows s)) s.

(** [prompt_lock.release()] *)
Definition release (s : State) : State := with_lock (S (prompt_lock s)) s.

(** *** [schedule] and its [worker] *)

Definition spawn_workers (td : nat) (serial : Py.str) (station : station_t)
    (tech : Py.str) (start : Py.datetime) : list Worker :=
  map (fun p => mkWorker td serial station tech (fst p) (snd p) start)
      (Py.enumerate 1 CHECKPOINTS).

Definition schedule (serial : Py.str) (station : station_t) (tech : Py.str)
    (now : Py.datetime) (s : State) : State :=
  let r := length (heap s) in
  let td := TimerData_init serial station tech now in
  mkState (<[station := r]> (timers s)) (heap s ++ [td])
          (workers s ++ spawn_workers r serial station tech (start_time td))
          (prompt_q s) (popups s) (prompt_lock s) (flows s) (sheet s).

(** The tuple a worker puts on the queue. *)
Definition worker_event (w : Worker) : Event :=
  mkEvent (wk_serial w) (wk_station w) (wk_idx w)
          (wk_start w + Py.seconds (Py.sum (take (wk_idx w) CHECKPOINTS)))
          (wk_tech w).

(** Worker [i] returns from [time.sleep(delay)] and runs to its end. *)
Definition worker_wake (i : nat) (s : State) : option State :=
  w ← workers s !! i;
  td ← heap s !! wk_td w;
  let q := if cancelled td then prompt_q s
           else prompt_q s ++ [worker_event w] in
  Some (mkState (timers s) (heap s) (delete i (workers s)) q (popups s)
                (prompt_lock s) (flows s) (sheet s)).

(** *** The consumer thread and [prompt_user] *)

(** One turn of the consumer's loop: [prompt_q.get()], then
    [prompt_user] starts a [popup] thread and returns. *)
Definition consumer_get (s : State) : option State :=
  match prompt_q s with
  | [] => None
  | ev :: q =>
      Some (mkState (timers s) (heap s) (workers s) q (popups s ++ [ev])
                    (prompt_lock s) (flows s) (sheet s))
  end.

(** [popup] thread [p] gets past [prompt_lock.acquire()] and opens the
    [scan] dialog. *)
Definition popup_acquire (p : nat) (s : State) : option State :=
  ev ← popups s !! p;
  match prompt_lock s with
  | O => None
  | S n =>
      Some (mkState (timers s) (heap s) (workers s) (prompt_q s)
                    (delete p (popups s)) n
                    (flows s ++ [mkFlow ev PVerify]) (sheet s))
  end.

(** What [scan] returns when its window closes with [typed] in the box. *)
Definition scan (typed : Py.str) : Py.str := Py.strip typed.

(** The [validatecommand] of the capture entries. *)
Definition vcmd (P : Py.str) : bool :=
  (Py.isdigit P && (length P <=? 2)%nat) || Py.eqb P [].

(** A key stroke that would make the box read [P]. *)
Definition key_edit (P cur : Py.str) : Py.str := if vcmd P then P else cur.

Definition ask (i : nat) (entries : gmap string Val) : option Phase :=
  match fields !! i with
  | Some (label, digit) => Some (PAskDigit entries label [] [])
  | Some (label, toggle) =>
      Some (PAskToggle (<[label := VToggle (py "ON")]> entries) label)
  | None => None
  end.

Definition review_field (acc : option (gmap string Val))
    (entries : gmap string Val) (fld : string * FieldType)
    : option (gmap string Val) :=
  widgets ← acc;
  v ← entries !! fst fld;
  match snd fld, v with
  | digit, VDigit iv dv => Some (<[fst fld := VDigit iv dv]> widgets)
  | toggle, VToggle var => Some (<[fst fld := VToggle var]> widgets)
  | _, _ => None
  end.

Definition review (entries : gmap string Val) : option Phase :=
  widgets ← fold_left (fun acc fld => review_field acc entries fld)
                      fields (Some ∅);
  Some (PReview widgets).

Definition next_field (entries : gmap string Val) : option Phase :=
  if (size entries <? length fields)%nat then ask (size entries) entries
  else review entries.

(** The cell [save] appends for one field. *)
Definition field_cell (widgets : gmap string Val) (fld : string * FieldType)
    : option Cell :=
  v ← widgets !! fst fld;
  match snd fld, v with
  | digit, VDigit e1 e2 =>
      Some (CStr (Py.zfill 2 e1 ++ py "." ++ Py.zfill 2 e2))
  | toggle, VToggle var => Some (CStr var)
  | _, _ => None
  end.

Definition is_off (widgets : gmap string Val) (l : string) : option bool :=
  v ← widgets !! l;
  match v with
  | VToggle var => Some (Py.eqb var (py "OFF"))
  | VDigit _ _ => None
  end.

(** [any(widgets[l].get()=='OFF' for l in ('Control Light','Load Bank Light'))] *)
Definition any_off (widgets : gmap string Val) : option bool :=
  a ← is_off widgets "Control Light";
  if a : bool then Some true else is_off widgets "Load Bank Light".

Definition save_row (ev : Event) (widgets : gmap string Val)
    (now1 now2 : Py.datetime) : option Row :=
  cells ← mapM (field_cell widgets) fields;
  let head : Row :=
    [ CStr (ev_serial ev); CInt (ev_station ev);
      CInt (Z.of_nat (ev_idx ev));
      CStr (Py.strftime_HMS (ev_sched ev));
      CStr (Py.strftime_HMS now1);
      CInt (Z.abs (Py.int_total_seconds (now2 - ev_sched ev))) ] in
  Some (head ++ cells ++ [ CStr (ev_tech ev) ]).

(** What [load_workbook] reads back for a value that [ws.append] has
    accepted; [None] is IllegalCharacterError.  An empty text is stored
    as an empty cell. *)
Definition stored (c : Cell) : option Cell :=
  match c with
  | CStr s =>
      v ← Openpyxl.check_string s;
      Some (match v with [] => CNone | _ => CStr v end)
  | _ => Some c
  end.

(** [write_excel(row)]: the worksheet of the file afterwards; [None]
    when [ws.append] raises, the file being left as it was. *)
Definition write_excel (row : Row) (ws : list Row) : option (list Row) :=
  cells ← mapM stored row;
  Some (ws ++ [cells]).

(** [save], for flow [f]; [now1] and [now2] are its two clock readings.
    [None] is an exception raised before any assignment (KeyError at
    [timers[station]]).  When [write_excel] raises, the two assignments
    to the timer are done, and nothing else: the window stays and the
    semaphore is not released. *)
Definition save (f : nat) (ev : Event) (widgets : gmap string Val)
    (now1 now2 : Py.datetime) (s : State) : option State :=
  row ← save_row ev widgets now1 now2;
  r ← timers s !! ev_station ev;
  td ← heap s !! r;
  err ← any_off widgets;
  let heap' := <[r := set_checked err td]> (heap s) in
  match write_excel row (sheet s) with
  | None =>
      Some (mkState (timers s) heap' (workers s) (prompt_q s) (popups s)
                    (prompt_lock s) (flows s) (sheet s))
  | Some ws =>
      Some (mkState (timers s) heap' (workers s) (prompt_q s) (popups s)
                    (S (prompt_lock s)) (delete f (flows s)) ws)
  end.

(** Operator actions on the window of a flow. *)
Inductive Action :=
| AScan (typed : Py.str)                   (* the [scan] dialog returns *)
| AKey (second : bool) (P : Py.str)        (* key stroke in [e1] / [e2] *)
| APress (off : bool)                      (* button ON / OFF *)
| AEnter                                   (* button Enter, or Return *)
| AEdit (label : string) (second : bool) (P : Py.str)   (* review entry *)
| ASelect (label : string) (off : bool)    (* review combo box *)
| AConfirm (now1 now2 : Py.datetime)       (* button Confirm & Save *)
| AClose (now1 now2 : Py.datetime).        (* WM_DELETE_WINDOW *)

Definition on_off (off : bool) : Py.str := if off then py "OFF" else py "ON".

Definition flow_act (f : nat) (a : Action) (s : State) : option State :=
  fl ← flows s !! f;
  let ev := fl_event fl in
  match fl_phase fl, a with
  | PVerify, AScan typed =>
      if negb (Py.eqb (scan typed) (ev_serial ev))
      then Some (release (drop_flow f s))
      else ph ← ask 0 ∅; Some (set_phase f ev ph s)
  | PAskDigit entries label iv dv, AKey false P =>
      Some (set_phase f ev (PAskDigit entries label (key_edit P iv) dv) s)
  | PAskDigit entries label iv dv, AKey true P =>
      Some (set_phase f ev (PAskDigit entries label iv (key_edit P dv)) s)
  | PAskDigit entries label iv dv, AEnter =>
      ph ← next_field (<[label := VDigit iv dv]> entries);
      Some (set_phase f ev ph s)
  | PAskToggle entries label, APress off =>
      Some (set_phase f ev
              (PAskToggle (<[label := VToggle (on_off off)]> entries) label) s)
  | PAskToggle entries label, AEnter =>
      ph ← next_field entries; Some (set_phase f ev ph s)
  | PAskDigit _ _ _ _, AClose _ _ | PAskToggle _ _, AClose _ _ =>
      Some (drop_flow f s)
  | PReview widgets, AEdit label second P =>
      match widgets !! label with
      | Some (VDigit e1 e2) =>
          let v := if second then VDigit e1 P else VDigit P e2 in
          Some (set_phase f ev (PReview (<[label := v]> widgets)) s)
      | _ => None
      end
  | PReview widgets, ASelect label off =>
      match widgets !! label with
      | Some (VToggle _) =>
          Some (set_phase f ev
                  (PReview (<[label := VToggle (on_off off)]> widgets)) s)
      | _ => None
      end
  | PReview widgets, AConfirm now1 now2 => save f ev widgets now1 now2 s
  | PReview widgets, AClose now1 now2 => save f ev widgets now1 now2 s
  | _, _ => None
  end.

(** *** [start] *)

Inductive StartResult :=
| TechMissing            (* error box 'Tech' *)
| StationPending         (* no valid station number scanned yet *)
| StationRaised          (* [int(st_str)] raised ValueError *)
| Busy (st : station_t)  (* error box 'Busy' *)
| Started (st : station_t).

Inductive StationScan :=
| SPending               (* the station dialog is still asked *)
| SRaised                (* [int(st_str)] raised: [start] is over *)
| SStation (st : station_t).

(** The [while True] loop of [start], fed the successive contents of
    the station dialog. *)
Fixpoint station_loop (typed : list Py.str) : StationScan :=
  match typed with
  | [] => SPending
  | t :: rest =>
      let st_str := scan t in
      if negb (Py.isdigit st_str) then station_loop rest
      else
        match Py.int st_str with
        | None => SRaised
        | Some st =>
            if (st <? 1) || (st >? NUM_STATIONS) then station_loop rest
            else SStation st
        end
  end.

(** The station on which the loop ends, if it does. *)
Definition scan_station (typed : list Py.str) : option station_t :=
  match station_loop typed with
  | SStation st => Some st
  | _ => None
  end.

(** [st in timers and timers[st].done_checks<len(CHECKPOINTS)
     and not timers[st].cancelled] *)
Definition station_busy (st : station_t) (s : State) : bool :=
  match timers s !! st with
  | Some r =>
      match heap s !! r with
      | Some td =>
          (done_checks td <? length CHECKPOINTS)%nat && negb (cancelled td)
      | None => false
      end
  | None => false
  end.

Definition start (now : Py.datetime) (tech_var serial_typed : Py.str)
    (station_typed : list Py.str) (s : State) : StartResult * State :=
  if Py.eqb (Py.strip tech_var) [] then (TechMissing, s)
  else
    let serial := scan serial_typed in
    match station_loop station_typed with
    | SPending => (StationPending, s)
    | SRaised => (StationRaised, s)
    | SStation st =>
        if station_busy st s then (Busy st, s)
        else (Started st, schedule serial st (Py.strip tech_var) now s)
    end.

(** *** [cancel] *)

(** [ws.delete_rows(r)] *)
Definition delete_rows (r : nat) (ws : list Row) : list Row :=
  delete (pred r) ws.

(** [row[1].value], the station column. *)
Definition station_cell (row : Row) : Cell := default CNone (row !! 1%nat).

(** One turn of the loop over the rows listed before the loop. *)
Definition retract_row (st : station_t) (ws : list Row) (p : nat * Row)
    : list Row :=
  if cell_eqb (station_cell (snd p)) (CInt st)
  then delete_rows (fst p) ws else ws.

(** [for r,row in enumerate(list(ws.iter_rows(min_row=2)),start=2): ...] *)
Definition retract (st : station_t) (ws : list Row) : list Row :=
  fold_left (retract_row st) (Py.enumerate 2 (drop 1 ws)) ws.

Inductive CancelResult :=
| NotSelected            (* error box 'Select' *)
| Declined               (* the operator answered no *)
| CancelKeyError         (* [timers.pop(st)] raised *)
| Cancelled (td : nat).

Definition cancel (sel : option station_t) (yes : bool) (s : State)
    : CancelResult * State :=
  match sel with
  | None => (NotSelected, s)
  | Some st =>
      if negb yes then (Declined, s)
      else
        match timers s !! st with
        | None => (CancelKeyError, s)
        | Some r =>
            (Cancelled r,
             mkState (delete st (timers s))
                     (alter set_cancelled r (heap s))
                     (workers s) (prompt_q s) (popups s) (prompt_lock s)
                     (flows s) (retract st (sheet s)))
        end
  end.

(** *** The transition system *)

Inductive Label :=
| LStart (now : Py.datetime) (tech_var serial_typed : Py.str)
         (station_typed : list Py.str)
| LCancel (sel : option station_t) (yes : bool)
| LWake (i : nat)
| LGet
| LAcquire (p : nat)
| LAct (f : nat) (a : Action).

(** [None]: the label is not enabled (the thread stays blocked, there
    is no such window or control) or the callback raised before it
    changed anything. *)
Definition exec (l : Label) (s : State) : option State :=
  match l with
  | LStart now t sr sts => Some (snd (start now t sr sts s))
  | LCancel sel yes => Some (snd (cancel sel yes s))
  | LWake i => worker_wake i s
  | LGet => consumer_get s
  | LAcquire p => popup_acquire p s
  | LAct f a => flow_act f a s
  end.

Fixpoint run (ls : list Label) (s : State) : option State :=
  match ls with
  | [] => Some s
  | l :: ls' => s' ← exec l s; run ls' s'
  end.

(** The state when [root.mainloop()] is entered; [ws] is the worksheet
    of the day's file. *)
Definition init (ws : list Row) : State :=
  mkState ∅ [] [] [] [] 1 [] ws.

Inductive reachable (ws : list Row) : State → Prop :=
| reach_init : reachable ws (init ws)
| reach_step s l s' :
    reachable ws s → exec l s = Some s' → reachable ws s'.

End Program.

(** The offsets of the source. *)
Definition CHECKPOINTS_source : list Z := [20; 40].

(** A station is occupied by a non-terminal timer: registered, not
    cancelled, and with checks left to do. *)
Definition non_terminal (CHECKPOINTS : list Z) (st : station_t) (s : State)
    : Prop :=
  ∃ (r : nat) (td : TimerData),
    timers s !! st = Some r ∧ heap s !! r = Some td
    ∧ cancelled td = false ∧ (done_checks td < length CHECKPOINTS)%nat.

(** A station is free: absent from the registry, or its timer is
    terminal (cancelled, or all checks done). *)
Definition absent_or_terminal (CHECKPOINTS : list Z) (st : station_t)
    (s : State) : Prop :=
  timers s !! st = None
  ∨ ∃ (r : nat) (td : TimerData),
      timers s !! st = Some r ∧ heap s !! r = Some td
      ∧ (cancelled td = true ∨ (length CHECKPOINTS ≤ done_checks td)%nat).

(** Every registered station names a timer of the heap. *)
Definition registry_wf (s : State) : Prop :=
  ∀ (st : station_t) (r : nat),
    timers s !! st = Some r → (r < length (heap s))%nat.

(** What a well-formed [entries] or [widgets] holds for a field of type
    [ft]: two boxes for a number, ON or OFF for a toggle.  With [strict]
    the boxes also pass the capture step's [vcmd]. *)
Definition val_ok (strict : bool) (ft : FieldType) (v : Val) : Prop :=
  match ft, v with
  | digit, VDigit e1 e2 =>
      strict = true → vcmd e1 = true ∧ vcmd e2 = true
  | toggle, VToggle var => var = py "ON" ∨ var = py "OFF"
  | _, _ => False
  end.

(** [d] holds the first [n] fields, and nothing else. *)
Definition filled (strict : bool) (n : nat) (d : gmap string Val) : Prop :=
  size d = n
  ∧ ∀ (i : nat) (fld : string * FieldType),
      fields !! i = Some fld →
      if decide (i < n)%nat
      then ∃ v, d !! fld.1 = Some v ∧ val_ok strict fld.2 v
      else d !! fld.1 = None.

(** [d] holds every field. *)
Definition complete (strict : bool) (d : gmap string Val) : Prop :=
  ∀ fld : string * FieldType,
    fld ∈ fields → ∃ v, d !! fld.1 = Some v ∧ val_ok strict fld.2 v.

Definition phase_ok (strict : bool) (ph : Phase) : Prop :=
  match ph with
  | PVerify => True
  | PAskDigit entries label iv dv =>
      (strict = true → vcmd iv = true ∧ vcmd dv = true)
      ∧ ∃ i : nat, fields !! i = Some (label, digit) ∧ filled strict i entries
  | PAskToggle entries label =>
      ∃ i : nat,
        fields !! i = Some (label, toggle) ∧ filled strict (S i) entries
  | PReview widgets => complete strict widgets
  end.

Definition flows_ok (strict : bool) (s : State) : Prop :=
  Forall (λ fl, phase_ok strict (fl_phase fl)) (flows s).

(** An operator action that, in the review step, types [P] into a box
    although the capture step would have refused it. *)
Definition unvalidated_edit (a : Action) : Prop :=
  match a with
  | AEdit _ _ P => vcmd P = false
  | _ => False
  end.

(** The persisted form of a number: two digits, a point, two digits;
    a digit is a character that [isdigit] accepts. *)
Definition two_digit_string (x : Py.str) : Prop :=
  ∃ a b : N, x = [a; b] ∧ Py.is_digit a = true ∧ Py.is_digit b = true.

Definition NN_NN (x : Py.str) : Prop :=
  ∃ w f : Py.str,
    x = w ++ py "." ++ f ∧ two_digit_string w ∧ two_digit_string f.

(** The cell of a field of type [ft]: some text for a number, of the form
    NN.NN when [strict]; ON or OFF for a toggle. *)
Definition cell_ok (strict : bool) (ft : FieldType) (c : Cell) : Prop :=
  match ft with
  | digit => ∃ x, c = CStr x ∧ x ≠ [] ∧ (strict = true → NN_NN x)
  | toggle => c = CStr (py "ON") ∨ c = CStr (py "OFF")
  end.

(** A step of the system that is not an unvalidated edit. *)
Definition label_validated (l : Label) : Prop :=
  match l with
  | LAct _ a => ¬ unvalidated_edit a
  | _ => True
  end.

(** The semaphore is free, or one flow holds it. *)
Definition lock_inv (s : State) : Prop :=
  (prompt_lock s + length (flows s) ≤ 1)%nat.

(** Events are served in the order in which they were queued: when [e1]
    is ahead of [e2] in the queue, [e1] is no longer waiting once [e2]
    has its window. *)
Definition served_in_queue_order (NUM_STATIONS : Z) (CHECKPOINTS : list Z)
    : Prop :=
  ∀ (ws : list Row) (s s' : State) (ls : list Label) (e1 e2 : Event)
    (q : list Event) (ph : Phase),
    reachable NUM_STATIONS CHECKPOINTS ws s →
    prompt_q s = e1 :: e2 :: q → e1 ≠ e2 →
    run NUM_STATIONS CHECKPOINTS ls s = Some s' →
    mkFlow e2 ph ∈ flows s' →
    (e1 ∉ prompt_q s') ∧ (e1 ∉ popups s').

(** The error flag of a timer, once set, stays set. *)
Definition error_is_sticky (NUM_STATIONS : Z) (CHECKPOINTS : list Z) : Prop :=
  ∀ (ws : list Row) (s s' : State) (l : Label) (r : nat) (td td' : TimerData),
    reachable NUM_STATIONS CHECKPOINTS ws s →
    exec NUM_STATIONS CHECKPOINTS l s = Some s' →
    heap s !! r = Some td → heap s' !! r = Some td' →
    error td = true → error td' = true.


(** The rows of station [st] among the records (rows 2 and below). *)
Definition is_record_of (st : station_t) (row : Row) : bool :=
  cell_eqb (station_cell row) (CInt st).

Definition records_of (st : station_t) (ws : list Row) : list Row :=
  List.filter (is_record_of st) (drop 1 ws).

(** ** The display, the log and the dialogs *)

Module PyFmt.

(** [str(n)] of an int. *)
Definition str (n : Z) : Py.str :=
  py (DecimalString.NilZero.string_of_int (Z.to_int n)).

(** [f'{n:02d}']: at least two characters, zeros after the sign. *)
Definition fmt_02d (n : Z) : Py.str := Py.zfill 2 (str n).

(** [int(x)] of a float: truncation towards zero. *)
Definition int_float (x : Q) : Z := Z.quot (Qnum x) (Z.pos (Qden x)).

(** [x < 0] of a float. *)
Definition negative (x : Q) : bool := Qnum x <? 0.

End PyFmt.

(** [f'{s//60}:{s%60:02d}'] *)
Definition min_sec (s : Z) : Py.str :=
  PyFmt.str (s / 60) ++ py ":" ++ PyFmt.fmt_02d (s mod 60).

(** [TimerData.status], with the clock reading [now]. *)
Definition status (CHECKPOINTS : list Z) (now : Py.datetime) (td : TimerData)
    : Py.str * Py.str :=
  match next_delta CHECKPOINTS now td with
  | None => (py "-", [])
  | Some d =>
      if PyFmt.negative d
      then (py "OVERDUE", min_sec (PyFmt.int_float (- d)))
      else (min_sec (PyFmt.int_float d), [])
  end.

(** A row of the tree view: the [values] of [tree.insert]. *)
Record TreeRow := mkTreeRow {
  tr_station : station_t;
  tr_serial : Py.str;
  tr_tech : Py.str;
  tr_prog : Py.str;
  tr_next : Py.str;
  tr_err : Py.str;
  tr_overdue : Py.str
}.

(** The tree view: its rows, and the stations of the selected rows, the
    first one being what [tree.selection()[0]] names. *)
Record Tree := mkTree {
  tree_rows : list TreeRow;
  tree_selection : list station_t
}.

Definition tree_row (CHECKPOINTS : list Z) (now : Py.datetime)
    (st : station_t) (td : TimerData) : TreeRow :=
  mkTreeRow st (serial td) (tech td)
    (PyFmt.str (Z.of_nat (done_checks td)) ++ py "/"
       ++ PyFmt.str (Z.of_nat (length CHECKPOINTS)))
    (status CHECKPOINTS now td).1
    (if error td then [10060%N] else [])     (* the cross mark, U+274C *)
    (status CHECKPOINTS now td).2.

Definition station_le (a b : station_t * nat) : Prop := a.1 ≤ b.1.

#[global] Instance station_le_dec : RelDecision station_le.
Proof. intros a b. unfold station_le. apply _. Defined.

(** [sorted(timers.items())]: the stations are distinct, so the order is
    that of the stations. *)
Definition sorted_items (s : State) : list (station_t * nat) :=
  merge_sort station_le (map_to_list (timers s)).

(** One run of [refresh_tree]: the rows are rebuilt from [timers], and
    the row of the station that was selected first is selected again. *)
Definition refresh_tree (CHECKPOINTS : list Z) (now : Py.datetime)
    (s : State) (t : Tree) : Tree :=
  let rows :=
    omap (λ p, tree_row CHECKPOINTS now p.1 <$> heap s !! p.2)
         (sorted_items s) in
  let sel :=
    match head (tree_selection t) with
    | Some sel_st =>
        if bool_decide (sel_st ∈ tr_station <$> rows) then [sel_st] else []
    | None => []
    end in
  mkTree rows sel.

(** The operator clicks the row of [st], if there is one. *)
Definition select_row (st : station_t) (t : Tree) : Tree :=
  if bool_decide (st ∈ tr_station <$> tree_rows t)
  then mkTree (tree_rows t) [st] else t.

(** The Cancel button: [cancel] reads the station off the selected row. *)
Definition cancel_pressed (yes : bool) (t : Tree) (s : State)
    : CancelResult * State :=
  cancel (head (tree_selection t)) yes s.

(** The log: [activity_log], and the lines shown in [logbox]. *)
Record Log := mkLog {
  activity_log : list Py.str;
  logbox : list Py.str
}.

(** [log(msg)], with the clock reading [now]. *)
Definition log (now : Py.datetime) (msg : Py.str) (l : Log) : Log :=
  let entry := py "[" ++ Py.strftime_HMS now ++ py "] " ++ msg in
  mkLog (entry :: activity_log l) (take 5 (entry :: activity_log l)).

(** The [ok] callback of [scan], with [var] in the entry box: [None] is
    the error box, after which the dialog stays open; otherwise the
    window is destroyed and [scan] returns. *)
Definition scan_ok (var : Py.str) : option Py.str :=
  if Py.eqb (Py.strip var) [] then None else Some (scan var).

(** ** Notions used by the further properties *)

(** Neither end of [l] is a space. *)
Definition chars_stripped (l : Py.str) : Prop :=
  match l with c :: _ => Py.is_space c = false | [] => True end
  ∧ match rev l with c :: _ => Py.is_space c = false | [] => True end.

(** An entry of the station dialog that [start] refuses with an error
    box: no number, or a number out of range. *)
Definition station_refused (NUM_STATIONS : Z) (t : Py.str) : Prop :=
  Py.isdigit (scan t) = false
  ∨ ∃ n, Py.int (scan t) = Some n ∧ (n < 1 ∨ NUM_STATIONS < n).

(** An entry of the station dialog on which [int] raises. *)
Definition station_raises (t : Py.str) : Prop :=
  Py.isdigit (scan t) = true ∧ Py.int (scan t) = None.

(** What the Enter button of a capture window records: the label asked,
    and [entries] once the field is entered. *)
Definition asked (ph : Phase) : option (string * gmap string Val) :=
  match ph with
  | PAskDigit entries label iv dv => Some (label, <[label := VDigit iv dv]> entries)
  | PAskToggle entries label => Some (label, entries)
  | _ => None
  end.

(** The state in which no prompt can ever be served. *)
Definition serializer_dead (s : State) : Prop :=
  flows s = [] ∧ prompt_lock s = 0%nat.

(** A registered timer is in the heap, bears the station it is
    registered under, is not cancelled, and its station is one of the
    configured ones, written with no more digits than [int] reads. *)
Definition registry_ok (NUM_STATIONS : Z) (s : State) : Prop :=
  ∀ (st : station_t) (r : nat),
    timers s !! st = Some r →
    ∃ td : TimerData,
      heap s !! r = Some td ∧ station td = st ∧ cancelled td = false
      ∧ 1 ≤ st ≤ NUM_STATIONS
      ∧ (length (PyFmt.str st) ≤ Py.int_max_str_digits)%nat.

(** An event names a configured station and one of the checkpoints. *)
Definition event_ok (NUM_STATIONS : Z) (CHECKPOINTS : list Z) (ev : Event)
    : Prop :=
  1 ≤ ev_station ev ≤ NUM_STATIONS
  ∧ (1 ≤ ev_idx ev ≤ length CHECKPOINTS)%nat.

(** A worker sleeps the offset of its checkpoint, for a configured
    station. *)
Definition worker_ok (NUM_STATIONS : Z) (CHECKPOINTS : list Z) (w : Worker)
    : Prop :=
  1 ≤ wk_station w ≤ NUM_STATIONS
  ∧ (1 ≤ wk_idx w ≤ length CHECKPOINTS)%nat
  ∧ CHECKPOINTS !! pred (wk_idx w) = Some (wk_delay w).

(** Every worker, and every event wherever it waits, is as above. *)
Definition events_ok (NUM_STATIONS : Z) (CHECKPOINTS : list Z) (s : State)
    : Prop :=
  Forall (worker_ok NUM_STATIONS CHECKPOINTS) (workers s)
  ∧ Forall (event_ok NUM_STATIONS CHECKPOINTS) (prompt_q s)
  ∧ Forall (event_ok NUM_STATIONS CHECKPOINTS) (popups s)
  ∧ Forall (λ fl, event_ok NUM_STATIONS CHECKPOINTS (fl_event fl)) (flows s).

(** The records of the list taken before the loop that match [st]. *)
Definition matching (st : station_t) (ps : list (nat * Row))
    : list (nat * Row) :=
  List.filter (λ p, is_record_of st p.2) ps.

(** [x] reads M:SS in ASCII digits, with SS below 60, and stands for
    [secs] seconds. *)
Definition M_SS (x : Py.str) (secs : Z) : Prop :=
  ∃ (m ss : Py.str) (a b : Z),
    x = m ++ py ":" ++ ss
    ∧ m ≠ [] ∧ forallb Py.is_ascii_digit m = true
    ∧ length ss = 2%nat ∧ forallb Py.is_ascii_digit ss = true
    ∧ Py.digits_value m = Some a ∧ Py.digits_value ss = Some b
    ∧ b < 60 ∧ 60 * a + b = secs.

(** The line that [log] writes for a call at time [c.1] with message
    [c.2]. *)
Definition log_entry (c : Py.datetime * Py.str) : Py.str :=
  py "[" ++ Py.strftime_HMS c.1 ++ py "] " ++ c.2.

(** ** Scenarios

    Operator sessions used as concrete inputs below. *)

Definition header : Row :=
  CStr <$> (py <$> [ "Serial"; "Station"; "Check"; "Scheduled"; "Actual";
                     "Late"; "Voltage"; "Current"; "Clamp Current";
                     "Temperature"; "Control Light"; "Load Bank Light";
                     "Technician" ]%string).

(** The configuration of the end-to-end example: eight stations, offsets
    of 20 and 40 seconds. *)
Definition run8 : list Label → State → option State :=
  run 8 CHECKPOINTS_source.

(** Alice registers SN1 at station 3. *)
Definition register_SN1 (t0 : Py.datetime) : Label :=
  LStart t0 (py "Alice") (py "SN1") [py "3"].

(** The consumer takes the next event, its [popup] gets the semaphore,
    and the operator rescans [typed]. *)
Definition serve_next (typed : Py.str) : list Label :=
  [LGet; LAcquire 0; LAct 0 (AScan typed)].

(** The operator enters [v1].[v2] for the voltage, leaves the other
    numbers empty, presses OFF for the control light when [off], and
    reaches the review step. *)
Definition capture (v1 v2 : Py.str) (off : bool) : list Label :=
  [ LAct 0 (AKey false v1); LAct 0 (AKey true v2); LAct 0 AEnter;
    LAct 0 AEnter; LAct 0 AEnter; LAct 0 AEnter;
    LAct 0 (APress off); LAct 0 AEnter; LAct 0 AEnter ].

(** A whole check: served, captured and saved at time [t]. *)
Definition check (v1 v2 : Py.str) (off : bool) (t : Py.datetime)
    : list Label :=
  serve_next (py "SN1") ++ capture v1 v2 off ++ [LAct 0 (AConfirm t t)].

(** Station 3 passes both of its checks, at 20 s and at 40 s. *)
Definition both_checks : list Label :=
  [register_SN1 0; LWake 0; LWake 0]
    ++ check (py "12") (py "34") false 20000000 ++ check (py "12") (py "30") false 40000000.

(** SN1 at station 3 and SN2 at station 5 both reach their first
    checkpoint; the event of station 3 is queued first. *)
Definition two_stations_fire : list Label :=
  [ register_SN1 0; LStart 1000000 (py "Bob") (py "SN2") [py "5"]; LWake 0; LWake 1 ].

(** Station 3 fails its first check (control light OFF) and is then
    served its second check, captured with both lights ON and waiting in
    the review step. *)
Definition fault_then_review : list Label :=
  [register_SN1 0; LWake 0; LWake 0]
    ++ check (py "12") (py "34") true 20000000
    ++ serve_next (py "SN1") ++ capture (py "12") (py "30") false.

(** Station 3 is served its first check, captured as in the end-to-end
    example of the specification, and waits in the review step. *)
Definition first_check_in_review : list Label :=
  [register_SN1 0; LWake 0] ++ serve_next (py "SN1") ++ capture (py "12") (py "34") false.

(** Stations 3 and 5 are registered.  The first checkpoint of station 5
    fires and its flow starts; the first checkpoint of station 3 fires and
    its prompt waits for the semaphore; station 3 is cancelled; the flow
    of station 5 ends on a mismatch; the prompt of station 3 gets the
    semaphore. *)
Definition cancel_while_waiting : list Label :=
  [ register_SN1 0; LStart 1000000 (py "Bob") (py "SN2") [py "5"];
    LWake 2; LGet; LAcquire 0;
    LWake 0; LGet;
    LCancel (Some 3) true;
    LAct 0 (AScan (py "SN7")); LAcquire 0 ].

(** Station 3 is cancelled while its event is in the queue and registered
    again, for SN9, before the event is served; the operator then answers
    the stale prompt. *)
Definition cancel_then_reuse : list Label :=
  [ register_SN1 0; LWake 0; LCancel (Some 3) true;
    LStart 25000000 (py "Bob") (py "SN9") [py "3"] ]
    ++ check (py "12") (py "34") false 30000000.


(** * Properties *)

(** ** Text *)

Lemma str_eqb_spec (a b : Py.str) : reflect (a = b) (Py.eqb a b).
Proof. apply bool_decide_reflect. Qed.

Lemma str_eqb_eq (a b : Py.str) : Py.eqb a b = true ↔ a = b.
Proof. unfold Py.eqb. apply bool_decide_eq_true. Qed.

Lemma str_eqb_refl (a : Py.str) : Py.eqb a a = true.
Proof. by apply str_eqb_eq. Qed.

(** ** Timers *)

Lemma total_seconds_negative (d : Py.timedelta) :
  (Py.total_seconds d < 0)%Q ↔ d < 0.
Proof.
  unfold Py.total_seconds, Qlt. simpl. lia.
Qed.

(** C8. [next_delta] returns [None] exactly when [done_checks] has reached
    the number of offsets; otherwise it returns, in seconds, the time from
    [now] to [start + CHECKPOINTS[done_checks]], which is negative exactly
    when that checkpoint is overdue. *)
Theorem next_delta_spec (CHECKPOINTS : list Z) (now : Py.datetime)
    (td : TimerData) :
  (next_delta CHECKPOINTS now td = None
     ↔ (length CHECKPOINTS ≤ done_checks td)%nat)
  ∧ ((done_checks td < length CHECKPOINTS)%nat →
     ∃ off : Z,
       CHECKPOINTS !! done_checks td = Some off
       ∧ next_delta CHECKPOINTS now td
         = Some (Py.total_seconds (start_time td + Py.seconds off - now))
       ∧ ∀ d, next_delta CHECKPOINTS now td = Some d →
              ((d < 0)%Q ↔ start_time td + Py.seconds off < now)).
Proof.
  unfold next_delta.
  destruct (Nat.leb_spec (length CHECKPOINTS) (done_checks td)) as [Hge|Hlt].
  - split; [tauto | lia].
  - destruct (lookup_lt_is_Some_2 CHECKPOINTS (done_checks td) Hlt)
      as [off Hoff].
    rewrite Hoff. split.
    + split; [discriminate | lia].
    + intros _. exists off. split; [reflexivity |]. split; [reflexivity |].
      intros d [= <-]. rewrite total_seconds_negative. lia.
Qed.

Lemma next_delta_spec_witness :
  let td := mkTimerData (py "SN1") 3 (py "Alice") 0 1 false false in
  next_delta CHECKPOINTS_source 45000000 td = Some (-5000000 # 1000000)
  ∧ ∃ off : Z,
      CHECKPOINTS_source !! 1%nat = Some off
      ∧ next_delta CHECKPOINTS_source 45000000 td
        = Some (Py.total_seconds (0 + Py.seconds off - 45000000))
      ∧ ∀ d, next_delta CHECKPOINTS_source 45000000 td = Some d →
             ((d < 0)%Q ↔ 0 + Py.seconds off < 45000000).
Proof.
  intros td. split; [reflexivity |].
  apply (proj2 (next_delta_spec CHECKPOINTS_source 45000000 td)).
  simpl. lia.
Defined.

(** ** The scheduler *)

Lemma sum_snoc (l : list Z) (x : Z) : Py.sum (l ++ [x]) = Py.sum l + x.
Proof. unfold Py.sum. rewrite fold_left_app. reflexivity. Qed.

Lemma enumerate_lookup {A} (l : list A) (k i : nat) (x : A) :
  l !! i = Some x → Py.enumerate k l !! i = Some ((k + i)%nat, x).
Proof.
  revert k i. induction l as [|y l IH]; intros k [|i] Hi; simplify_eq/=.
  - by rewrite Nat.add_0_r.
  - rewrite (IH (S k) i Hi). do 2 f_equal. lia.
Qed.

(** The worker armed for the offset at position [i]. *)
Lemma spawn_workers_lookup (CHECKPOINTS : list Z) (r : nat)
    (sr : Py.str) (st : station_t) (tc : Py.str) (t0 : Py.datetime)
    (i : nat) (off : Z) :
  CHECKPOINTS !! i = Some off →
  spawn_workers CHECKPOINTS r sr st tc t0 !! i
  = Some (mkWorker r sr st tc (S i) off t0).
Proof.
  intros Hi. unfold spawn_workers.
  rewrite list_lookup_fmap, (enumerate_lookup _ 1 i off Hi). reflexivity.
Qed.

(** Its event carries the start time plus the sum of the offsets up to
    and including position [i]. *)
Lemma worker_event_sched (CHECKPOINTS : list Z) (r : nat)
    (sr : Py.str) (st : station_t) (tc : Py.str) (t0 : Py.datetime)
    (i : nat) (off : Z) :
  CHECKPOINTS !! i = Some off →
  ev_sched (worker_event CHECKPOINTS (mkWorker r sr st tc (S i) off t0))
  = t0 + Py.seconds (Py.sum (take i CHECKPOINTS)) + Py.seconds off.
Proof.
  intros Hi. unfold worker_event. simpl wk_idx. simpl wk_start.
  rewrite (take_S_r _ _ _ Hi), sum_snoc.
  unfold ev_sched, Py.seconds. lia.
Qed.

(** For the first offset this is the start time plus that offset. *)
Lemma first_event_sched (CHECKPOINTS : list Z) (r : nat)
    (sr : Py.str) (st : station_t) (tc : Py.str) (t0 : Py.datetime)
    (off : Z) :
  CHECKPOINTS !! 0%nat = Some off →
  ev_sched (worker_event CHECKPOINTS (mkWorker r sr st tc 1 off t0))
  = t0 + Py.seconds off.
Proof.
  intros Hi. rewrite (worker_event_sched _ _ _ _ _ _ _ _ Hi).
  unfold Py.seconds, Py.sum. simpl. lia.
Qed.

(** C1. With offsets [[20; 40]] and a registration at [t0], the event of
    the second checkpoint carries [t0 + 60 s], the sum of both offsets,
    and not [t0 + 40 s]. *)
Theorem second_event_sched_is_chained (t0 : Py.datetime) (ws : list Row) :
  ∃ (s : State) (ev : Event),
    run8 [register_SN1 t0; LWake 1] (init ws) = Some s
    ∧ prompt_q s = [ev]
    ∧ ev_idx ev = 2%nat
    ∧ ev_sched ev = t0 + Py.seconds (20 + 40)
    ∧ ev_sched ev ≠ t0 + Py.seconds 40.
Proof.
  exists (mkState {[ 3 := 0%nat ]}
                  [TimerData_init (py "SN1") 3 (py "Alice") t0]
                  [mkWorker 0 (py "SN1") 3 (py "Alice") 1 20 t0]
                  [mkEvent (py "SN1") 3 2 (t0 + Py.seconds (20 + 40))
                           (py "Alice")]
                  [] 1 [] ws).
  exists (mkEvent (py "SN1") 3 2 (t0 + Py.seconds (20 + 40)) (py "Alice")).
  split; [reflexivity |].
  repeat split. unfold ev_sched, Py.seconds. lia.
Qed.

(** ** Retraction of a station's records *)

Lemma enumerate_app {A} (l1 l2 : list A) (k : nat) :
  Py.enumerate k (l1 ++ l2)
  = Py.enumerate k l1 ++ Py.enumerate (k + length l1) l2.
Proof.
  revert k. induction l1 as [|x l1 IH]; intros k; simpl.
  - by rewrite Nat.add_0_r.
  - rewrite IH, Nat.add_succ_r. reflexivity.
Qed.

(** Rows that do not match leave the worksheet as it is. *)
Lemma retract_rows_no_match (st : station_t) (rows : list Row) (k : nat)
    (ws : list Row) :
  Forall (λ row, is_record_of st row = false) rows →
  fold_left (retract_row st) (Py.enumerate k rows) ws = ws.
Proof.
  intros Hno. revert k. induction Hno as [|row rows Hrow _ IH]; intros k.
  - reflexivity.
  - simpl. unfold retract_row at 2. simpl.
    unfold is_record_of in Hrow. rewrite Hrow. apply IH.
Qed.

Lemma filter_nil_Forall (st : station_t) (rows : list Row) :
  List.filter (is_record_of st) rows = [] →
  Forall (λ row, is_record_of st row = false) rows.
Proof.
  induction rows as [|row rows IH]; simpl; [constructor |].
  destruct (is_record_of st row) eqn:E; [discriminate |].
  intros H. constructor; auto.
Qed.

(** Retraction is a no-op when no record matches. *)
Lemma retract_no_match (st : station_t) (ws : list Row) :
  records_of st ws = [] → retract st ws = ws.
Proof.
  intros H. apply retract_rows_no_match, filter_nil_Forall, H.
Qed.

(** A single matching record is removed, and only it. *)
Lemma retract_single (st : station_t) (hd row : Row) (above below : list Row) :
  Forall (λ row, is_record_of st row = false) above →
  is_record_of st row = true →
  Forall (λ row, is_record_of st row = false) below →
  retract st (hd :: above ++ row :: below) = hd :: above ++ below.
Proof.
  intros Ha Hr Hb. unfold retract.
  change (drop 1 (hd :: above ++ row :: below)) with (above ++ row :: below).
  rewrite enumerate_app, fold_left_app, (retract_rows_no_match st above 2 _ Ha).
  simpl. unfold retract_row at 2. simpl.
  unfold is_record_of in Hr. rewrite Hr.
  assert (delete_rows (S (S (length above))) (hd :: above ++ row :: below)
          = hd :: above ++ below) as ->.
  { unfold delete_rows. simpl. f_equal.
    clear. induction above as [|a above IH]; simpl; [reflexivity |].
    by rewrite IH. }
  apply retract_rows_no_match, Hb.
Qed.

(** C3. Station 3 has passed both checks, so the worksheet holds two
    adjacent records of it; cancelling station 3 removes its timer from
    the registry and marks it cancelled, but the record of the second
    check stays in the worksheet. *)
Theorem cancel_leaves_second_record :
  ∃ (s s' : State) (r1 r2 : Row),
    run8 both_checks (init [header]) = Some s
    ∧ sheet s = [header; r1; r2]
    ∧ records_of 3 (sheet s) = [r1; r2]
    ∧ cancel (Some 3) true s = (Cancelled 0, s')
    ∧ timers s' !! 3 = None
    ∧ cancelled <$> heap s' !! 0%nat = Some true
    ∧ sheet s' = [header; r2]
    ∧ records_of 3 (sheet s') = [r2].
Proof.
  do 4 eexists. split; [vm_compute; reflexivity |].
  vm_compute. repeat split.
Qed.

(** ** Registration *)

Lemma scan_station_loop (NUM_STATIONS : Z) (typed : list Py.str)
    (st : station_t) :
  scan_station NUM_STATIONS typed = Some st
  ↔ station_loop NUM_STATIONS typed = SStation st.
Proof.
  unfold scan_station.
  destruct (station_loop NUM_STATIONS typed); split; congruence.
Qed.

Lemma scan_station_range (NUM_STATIONS : Z) (typed : list Py.str)
    (st : station_t) :
  scan_station NUM_STATIONS typed = Some st → 1 ≤ st ≤ NUM_STATIONS.
Proof.
  rewrite scan_station_loop.
  induction typed as [|t rest IH]; simpl; [discriminate |].
  destruct (Py.isdigit (scan t)); simpl; [| exact IH].
  destruct (Py.int (scan t)) as [n|]; [| discriminate].
  destruct (Z.ltb_spec n 1); simpl; [exact IH |].
  destruct (Z.gtb_spec n NUM_STATIONS); simpl; [exact IH |].
  intros [= <-]. lia.
Qed.

Lemma station_busy_true (CHECKPOINTS : list Z) (st : station_t) (s : State) :
  non_terminal CHECKPOINTS st s → station_busy CHECKPOINTS st s = true.
Proof.
  intros (r & td & Hr & Htd & Hc & Hd). unfold station_busy.
  rewrite Hr, Htd, Hc. simpl. rewrite andb_true_r.
  apply Nat.ltb_lt, Hd.
Qed.

Lemma station_busy_false (CHECKPOINTS : list Z) (st : station_t) (s : State) :
  absent_or_terminal CHECKPOINTS st s → station_busy CHECKPOINTS st s = false.
Proof.
  unfold station_busy. intros [Hn | (r & td & Hr & Htd & Hterm)].
  - by rewrite Hn.
  - rewrite Hr, Htd. destruct Hterm as [Hc | Hd].
    + rewrite Hc. apply andb_false_r.
    + apply andb_false_intro1, Nat.ltb_ge, Hd.
Qed.

(** In a well-formed registry every station is either occupied by a
    non-terminal timer or free. *)
Lemma occupied_or_free (CHECKPOINTS : list Z) (st : station_t) (s : State) :
  registry_wf s →
  non_terminal CHECKPOINTS st s ∨ absent_or_terminal CHECKPOINTS st s.
Proof.
  intros Hwf. destruct (timers s !! st) as [r|] eqn:Hr.
  - destruct (lookup_lt_is_Some_2 _ _ (Hwf st r Hr)) as [td Htd].
    destruct (cancelled td) eqn:Hc.
    + right. right. exists r, td. auto.
    + destruct (Nat.lt_ge_cases (done_checks td) (length CHECKPOINTS)).
      * left. exists r, td. auto.
      * right. right. exists r, td. auto.
  - right. by left.
Qed.

(** C4. A Start for a station held by a non-terminal timer ends in the
    Busy error and changes nothing; a Start for a station that is absent
    or whose timer is terminal creates a fresh timer and registers it
    under the station. *)
Theorem start_busy_or_registers (NUM_STATIONS : Z) (CHECKPOINTS : list Z)
    (now : Py.datetime) (tech_var serial_typed : Py.str)
    (station_typed : list Py.str) (st : station_t) (s : State) :
  Py.strip tech_var ≠ [] →
  scan_station NUM_STATIONS station_typed = Some st →
  (non_terminal CHECKPOINTS st s →
   start NUM_STATIONS CHECKPOINTS now tech_var serial_typed station_typed s
   = (Busy st, s))
  ∧ (absent_or_terminal CHECKPOINTS st s →
     ∃ s' : State,
       start NUM_STATIONS CHECKPOINTS now tech_var serial_typed
             station_typed s = (Started st, s')
       ∧ timers s' = <[st := length (heap s)]> (timers s)
       ∧ heap s' = heap s ++ [TimerData_init (scan serial_typed) st
                                              (Py.strip tech_var) now]
       ∧ timers s' !! st = Some (length (heap s))
       ∧ heap s' !! length (heap s)
         = Some (mkTimerData (scan serial_typed) st (Py.strip tech_var)
                             now 0 false false)).
Proof.
  intros Htech Hst. unfold start.
  destruct (str_eqb_spec (Py.strip tech_var) []) as [E|_];
    [contradiction |].
  apply scan_station_loop in Hst. rewrite Hst. split.
  - intros Hbusy. by rewrite (station_busy_true _ _ _ Hbusy).
  - intros Hfree. rewrite (station_busy_false _ _ _ Hfree).
    eexists. split; [reflexivity |]. simpl. repeat split.
    + apply lookup_insert_eq.
    + rewrite lookup_app_r by lia. by rewrite Nat.sub_diag.
Qed.

Lemma start_busy_or_registers_witness :
  let s1 := schedule CHECKPOINTS_source (py "SN1") 3 (py "Alice") 0
                     (init [header]) in
  start 8 CHECKPOINTS_source 5000000 (py "Bob") (py "SN2")
        [py "x"; py "9"; py " 3 "] s1
  = (Busy 3, s1)
  ∧ ∃ s' : State,
      start 8 CHECKPOINTS_source 0 (py " Alice ") (py "SN1") [py "3"]
            (init [header])
      = (Started 3, s')
      ∧ timers s' !! 3 = Some 0%nat
      ∧ heap s' !! 0%nat
        = Some (mkTimerData (py "SN1") 3 (py "Alice") 0 0 false false).
Proof.
  intros s1. split.
  - apply (start_busy_or_registers 8 CHECKPOINTS_source 5000000 (py "Bob")
             (py "SN2") [py "x"; py "9"; py " 3 "] 3 s1);
      [vm_compute; discriminate | reflexivity |].
    exists 0%nat, (TimerData_init (py "SN1") 3 (py "Alice") 0).
    repeat split. simpl. lia.
  - destruct (proj2 (start_busy_or_registers 8 CHECKPOINTS_source 0
                       (py " Alice ") (py "SN1") [py "3"] 3 (init [header])
                       ltac:(vm_compute; discriminate) eq_refl))
      as (s' & Hs & _ & _ & Ht & Hh).
    + by left.
    + exists s'. auto.
Defined.

(** ** The capture and review steps *)

Lemma fields_nodup : NoDup (fields.*1).
Proof. apply (bool_decide_unpack _). vm_compute. exact I. Qed.

Lemma fields_label_inj (i j : nat) (l : string) (ft ft' : FieldType) :
  fields !! i = Some (l, ft) → fields !! j = Some (l, ft') → i = j.
Proof.
  intros Hi Hj. apply (NoDup_lookup _ i j l fields_nodup).
  - by rewrite list_lookup_fmap, Hi.
  - by rewrite list_lookup_fmap, Hj.
Qed.

Lemma val_ok_weaken (strict : bool) (ft : FieldType) (v : Val) :
  val_ok strict ft v → val_ok false ft v.
Proof. destruct ft, v; simpl; auto. discriminate. Qed.

Lemma filled_empty (strict : bool) : filled strict 0 ∅.
Proof.
  split; [apply map_size_empty |]. intros i fld _.
  destruct (decide (i < 0)%nat); [lia | apply lookup_empty].
Qed.

(** Entering the next field. *)
Lemma filled_insert_new (strict : bool) (i : nat) (d : gmap string Val)
    (l : string) (ft : FieldType) (v : Val) :
  filled strict i d → fields !! i = Some (l, ft) → val_ok strict ft v →
  filled strict (S i) (<[l := v]> d).
Proof.
  intros [Hsize Hd] Hi Hv.
  assert (d !! l = None) as Hnone.
  { specialize (Hd i (l, ft) Hi). destruct (decide (i < i)%nat); [lia | done]. }
  split.
  - by rewrite map_size_insert_None, Hsize.
  - intros j [l' ft'] Hj. specialize (Hd j (l', ft') Hj). simpl in *.
    destruct (decide (l = l')) as [<- | Hne].
    + assert (j = i) as -> by (eapply fields_label_inj; eauto).
      assert (ft' = ft) as -> by congruence.
      destruct (decide (i < S i)%nat); [| lia].
      exists v. by rewrite lookup_insert_eq.
    + rewrite lookup_insert_ne by done.
      assert (j ≠ i) by (intros ->; congruence).
      destruct (decide (j < i)%nat), (decide (j < S i)%nat); try lia; done.
Qed.

(** Changing a field that is already there. *)
Lemma filled_insert_old (strict : bool) (n i : nat) (d : gmap string Val)
    (l : string) (ft : FieldType) (v : Val) :
  filled strict n d → (i < n)%nat → fields !! i = Some (l, ft) →
  val_ok strict ft v → filled strict n (<[l := v]> d).
Proof.
  intros [Hsize Hd] Hlt Hi Hv.
  assert (is_Some (d !! l)) as Hsome.
  { specialize (Hd i (l, ft) Hi). destruct (decide (i < n)%nat); [| lia].
    destruct Hd as (w & Hw & _). eauto. }
  split.
  - by rewrite map_size_insert_Some.
  - intros j [l' ft'] Hj. specialize (Hd j (l', ft') Hj). simpl in *.
    destruct (decide (l = l')) as [<- | Hne].
    + assert (j = i) as -> by (eapply fields_label_inj; eauto).
      assert (ft' = ft) as -> by congruence.
      destruct (decide (i < n)%nat); [| lia].
      exists v. by rewrite lookup_insert_eq.
    + by rewrite lookup_insert_ne.
Qed.

Lemma filled_complete (strict : bool) (n : nat) (d : gmap string Val) :
  (length fields ≤ n)%nat → filled strict n d → complete strict d.
Proof.
  intros Hn [_ Hd] fld Hin.
  apply list_elem_of_lookup in Hin as [i Hi].
  specialize (Hd i fld Hi).
  destruct (decide (i < n)%nat); [done |].
  apply lookup_lt_Some in Hi. lia.
Qed.

Lemma review_fold_None (d : gmap string Val) (fs : list (string * FieldType)) :
  fold_left (λ acc fld, review_field acc d fld) fs None = None.
Proof. induction fs; simpl; auto. Qed.

(** [review] copies, for every field, what [entries] holds. *)
Lemma review_fold_lookup (d : gmap string Val)
    (fs : list (string * FieldType)) (acc w : gmap string Val) (k : string) :
  fold_left (λ acc fld, review_field acc d fld) fs (Some acc) = Some w →
  w !! k = if decide (k ∈ fs.*1) then d !! k else acc !! k.
Proof.
  revert acc. induction fs as [|fld fs IH]; intros acc Hw; simpl in *.
  - destruct (decide (k ∈ [])) as [Hin|_]; [by apply elem_of_nil in Hin |].
    congruence.
  - destruct (d !! fld.1) as [v|] eqn:Hv; simpl in Hw;
      [| by rewrite review_fold_None in Hw].
    assert (∃ acc', (match fld.2, v with
                     | digit, VDigit iv dv => Some (<[fld.1 := VDigit iv dv]> acc)
                     | toggle, VToggle var => Some (<[fld.1 := VToggle var]> acc)
                     | _, _ => None
                     end) = Some acc' ∧ acc' = <[fld.1 := v]> acc)
      as (acc' & Hacc & ->).
    { destruct (fld.2), v; try (by rewrite review_fold_None in Hw); eauto. }
    rewrite Hacc in Hw. rewrite (IH _ Hw).
    destruct (decide (k ∈ fs.*1)) as [Hin|Hnin].
    + rewrite decide_True by (right; done). done.
    + destruct (decide (k = fld.1)) as [-> | Hne].
      * rewrite decide_True by left. by rewrite lookup_insert_eq.
      * rewrite decide_False by (intros Hk; inversion Hk; done).
        by rewrite lookup_insert_ne.
Qed.

Lemma review_ok (strict : bool) (d : gmap string Val) (ph : Phase) :
  complete strict d → review d = Some ph →
  ∃ w, ph = PReview w ∧ complete strict w ∧ ∀ fld, fld ∈ fields → w !! fld.1 = d !! fld.1.
Proof.
  intros Hd. unfold review.
  destruct (fold_left _ fields (Some ∅)) as [w|] eqn:Hw; simpl; [| done].
  intros [= <-]. exists w.
  assert (∀ fld, fld ∈ fields → w !! fld.1 = d !! fld.1) as Hsame.
  { intros fld Hin. rewrite (review_fold_lookup _ _ _ _ _ Hw).
    rewrite decide_True; [done |]. by apply list_elem_of_fmap_2. }
  repeat split; [| done].
  intros fld Hin. rewrite (Hsame fld Hin). by apply Hd.
Qed.

Lemma ask_ok (strict : bool) (n : nat) (d : gmap string Val) (ph : Phase) :
  filled strict n d → ask n d = Some ph → phase_ok strict ph.
Proof.
  intros Hd. unfold ask.
  destruct (fields !! n) as [[l [|]]|] eqn:Hn; intros [= <-]; simpl.
  - split; [by intros _ |]. eauto.
  - exists n. split; [done |].
    eapply filled_insert_new; eauto. simpl. by left.
Qed.

Lemma next_field_ok (strict : bool) (n : nat) (d : gmap string Val)
    (ph : Phase) :
  filled strict n d → next_field d = Some ph → phase_ok strict ph.
Proof.
  intros Hd. unfold next_field. rewrite (proj1 Hd).
  destruct (Nat.ltb_spec n (length fields)) as [Hlt|Hge].
  - by apply ask_ok.
  - intros Hr.
    destruct (review_ok strict d ph (filled_complete _ _ _ Hge Hd) Hr)
      as (w & -> & Hw & _).
    exact Hw.
Qed.

Lemma vcmd_key_edit (P cur : Py.str) :
  vcmd cur = true → vcmd (key_edit P cur) = true.
Proof. unfold key_edit. destruct (vcmd P) eqn:E; auto. Qed.

Lemma complete_insert (strict : bool) (w : gmap string Val) (l : string)
    (v v' : Val) :
  complete strict w → w !! l = Some v →
  (∀ ft, val_ok strict ft v → val_ok strict ft v') →
  complete strict (<[l := v']> w).
Proof.
  intros Hw Hl Hv fld Hin. destruct (Hw fld Hin) as (u & Hu & Hok).
  destruct (decide (l = fld.1)) as [-> | Hne].
  - exists v'. rewrite lookup_insert_eq. split; [done |].
    apply Hv. congruence.
  - exists u. by rewrite lookup_insert_ne.
Qed.

(** What a [save] that did not raise at [timers[station]] did: the
    error flag is set and the check counted; then either the row is
    written, the window closed and the semaphore released, or
    [write_excel] raised and nothing else changed. *)
Lemma save_Some (f : nat) (ev : Event) (widgets : gmap string Val)
    (now1 now2 : Py.datetime) (s s' : State) :
  save f ev widgets now1 now2 s = Some s' →
  ∃ (row : Row) (r : nat) (td : TimerData) (err : bool),
    save_row ev widgets now1 now2 = Some row
    ∧ timers s !! ev_station ev = Some r
    ∧ heap s !! r = Some td
    ∧ any_off widgets = Some err
    ∧ ((∃ cells : Row,
          mapM stored row = Some cells
          ∧ s' = mkState (timers s) (<[r := set_checked err td]> (heap s))
                         (workers s) (prompt_q s) (popups s)
                         (S (prompt_lock s)) (delete f (flows s))
                         (sheet s ++ [cells]))
       ∨ (mapM stored row = None
          ∧ s' = mkState (timers s) (<[r := set_checked err td]> (heap s))
                         (workers s) (prompt_q s) (popups s)
                         (prompt_lock s) (flows s) (sheet s))).
Proof.
  unfold save, write_excel. intros H.
  destruct (save_row ev widgets now1 now2) as [row|]; [| done].
  destruct (timers s !! ev_station ev) as [r|]; [| done].
  simpl in H. destruct (heap s !! r) as [td|] eqn:Htd; [| done].
  destruct (any_off widgets) as [err|]; [| done].
  simpl in H. exists row, r, td, err. repeat split; try done.
  destruct (mapM stored row) as [cells|]; simpl in H; injection H as <-;
    eauto.
Qed.

(** The four ways in which an action on a window changes the state. *)
Lemma flow_act_cases (f : nat) (a : Action) (s s' : State) :
  flow_act f a s = Some s' →
  ∃ fl : Flow,
    flows s !! f = Some fl
    ∧ ((∃ ph, s' = set_phase f (fl_event fl) ph s)
       ∨ s' = release (drop_flow f s)
       ∨ s' = drop_flow f s
       ∨ (∃ w now1 now2,
            fl_phase fl = PReview w
            ∧ save f (fl_event fl) w now1 now2 s = Some s')).
Proof.
  unfold flow_act. destruct (flows s !! f) as [[ev ph]|]; simpl; [| done].
  intros H. exists (mkFlow ev ph). split; [done |]. simpl.
  destruct ph as [|entries label iv dv|entries label|widgets], a as
    [typed|second P|off| |l second P|l off|now1 now2|now1 now2];
    simpl in H; try done.
  - destruct (negb _); [injection H as <-; auto |].
    destruct (ask 0 ∅); simplify_eq/=; eauto.
  - destruct second; injection H as <-; eauto.
  - destruct (next_field _); simplify_eq/=; eauto.
  - injection H as <-; auto.
  - injection H as <-; eauto.
  - destruct (next_field _); simplify_eq/=; eauto.
  - injection H as <-; auto.
  - destruct (widgets !! l) as [[e1 e2|]|]; simplify_eq/=; eauto.
  - destruct (widgets !! l) as [[|v]|]; simplify_eq/=; eauto.
  - right. right. right. eauto.
  - right. right. right. eauto.
Qed.

Lemma flow_act_flows_ok (strict : bool) (f : nat) (a : Action) (s s' : State) :
  flows_ok strict s → (strict = true → ¬ unvalidated_edit a) →
  flow_act f a s = Some s' → flows_ok strict s'.
Proof.
  unfold flows_ok, flow_act. intros Hok Hval H.
  destruct (flows s !! f) as [[ev ph]|] eqn:Hf; simpl in H; [| done].
  pose proof (Forall_lookup_1 _ _ _ _ Hok Hf) as Hph. simpl in Hph.
  destruct ph as [|entries label iv dv|entries label|widgets], a as
    [typed|second P|off| |l second P|l off|now1 now2|now1 now2];
    simpl in H; try done.
  - destruct (negb _).
    + injection H as <-. simpl. by apply Forall_delete.
    + injection H as <-.
      apply Forall_insert; [done |]. cbn [fl_phase].
      apply (ask_ok strict 0 ∅); [apply filled_empty | reflexivity].
  - destruct Hph as [Hv Hi].
    destruct second; injection H as <-; simpl;
      (apply Forall_insert; [done |]); simpl; (split; [| done]);
      intros Hs; destruct (Hv Hs); auto using vcmd_key_edit.
  - destruct (next_field _) as [ph|] eqn:Hnext; [| done].
    injection H as <-.
    apply Forall_insert; [done |]. simpl.
    destruct Hph as [Hv (i & Hi & Hfill)].
    eapply next_field_ok; [| done].
    eapply filled_insert_new; eauto.
  - injection H as <-. simpl. by apply Forall_delete.
  - injection H as <-. simpl. apply Forall_insert; [done |]. simpl.
    destruct Hph as (i & Hi & Hfill).
    exists i. split; [done |].
    eapply (filled_insert_old _ _ i); eauto. simpl.
    destruct off; auto.
  - destruct (next_field _) as [ph|] eqn:Hnext; [| done].
    injection H as <-.
    apply Forall_insert; [done |]. simpl.
    destruct Hph as (i & Hi & Hfill).
    eapply next_field_ok; done.
  - injection H as <-. simpl. by apply Forall_delete.
  - destruct (widgets !! l) as [[e1 e2|]|] eqn:Hl; try done.
    injection H as <-.
    apply Forall_insert; [done |]. simpl.
    assert (strict = true → vcmd P = true) as HP.
    { intros Hs. specialize (Hval Hs). simpl in Hval.
      by destruct (vcmd P). }
    destruct second; (eapply complete_insert; eauto);
      intros [|] Hd; simpl in *; try done;
      intros Hs; destruct (Hd Hs); auto.
  - destruct (widgets !! l) as [[|v]|] eqn:Hl; try done.
    injection H as <-.
    apply Forall_insert; [done |]. simpl.
    eapply complete_insert; eauto.
    intros [|] Hd; simpl in *; [done |]. destruct off; auto.
  - apply save_Some in H
      as (? & ? & ? & ? & _ & _ & _ & _ & [(? & _ & ->) | (_ & ->)]);
      simpl; [by apply Forall_delete | done].
  - apply save_Some in H
      as (? & ? & ? & ? & _ & _ & _ & _ & [(? & _ & ->) | (_ & ->)]);
      simpl; [by apply Forall_delete | done].
Qed.

(** ** Invariants of the reachable states *)

(** [start] and [cancel] touch neither the queue, nor the semaphore, nor
    the windows. *)
Lemma start_frame (NUM_STATIONS : Z) (CHECKPOINTS : list Z)
    (now : Py.datetime) (t sr : Py.str) (sts : list Py.str) (s : State) :
  let s' := (start NUM_STATIONS CHECKPOINTS now t sr sts s).2 in
  prompt_q s' = prompt_q s ∧ popups s' = popups s
  ∧ prompt_lock s' = prompt_lock s ∧ flows s' = flows s
  ∧ sheet s' = sheet s.
Proof.
  unfold start. destruct (Py.eqb _ _); [done |].
  destruct (station_loop _ _) as [| |st]; [done | done |].
  by destruct (station_busy _ _ _).
Qed.

Lemma cancel_frame (sel : option station_t) (yes : bool) (s : State) :
  let s' := (cancel sel yes s).2 in
  prompt_q s' = prompt_q s ∧ popups s' = popups s
  ∧ prompt_lock s' = prompt_lock s ∧ flows s' = flows s
  ∧ workers s' = workers s.
Proof.
  unfold cancel. destruct sel as [st|]; [| done].
  destruct (negb yes); [done |].
  by destruct (timers s !! st).
Qed.

Lemma start_registry_wf (NUM_STATIONS : Z) (CHECKPOINTS : list Z)
    (now : Py.datetime) (t sr : Py.str) (sts : list Py.str) (s : State) :
  registry_wf s →
  registry_wf (start NUM_STATIONS CHECKPOINTS now t sr sts s).2.
Proof.
  intros Hwf. unfold start. destruct (Py.eqb _ _); [done |].
  destruct (station_loop _ _) as [| |st]; [done | done |].
  destruct (station_busy _ _ _); [done |].
  intros st' r. simpl. rewrite length_app. simpl.
  destruct (decide (st = st')) as [<- | Hne].
  - rewrite lookup_insert_eq. intros [= <-]. lia.
  - rewrite lookup_insert_ne by done. intros Hr%Hwf. lia.
Qed.

Lemma cancel_registry_wf (sel : option station_t) (yes : bool) (s : State) :
  registry_wf s → registry_wf (cancel sel yes s).2.
Proof.
  intros Hwf. unfold cancel. destruct sel as [st|]; [| done].
  destruct (negb yes); [done |].
  destruct (timers s !! st) as [r0|] eqn:Hr0; [| done].
  intros st' r. simpl. rewrite length_alter.
  intros [_ Hr]%lookup_delete_Some. by apply Hwf in Hr.
Qed.

Lemma exec_registry_wf (NUM_STATIONS : Z) (CHECKPOINTS : list Z)
    (l : Label) (s s' : State) :
  registry_wf s → exec NUM_STATIONS CHECKPOINTS l s = Some s' →
  registry_wf s'.
Proof.
  intros Hwf. destruct l as [now t sr sts|sel yes|i| |p|f a]; simpl.
  - intros [= <-]. by apply start_registry_wf.
  - intros [= <-]. by apply cancel_registry_wf.
  - unfold worker_wake. destruct (workers s !! i) as [w|]; [| done]. simpl.
    destruct (heap s !! wk_td w); [| done]. by intros [= <-].
  - unfold consumer_get. destruct (prompt_q s); [done |]. by intros [= <-].
  - unfold popup_acquire. destruct (popups s !! p); [| done]. simpl.
    destruct (prompt_lock s); [done |]. by intros [= <-].
  - intros (fl & Hf & [[ph ->] | [-> | [-> | (w & n1 & n2 & _ & Hs)]]])%flow_act_cases;
      try done.
    apply save_Some in Hs
      as (? & r & ? & ? & _ & _ & _ & _ & [(? & _ & ->) | (_ & ->)]);
      intros st r'; simpl; rewrite length_insert; apply Hwf.
Qed.

Lemma exec_lock_inv (NUM_STATIONS : Z) (CHECKPOINTS : list Z)
    (l : Label) (s s' : State) :
  lock_inv s → exec NUM_STATIONS CHECKPOINTS l s = Some s' → lock_inv s'.
Proof.
  unfold lock_inv. intros Hinv.
  destruct l as [now t sr sts|sel yes|i| |p|f a]; simpl.
  - intros [= <-].
    destruct (start_frame NUM_STATIONS CHECKPOINTS now t sr sts s)
      as (_ & _ & -> & -> & _). done.
  - intros [= <-].
    destruct (cancel_frame sel yes s) as (_ & _ & -> & -> & _). done.
  - unfold worker_wake. destruct (workers s !! i) as [w|]; [| done]. simpl.
    destruct (heap s !! wk_td w); [| done]. by intros [= <-].
  - unfold consumer_get. destruct (prompt_q s); [done |]. by intros [= <-].
  - unfold popup_acquire. destruct (popups s !! p); [| done]. simpl.
    destruct (prompt_lock s) as [|n] eqn:Hn; [done |]. intros [= <-]. simpl.
    rewrite length_app. simpl. lia.
  - intros (fl & Hf & Hcases)%flow_act_cases.
    pose proof (lookup_lt_Some _ _ _ Hf) as Hlt.
    destruct Hcases as [[ph ->] | [-> | [-> | (w & n1 & n2 & _ & Hs)]]]; simpl.
    + by rewrite length_insert.
    + rewrite length_delete by eauto. lia.
    + rewrite length_delete by eauto. lia.
    + apply save_Some in Hs
        as (? & r & ? & ? & _ & _ & _ & _ & [(? & _ & ->) | (_ & ->)]);
        simpl; [rewrite length_delete by eauto |]; lia.
Qed.

Lemma exec_flows_ok (strict : bool) (NUM_STATIONS : Z) (CHECKPOINTS : list Z)
    (l : Label) (s s' : State) :
  flows_ok strict s → (strict = true → label_validated l) →
  exec NUM_STATIONS CHECKPOINTS l s = Some s' →
  flows_ok strict s'.
Proof.
  unfold flows_ok. intros Hok Hval.
  destruct l as [now t sr sts|sel yes|i| |p|f a]; simpl.
  - intros [= <-].
    destruct (start_frame NUM_STATIONS CHECKPOINTS now t sr sts s)
      as (_ & _ & _ & -> & _). done.
  - intros [= <-].
    destruct (cancel_frame sel yes s) as (_ & _ & _ & -> & _). done.
  - unfold worker_wake. destruct (workers s !! i) as [w|]; [| done]. simpl.
    destruct (heap s !! wk_td w); [| done]. by intros [= <-].
  - unfold consumer_get. destruct (prompt_q s); [done |]. by intros [= <-].
  - unfold popup_acquire. destruct (popups s !! p); [| done]. simpl.
    destruct (prompt_lock s) as [|n] eqn:Hn; [done |]. intros [= <-]. simpl.
    apply Forall_app. split; [done |]. by constructor.
  - by apply flow_act_flows_ok.
Qed.

Lemma reachable_inv (NUM_STATIONS : Z) (CHECKPOINTS : list Z)
    (ws : list Row) (s : State) :
  reachable NUM_STATIONS CHECKPOINTS ws s →
  registry_wf s ∧ lock_inv s ∧ flows_ok false s.
Proof.
  induction 1 as [|s l s' _ (Hwf & Hlock & Hok) Hexec].
  - repeat split.
    + intros st r. simpl. by rewrite lookup_empty.
    + unfold lock_inv. simpl. lia.
    + constructor.
  - repeat split.
    + eapply exec_registry_wf; eauto.
    + eapply exec_lock_inv; eauto.
    + eapply exec_flows_ok; eauto. discriminate.
Qed.

Lemma run_reachable (NUM_STATIONS : Z) (CHECKPOINTS : list Z)
    (ws : list Row) (ls : list Label) (s s' : State) :
  reachable NUM_STATIONS CHECKPOINTS ws s →
  run NUM_STATIONS CHECKPOINTS ls s = Some s' →
  reachable NUM_STATIONS CHECKPOINTS ws s'.
Proof.
  revert s. induction ls as [|l ls IH]; intros s Hs; simpl.
  - by intros [= <-].
  - destruct (exec _ _ l s) as [s1|] eqn:Hexec; [| done]. simpl.
    apply IH. by eapply reach_step.
Qed.

(** ** The prompt serialiser *)

(** A flow in progress holds the semaphore, and is alone. *)
Lemma flow_in_progress (NUM_STATIONS : Z) (CHECKPOINTS : list Z)
    (ws : list Row) (s : State) (f : nat) (fl : Flow) :
  reachable NUM_STATIONS CHECKPOINTS ws s → flows s !! f = Some fl →
  f = 0%nat ∧ flows s = [fl] ∧ prompt_lock s = 0%nat.
Proof.
  intros (_ & Hlock & _)%reachable_inv Hf. unfold lock_inv in Hlock.
  pose proof (lookup_lt_Some _ _ _ Hf) as Hlt.
  destruct (flows s) as [|fl0 [|fl1 fs]] eqn:Hfs; simpl in *; try lia.
  destruct f; simpl in *; [| lia]. injection Hf as ->.
  repeat split. lia.
Qed.

(** C5. In every reachable state at most one flow is in progress; a
    waiting prompt gets the semaphore, and with it the operator's
    attention, only when no flow is in progress, which starts its
    verification; a worker puts its event at the tail of the queue; and
    the consumer takes the events off the head of the queue, handing each
    to a waiting prompt of its own without touching the flows. *)
Theorem one_flow_at_a_time (NUM_STATIONS : Z) (CHECKPOINTS : list Z)
    (ws : list Row) (s : State) :
  reachable NUM_STATIONS CHECKPOINTS ws s →
  (length (flows s) ≤ 1)%nat
  ∧ (flows s ≠ [] →
     ∀ p, exec NUM_STATIONS CHECKPOINTS (LAcquire p) s = None)
  ∧ (∀ p s', exec NUM_STATIONS CHECKPOINTS (LAcquire p) s = Some s' →
       flows s = []
       ∧ ∃ ev, popups s !! p = Some ev
               ∧ flows s' = [mkFlow ev PVerify]
               ∧ prompt_q s' = prompt_q s)
  ∧ (∀ i s', exec NUM_STATIONS CHECKPOINTS (LWake i) s = Some s' →
       (prompt_q s' = prompt_q s ∨ ∃ ev, prompt_q s' = prompt_q s ++ [ev])
       ∧ flows s' = flows s)
  ∧ (∀ s', exec NUM_STATIONS CHECKPOINTS LGet s = Some s' →
       ∃ ev, prompt_q s = ev :: prompt_q s'
             ∧ popups s' = popups s ++ [ev]
             ∧ flows s' = flows s
             ∧ prompt_lock s' = prompt_lock s).
Proof.
  intros Hreach.
  pose proof (reachable_inv _ _ _ _ Hreach) as (_ & Hlock & _).
  unfold lock_inv in Hlock. split; [lia |]. split; [| split; [| split]].
  - intros Hne p. simpl. unfold popup_acquire.
    destruct (popups s !! p); [| done]. simpl.
    destruct (prompt_lock s) eqn:Hn; [done |].
    destruct (flows s); [done | simpl in Hlock; lia].
  - intros p s' Hacq. simpl in Hacq. unfold popup_acquire in Hacq.
    destruct (popups s !! p) as [ev|]; [| done]. simpl in Hacq.
    destruct (prompt_lock s); [done |]. injection Hacq as <-. simpl.
    assert (flows s = []) as ->
      by (destruct (flows s); [done | simpl in Hlock; lia]).
    split; [done |]. by exists ev.
  - intros i s'. simpl. unfold worker_wake.
    destruct (workers s !! i) as [w|]; [| done]. simpl.
    destruct (heap s !! wk_td w) as [td|]; [| done]. simpl.
    intros [= <-]. simpl. split; [| done].
    destruct (cancelled td); eauto.
  - intros s'. simpl. unfold consumer_get.
    destruct (prompt_q s) as [|ev q]; [done |]. intros [= <-]. simpl.
    by exists ev.
Qed.

Lemma one_flow_at_a_time_witness :
  ∃ s : State,
    run8 (two_stations_fire ++ [LGet; LGet; LAcquire 0]) (init [header])
    = Some s
    ∧ length (flows s) = 1%nat
    ∧ length (popups s) = 1%nat
    ∧ exec 8 CHECKPOINTS_source (LAcquire 0) s = None.
Proof.
  eexists. split; [vm_compute; reflexivity |].
  split; [reflexivity |]. split; [reflexivity |].
  eapply (one_flow_at_a_time 8 CHECKPOINTS_source [header]).
  - apply (run_reachable 8 CHECKPOINTS_source [header]
             (two_stations_fire ++ [LGet; LGet; LAcquire 0]) (init [header]));
      [apply reach_init |].
    vm_compute. reflexivity.
  - discriminate.
Defined.

(** C5, as stated, fails: with the events of stations 3 and 5 queued in
    this order, the prompt of station 5 can get the semaphore while the
    prompt of station 3 still waits. *)
Lemma service_order_counterexample :
  ¬ served_in_queue_order 8 CHECKPOINTS_source.
Proof.
  intros Hfifo.
  assert (∃ (s s' : State) (e1 e2 : Event),
            run8 two_stations_fire (init [header]) = Some s
            ∧ prompt_q s = [e1; e2] ∧ ev_station e1 = 3 ∧ ev_station e2 = 5
            ∧ run8 [LGet; LGet; LAcquire 1] s = Some s'
            ∧ flows s' = [mkFlow e2 PVerify] ∧ popups s' = [e1])
    as (s & s' & e1 & e2 & Hs & Hq & H1 & H2 & Hs' & Hf & Hp).
  { do 4 eexists. split; [vm_compute; reflexivity |].
    vm_compute. repeat split. }
  destruct (Hfifo [header] s s' [LGet; LGet; LAcquire 1] e1 e2 [] PVerify)
    as [_ Hwait]; try done.
  - eapply run_reachable; [apply reach_init | exact Hs].
  - intros ->. rewrite H1 in H2. discriminate.
  - rewrite Hf. by left.
  - apply Hwait. rewrite Hp. by left.
Qed.

(** C6. When the rescanned serial differs from the serial of the event,
    the flow ends at once: no record is written, no timer changes, the
    events still waiting keep waiting, and the semaphore is free again, so
    that any waiting prompt can start. *)
Theorem mismatch_abandons (NUM_STATIONS : Z) (CHECKPOINTS : list Z)
    (ws : list Row) (s : State) (f : nat) (ev : Event) (typed : Py.str) :
  reachable NUM_STATIONS CHECKPOINTS ws s →
  flows s !! f = Some (mkFlow ev PVerify) →
  scan typed ≠ ev_serial ev →
  ∃ s' : State,
    exec NUM_STATIONS CHECKPOINTS (LAct f (AScan typed)) s = Some s'
    ∧ sheet s' = sheet s
    ∧ heap s' = heap s ∧ timers s' = timers s
    ∧ prompt_q s' = prompt_q s ∧ popups s' = popups s
    ∧ flows s' = [] ∧ prompt_lock s' = 1%nat
    ∧ ∀ p ev', popups s' !! p = Some ev' →
        ∃ s'', exec NUM_STATIONS CHECKPOINTS (LAcquire p) s' = Some s''
               ∧ flows s'' = [mkFlow ev' PVerify].
Proof.
  intros Hreach Hf Hne.
  destruct (flow_in_progress _ _ _ _ _ _ Hreach Hf) as (-> & Hfs & Hlock).
  simpl. unfold flow_act. rewrite Hf. simpl.
  destruct (str_eqb_spec (scan typed) (ev_serial ev)) as [E|_];
    [contradiction |]. simpl.
  eexists. split; [reflexivity |]. simpl. rewrite Hfs, Hlock. simpl.
  repeat split.
  intros p ev' Hp. unfold popup_acquire. simpl. rewrite Hp. simpl.
  eexists. split; [reflexivity |]. simpl. by rewrite Hfs.
Qed.

Lemma mismatch_abandons_witness :
  ∃ s s' : State,
    run8 (two_stations_fire ++ [LGet; LGet; LAcquire 0]) (init [header])
    = Some s
    ∧ exec 8 CHECKPOINTS_source (LAct 0 (AScan (py "SN7"))) s = Some s'
    ∧ sheet s' = [header]
    ∧ heap s' = heap s
    ∧ flows s' = [] ∧ prompt_lock s' = 1%nat
    ∧ length (popups s') = 1%nat.
Proof.
  assert (∃ s ev, run8 (two_stations_fire ++ [LGet; LGet; LAcquire 0])
                       (init [header]) = Some s
                  ∧ flows s !! 0%nat = Some (mkFlow ev PVerify)
                  ∧ ev_serial ev = py "SN1" ∧ sheet s = [header]
                  ∧ length (popups s) = 1%nat)
    as (s & ev & Hs & Hf & Hse & Hsh & Hp).
  { do 2 eexists. split; [vm_compute; reflexivity |].
    vm_compute. repeat split. }
  exists s.
  destruct (mismatch_abandons 8 CHECKPOINTS_source [header] s 0 ev
              (py "SN7"))
    as (s' & Hex & Hsheet & Hheap & _ & _ & Hpop & Hfl & Hlk & _).
  - exact (run_reachable 8 CHECKPOINTS_source [header] _ _ _
             (reach_init 8 CHECKPOINTS_source [header]) Hs).
  - exact Hf.
  - rewrite Hse. discriminate.
  - exists s'. rewrite Hsheet, Hpop. auto 10.
Defined.

(** ** Commit *)

Lemma review_toggles (NUM_STATIONS : Z) (CHECKPOINTS : list Z)
    (ws : list Row) (s : State) (f : nat) (ev : Event)
    (widgets : gmap string Val) :
  reachable NUM_STATIONS CHECKPOINTS ws s →
  flows s !! f = Some (mkFlow ev (PReview widgets)) →
  complete false widgets
  ∧ ∃ c l : Py.str,
      widgets !! "Control Light"%string = Some (VToggle c)
      ∧ widgets !! "Load Bank Light"%string = Some (VToggle l)
      ∧ (c = py "ON" ∨ c = py "OFF") ∧ (l = py "ON" ∨ l = py "OFF")
      ∧ any_off widgets
        = Some (Py.eqb c (py "OFF") || Py.eqb l (py "OFF")).
Proof.
  intros (_ & _ & Hok)%reachable_inv Hf.
  pose proof (Forall_lookup_1 _ _ _ _ Hok Hf) as Hw. simpl in Hw.
  split; [done |].
  destruct (Hw ("Control Light"%string, toggle)) as ([|c] & Hc & Hcok);
    [apply (list_elem_of_lookup_2 _ 4); reflexivity | done |].
  destruct (Hw ("Load Bank Light"%string, toggle)) as ([|l] & Hl & Hlok);
    [apply (list_elem_of_lookup_2 _ 5); reflexivity | done |].
  simpl in Hc, Hl. exists c, l. repeat split; try done.
  unfold any_off, is_off. rewrite Hc, Hl. simpl.
  by destruct (Py.eqb c (py "OFF")).
Qed.

(** C7. A committed check sets the error flag of the station's timer to
    whether one of the two lights of that very check is OFF, whatever the
    flag was before, and counts the check. *)
Theorem error_flag_is_last_check (NUM_STATIONS : Z) (CHECKPOINTS : list Z)
    (ws : list Row) (s s' : State) (f : nat) (ev : Event)
    (widgets : gmap string Val) (now1 now2 : Py.datetime) :
  reachable NUM_STATIONS CHECKPOINTS ws s →
  flows s !! f = Some (mkFlow ev (PReview widgets)) →
  exec NUM_STATIONS CHECKPOINTS (LAct f (AConfirm now1 now2)) s = Some s' →
  ∃ (r : nat) (td td' : TimerData) (c l : Py.str),
    timers s !! ev_station ev = Some r
    ∧ heap s !! r = Some td
    ∧ widgets !! "Control Light"%string = Some (VToggle c)
    ∧ widgets !! "Load Bank Light"%string = Some (VToggle l)
    ∧ heap s' !! r = Some td'
    ∧ (error td' = true ↔ c = py "OFF" ∨ l = py "OFF")
    ∧ done_checks td' = S (done_checks td).
Proof.
  intros Hreach Hf Hexec.
  destruct (review_toggles _ _ _ _ _ _ _ Hreach Hf)
    as (_ & c & l & Hc & Hl & _ & _ & Hany).
  simpl in Hexec. unfold flow_act in Hexec. rewrite Hf in Hexec.
  simpl in Hexec.
  apply save_Some in Hexec as (row & r & td & err & _ & Hr & Htd & He & Hs').
  rewrite Hany in He. injection He as <-.
  exists r, td,
    (set_checked (Py.eqb c (py "OFF") || Py.eqb l (py "OFF")) td), c, l.
  repeat split; try done.
  - destruct Hs' as [(? & _ & ->) | (_ & ->)]; simpl;
      apply list_lookup_insert_eq; by eapply lookup_lt_Some.
  - simpl. intros [E|E]%orb_true_iff; apply str_eqb_eq in E; auto.
  - simpl. intros [-> | ->]; [by rewrite str_eqb_refl |].
    rewrite str_eqb_refl. apply orb_true_r.
Qed.

Lemma error_flag_is_last_check_witness :
  ∃ (s s' : State) (td td' : TimerData),
    run8 fault_then_review (init [header]) = Some s
    ∧ exec 8 CHECKPOINTS_source (LAct 0 (AConfirm 40000000 40000000)) s
      = Some s'
    ∧ heap s !! 0%nat = Some td ∧ error td = true
    ∧ heap s' !! 0%nat = Some td' ∧ error td' = false
    ∧ done_checks td' = 2%nat.
Proof.
  assert (∃ s s' ev w td,
            run8 fault_then_review (init [header]) = Some s
            ∧ exec 8 CHECKPOINTS_source (LAct 0 (AConfirm 40000000 40000000)) s
              = Some s'
            ∧ flows s !! 0%nat = Some (mkFlow ev (PReview w))
            ∧ ev_station ev = 3
            ∧ w !! "Control Light"%string = Some (VToggle (py "ON"))
            ∧ w !! "Load Bank Light"%string = Some (VToggle (py "ON"))
            ∧ timers s !! 3 = Some 0%nat
            ∧ heap s !! 0%nat = Some td ∧ error td = true
            ∧ done_checks td = 1%nat)
    as (s & s' & ev & w & td & Hs & Hs' & Hf & Hst & Hc & Hl & Hr & Htd & He & Hd).
  { do 5 eexists. split; [vm_compute; reflexivity |].
    split; [vm_compute; reflexivity |]. vm_compute. repeat split. }
  destruct (error_flag_is_last_check 8 CHECKPOINTS_source [header] s s' 0 ev w
              40000000 40000000
              (run_reachable 8 CHECKPOINTS_source [header] _ _ _
                 (reach_init 8 CHECKPOINTS_source [header]) Hs) Hf Hs')
    as (r & td0 & td' & c & l & Hr' & Htd0 & Hc' & Hl' & Htd' & Herr & Hdone).
  rewrite Hst in Hr'.
  assert (r = 0%nat) as -> by congruence.
  assert (td0 = td) as -> by congruence.
  assert (c = py "ON") as -> by congruence.
  assert (l = py "ON") as -> by congruence.
  exists s, s', td, td'.
  split; [exact Hs |]. split; [exact Hs' |]. split; [exact Htd |].
  split; [exact He |]. split; [exact Htd' |]. clear Hs Hs'. split.
  - destruct (error td'); [| reflexivity].
    destruct (proj1 Herr eq_refl) as [E|E]; discriminate E.
  - rewrite Hdone, Hd. reflexivity.
Defined.

(** C7, as stated, fails: the fault of the first check is forgotten when
    the second check is committed with both lights ON. *)
Lemma error_flag_counterexample : ¬ error_is_sticky 8 CHECKPOINTS_source.
Proof.
  intros Hsticky.
  assert (∃ s s' td td',
            run8 fault_then_review (init [header]) = Some s
            ∧ exec 8 CHECKPOINTS_source (LAct 0 (AConfirm 40000000 40000000)) s
              = Some s'
            ∧ heap s !! 0%nat = Some td ∧ error td = true
            ∧ heap s' !! 0%nat = Some td' ∧ error td' = false)
    as (s & s' & td & td' & Hs & Hs' & Htd & He & Htd' & He').
  { do 4 eexists. split; [vm_compute; reflexivity |].
    split; [vm_compute; reflexivity |]. vm_compute. repeat split. }
  pose proof (Hsticky [header] s s' _ 0%nat td td'
                (run_reachable 8 CHECKPOINTS_source [header] _ _ _
                   (reach_init 8 CHECKPOINTS_source [header]) Hs)
                Hs' Htd Htd' He) as Habs.
  rewrite He' in Habs. discriminate Habs.
Qed.

(** ** The persisted row *)


Lemma digit_not_sign (a : N) :
  Py.is_digit a = true → ((a =? 43) || (a =? 45))%N = false.
Proof.
  intros Ha. destruct (N.eqb_spec a 43) as [-> | _]; [done |].
  destruct (N.eqb_spec a 45) as [-> | _]; done.
Qed.


(** A box filled under [vcmd] is persisted as two digits. *)
Lemma zfill_vcmd (e : Py.str) :
  vcmd e = true → two_digit_string (Py.zfill 2 e).
Proof.
  unfold vcmd, two_digit_string.
  destruct e as [|a [|b [|c e]]].
  - intros _. exists 48%N, 48%N. by vm_compute.
  - intros [[Ha _]%andb_true_iff | Habs]%orb_true_iff; [| done].
    simpl in Ha. rewrite andb_true_r in Ha.
    exists 48%N, a. unfold Py.zfill. simpl.
    rewrite (digit_not_sign a Ha). auto.
  - intros [[Hab _]%andb_true_iff | Habs]%orb_true_iff; [| done].
    simpl in Hab. rewrite andb_true_r in Hab.
    apply andb_true_iff in Hab as [Ha Hb]. exists a, b. auto.
  - intros [[_ Hlen]%andb_true_iff | Habs]%orb_true_iff; done.
Qed.

Lemma field_cell_ok (strict : bool) (w : gmap string Val)
    (fld : string * FieldType) :
  complete strict w → fld ∈ fields →
  ∃ c, field_cell w fld = Some c ∧ cell_ok strict fld.2 c.
Proof.
  intros Hw Hin. destruct (Hw fld Hin) as (v & Hv & Hok).
  unfold field_cell. rewrite Hv. simpl.
  destruct fld as [l [|]], v as [e1 e2|var]; simpl in *; try done.
  - eexists. split; [reflexivity |]. eexists. split; [reflexivity |].
    split; [by destruct (Py.zfill 2 e1) |].
    intros Hs. destruct (Hok Hs) as [H1 H2].
    exists (Py.zfill 2 e1), (Py.zfill 2 e2). auto using zfill_vcmd.
  - eexists. split; [reflexivity |]. destruct Hok as [-> | ->]; auto.
Qed.

(** The row that [save] builds from a complete set of widgets. *)
Lemma save_row_ok (strict : bool) (ev : Event) (w : gmap string Val)
    (now1 now2 : Py.datetime) :
  complete strict w →
  ∃ cells : list Cell,
    save_row ev w now1 now2
    = Some ([ CStr (ev_serial ev); CInt (ev_station ev);
              CInt (Z.of_nat (ev_idx ev));
              CStr (Py.strftime_HMS (ev_sched ev));
              CStr (Py.strftime_HMS now1);
              CInt (Z.abs (Py.int_total_seconds (now2 - ev_sched ev))) ]
            ++ cells ++ [ CStr (ev_tech ev) ])
    ∧ Forall2 (λ fld c, cell_ok strict fld.2 c) fields cells.
Proof.
  intros Hw.
  assert (is_Some (mapM (field_cell w) fields)) as [cells Hcells].
  { apply mapM_is_Some, Forall_forall. intros fld Hin. simpl.
    destruct (field_cell_ok strict w fld Hw Hin) as (c & -> & _). eauto. }
  exists cells. unfold save_row. rewrite Hcells. split; [reflexivity |].
  apply mapM_Some in Hcells.
  apply Forall2_same_length_lookup in Hcells as [Hlen Hcells].
  apply Forall2_same_length_lookup. split; [exact Hlen |].
  intros i fld c Hfld Hc. specialize (Hcells i fld c Hfld Hc).
  destruct (field_cell_ok strict w fld Hw (list_elem_of_lookup_2 _ _ _ Hfld))
    as (c' & Hc' & Hok).
  congruence.
Qed.

(** ** What the worksheet keeps *)

Lemma check_string_short (s : Py.str) :
  (length s ≤ Openpyxl.max_length)%nat →
  existsb Openpyxl.illegal_char s = false →
  Openpyxl.check_string s = Some s.
Proof.
  intros Hlen Hlegal. unfold Openpyxl.check_string.
  by rewrite take_ge, Hlegal.
Qed.

Lemma stored_text (s : Py.str) (c : Cell) :
  stored (CStr s) = Some c →
  existsb Openpyxl.illegal_char (take Openpyxl.max_length s) = false
  ∧ c = match take Openpyxl.max_length s with
        | [] => CNone
        | _ => CStr (take Openpyxl.max_length s)
        end.
Proof.
  unfold stored, Openpyxl.check_string.
  destruct (existsb _ _); [done |]. simpl. by intros [= <-].
Qed.

Lemma stored_refused (c : Cell) :
  stored c = None →
  ∃ s, c = CStr s
       ∧ existsb Openpyxl.illegal_char (take Openpyxl.max_length s) = true.
Proof.
  destruct c as [s| |]; try done. unfold stored, Openpyxl.check_string.
  destruct (existsb _ _) eqn:E; [eauto | done].
Qed.

Lemma max_length_pos : (0 < Openpyxl.max_length)%nat.
Proof. unfold Openpyxl.max_length. lia. Qed.

(** The time of day is kept as it is written. *)
Lemma stored_HMS (t : Py.datetime) :
  stored (CStr (Py.strftime_HMS t)) = Some (CStr (Py.strftime_HMS t)).
Proof.
  unfold stored. rewrite check_string_short; [done | |].
  - unfold Py.strftime_HMS, Py.two_digits. change (py ":") with [58%N].
    cbn [length app]. unfold Openpyxl.max_length. lia.
  - unfold Py.strftime_HMS, Py.two_digits. change (py ":") with [58%N].
    cbn [app].
    assert (∀ k, Openpyxl.illegal_char (48 + k) = false) as Hk.
    { intros k. unfold Openpyxl.illegal_char.
      destruct (N.leb_spec (48 + k) 8), (N.leb_spec (48 + k) 12),
        (N.leb_spec (48 + k) 31); try lia; simpl;
        by rewrite ?andb_false_r. }
    cbn [existsb]. by rewrite !Hk.
Qed.

(** A stored cell of a field is a cell of that field still. *)
Lemma stored_cell_ok (strict : bool) (ft : FieldType) (c c' : Cell) :
  cell_ok strict ft c → stored c = Some c' → cell_ok strict ft c'.
Proof.
  destruct ft; simpl.
  - intros (x & -> & Hx & Hnn) (Hlegal & ->)%stored_text.
    destruct (take Openpyxl.max_length x) as [|a v] eqn:E.
    + exfalso. destruct x as [|a x]; [done |].
      pose proof max_length_pos.
      destruct Openpyxl.max_length; [lia | done].
    + exists (a :: v). split; [done |]. split; [done |].
      intros Hs. pose proof (Hnn Hs) as Hx'.
      destruct Hx' as (w & f & Ex & (a1 & b1 & -> & _) & (a2 & b2 & -> & _)).
      rewrite <- E. rewrite take_ge; [exact (Hnn Hs) |].
      rewrite Ex. unfold Openpyxl.max_length. simpl. lia.
  - intros [-> | ->] [= <-]; auto.
Qed.

(** ** The review step *)





(** A commit either is refused by the worksheet, which is left as it
    is, with the window and the semaphore, or appends a row: its toggles are ON or OFF, in every reachable
    state, and its numbers have the form NN.NN when every box passes
    [vcmd]. *)
Lemma committed_cells (strict : bool) (NUM_STATIONS : Z)
    (CHECKPOINTS : list Z) (ws : list Row) (s s' : State) (f : nat)
    (ev : Event) (w : gmap string Val) (now1 now2 : Py.datetime) :
  reachable NUM_STATIONS CHECKPOINTS ws s →
  flows s !! f = Some (mkFlow ev (PReview w)) →
  (strict = true → complete true w) →
  exec NUM_STATIONS CHECKPOINTS (LAct f (AConfirm now1 now2)) s = Some s' →
  (∃ row : Row,
     save_row ev w now1 now2 = Some row
     ∧ write_excel row (sheet s) = None
     ∧ sheet s' = sheet s ∧ flows s' = flows s
     ∧ prompt_lock s' = prompt_lock s)
  ∨ ∃ (row : Row) (cells : list Cell) (c_tech : Cell),
      sheet s' = sheet s ++ [row]
      ∧ drop 6 row = cells ++ [c_tech]
      ∧ stored (CStr (ev_tech ev)) = Some c_tech
      ∧ Forall2 (λ fld c, cell_ok strict fld.2 c) fields cells.
Proof.
  intros Hreach Hf Hstrict Hexec.
  assert (complete strict w) as Hw.
  { destruct strict; [auto |].
    by destruct (review_toggles _ _ _ _ _ _ _ Hreach Hf). }
  simpl in Hexec. unfold flow_act in Hexec. rewrite Hf in Hexec.
  simpl in Hexec.
  apply save_Some in Hexec
    as (row & ? & ? & ? & Hrow & _ & _ & _
        & [(stored_row & Hst & ->) | (Hnone & ->)]).
  2: { left. exists row. unfold write_excel. by rewrite Hnone. }
  right.
  destruct (save_row_ok strict ev w now1 now2 Hw) as (cells & Hrow' & Hcells).
  rewrite Hrow' in Hrow. injection Hrow as <-.
  apply mapM_Some in Hst.
  do 6 (apply Forall2_cons_inv_l in Hst as (? & ? & _ & Hst & ->)).
  apply Forall2_app_inv_l in Hst as (cells' & t' & Hc' & Ht & ->).
  apply Forall2_cons_inv_l in Ht as (c_tech & ? & Htech & ->%Forall2_nil_inv_l
                                     & ->).
  eexists _, cells', c_tech.
  split; [reflexivity |]. split; [reflexivity |].
  split; [done |].
  apply Forall2_same_length_lookup. split.
  { rewrite (Forall2_length _ _ _ Hcells). exact (Forall2_length _ _ _ Hc'). }
  intros i fld c' Hfld Hci.
  destruct (Forall2_lookup_r _ _ _ _ _ Hc' Hci) as (c & Hc & Hsc).
  eapply stored_cell_ok; [| exact Hsc].
  exact (Forall2_lookup_lr _ _ _ _ _ _ Hcells Hfld Hc).
Qed.


Lemma not_NN_NN_long (x : Py.str) : length x ≠ 5%nat → ¬ NN_NN x.
Proof.
  intros Hlen (w & f & -> & (a & b & -> & _) & (c & d & -> & _)).
  by apply Hlen.
Qed.

(** C9. After a capture of 12.34 the operator, in the review step, types
    1x3 over the 12; the row is committed with the voltage 1x3.34, which
    is not of the form NN.NN. *)
Theorem review_edit_is_persisted_as_typed :
  ∃ (s : State) (row : Row),
    run8 (first_check_in_review
            ++ [ LAct 0 (AEdit "Voltage" false (py "1x3"));
                 LAct 0 (AConfirm 21000000 21000000) ])
         (init [header]) = Some s
    ∧ sheet s = [header; row]
    ∧ row !! 6%nat = Some (CStr (py "1x3.34"))
    ∧ vcmd (py "1x3") = false
    ∧ ¬ NN_NN (py "1x3.34").
Proof.
  do 2 eexists. split; [vm_compute; reflexivity |].
  split; [reflexivity |]. split; [reflexivity |]. split; [reflexivity |].
  apply not_NN_NN_long. discriminate.
Qed.

(** ** Stale events *)

(** Serving an event does not look at the registry: a cancellation
    changes nothing to what the consumer and the waiting prompts do. *)
Lemma serve_ignores_cancellation (st : station_t) (s : State) (p : nat) :
  let s_c := (cancel (Some st) true s).2 in
  flows <$> popup_acquire p s_c = flows <$> popup_acquire p s
  ∧ popups <$> consumer_get s_c = popups <$> consumer_get s.
Proof.
  destruct (cancel_frame (Some st) true s) as (Hq & Hp & Hl & Hf & _).
  cbv zeta in *. unfold popup_acquire, consumer_get. rewrite Hq, Hp, Hl, Hf.
  split.
  - destruct (popups s !! p); [| done]. simpl. by destruct (prompt_lock s).
  - by destruct (prompt_q s).
Qed.

(** A worker that wakes after the cancellation puts nothing on the queue:
    the check at fire time. *)
Lemma worker_wake_cancelled (CHECKPOINTS : list Z) (i : nat) (w : Worker)
    (td : TimerData) (s s' : State) :
  workers s !! i = Some w → heap s !! wk_td w = Some td →
  cancelled td = true →
  worker_wake CHECKPOINTS i s = Some s' → prompt_q s' = prompt_q s.
Proof.
  intros Hw Htd Hc. unfold worker_wake. rewrite Hw. simpl.
  rewrite Htd. simpl. rewrite Hc. by intros [= <-].
Qed.

(** C2. The event of station 3 waits for the semaphore, station 3 is
    cancelled, and the event is served all the same: its prompt opens the
    rescan dialog although the station is gone from the registry and its
    timer is cancelled.  When the operator answers the prompt, the commit
    raises and the semaphore stays taken. *)
Theorem stale_event_is_served :
  (∃ (s : State) (ev : Event),
     run8 cancel_while_waiting (init [header]) = Some s
     ∧ flows s = [mkFlow ev PVerify]
     ∧ ev_station ev = 3
     ∧ timers s !! 3 = None
     ∧ cancelled <$> heap s !! 0%nat = Some true)
  ∧ (∃ s : State,
       run8 (cancel_while_waiting
               ++ [LAct 0 (AScan (py "SN1"))]
               ++ capture (py "12") (py "34") false)
            (init [header]) = Some s
       ∧ sheet s = [header]
       ∧ exec 8 CHECKPOINTS_source (LAct 0 (AConfirm 30000000 30000000)) s
         = None
       ∧ prompt_lock s = 0%nat).
Proof.
  split.
  - do 2 eexists. split; [vm_compute; reflexivity |]. vm_compute. repeat split.
  - eexists. split; [vm_compute; reflexivity |]. vm_compute. repeat split.
Qed.

(** When the station has been registered again before the stale prompt is
    answered, the commit appends a record under the serial of the
    cancelled device and counts a check for the new one. *)
Lemma stale_event_after_reuse :
  ∃ (s : State) (row : Row),
    run8 cancel_then_reuse (init [header]) = Some s
    ∧ sheet s = [header; row]
    ∧ row !! 0%nat = Some (CStr (py "SN1"))
    ∧ serial <$> heap s !! 1%nat = Some (py "SN9")
    ∧ done_checks <$> heap s !! 1%nat = Some 1%nat.
Proof.
  do 2 eexists. split; [vm_compute; reflexivity |]. vm_compute. repeat split.
Qed.

(** * Further properties *)

(** ** Decimal numbers *)

(** The decimal digits have the values zero to nine. *)
Lemma decimal_value_range (c : N) (v : Z) :
  Py.decimal_value c = Some v → 0 ≤ v ≤ 9.
Proof.
  unfold Py.decimal_value.
  destruct (List.find _ Py.decimal_zeros) as [z|] eqn:E; [| done].
  apply find_some in E as [_ [H1%N.leb_le H2%N.leb_le]%andb_true_iff]. cbn.
  intros [= <-]. lia.
Qed.

Lemma decimal_value_digit (c : N) (v : Z) :
  Py.decimal_value c = Some v → Py.is_digit c = true.
Proof. unfold Py.is_digit. by intros ->. Qed.

Lemma digit_text_step (c : ascii) (v : Z) (s : string) (ds : list Z) :
  Py.decimal_value (N_of_ascii c) = Some v →
  Py.is_ascii_digit (N_of_ascii c) = true →
  mapM Py.decimal_value (py s) = Some ds ∧ forallb Py.is_ascii_digit (py s) = true →
  mapM Py.decimal_value (py (String c s)) = Some (v :: ds)
  ∧ forallb Py.is_ascii_digit (py (String c s)) = true.
Proof.
  intros Hv Ha [Hds Hascii].
  change (py (String c s)) with (N_of_ascii c :: py s).
  cbn [mapM forallb]. rewrite Hv, Hds, Ha, Hascii. done.
Qed.

Ltac uint_digit v IH :=
  let ds := fresh "ds" in
  let Hds := fresh "Hds" in
  let Hlen := fresh "Hlen" in
  let Hval := fresh "Hval" in
  destruct IH as (ds & Hds & Hlen & Hval);
  exists (v :: ds); split;
  [ apply digit_text_step; [reflexivity | reflexivity | exact Hds]
  | split;
    [ cbn [Decimal.nb_digits]; rewrite <- Hlen; reflexivity
    | let d' := fresh "d" in
      let acc := fresh "acc" in
      intros d' acc ->; cbn [fold_left Decimal.revapp]; apply Hval;
      cbn [DecimalPos.Unsigned.of_lu]; lia ] ].

(** The text of a decimal numeral, digit by digit. *)
Lemma uint_text (d : Decimal.uint) :
  ∃ ds : list Z,
    (mapM Py.decimal_value (py (DecimalString.NilEmpty.string_of_uint d))
     = Some ds
     ∧ forallb Py.is_ascii_digit
               (py (DecimalString.NilEmpty.string_of_uint d)) = true)
    ∧ length (py (DecimalString.NilEmpty.string_of_uint d))
      = Decimal.nb_digits d
    ∧ ∀ (d' : Decimal.uint) (acc : Z),
        acc = Z.of_N (DecimalPos.Unsigned.of_lu d') →
        fold_left (λ a v, 10 * a + v) ds acc
        = Z.of_N (DecimalPos.Unsigned.of_lu (Decimal.revapp d d')).
Proof.
  induction d as [|d IH|d IH|d IH|d IH|d IH|d IH|d IH|d IH|d IH|d IH];
    [by exists []
    | uint_digit 0 IH | uint_digit 1 IH | uint_digit 2 IH | uint_digit 3 IH
    | uint_digit 4 IH | uint_digit 5 IH | uint_digit 6 IH | uint_digit 7 IH
    | uint_digit 8 IH | uint_digit 9 IH].
Qed.

(** The text of [str(n)]. *)
Lemma str_nonneg (n : Z) :
  0 ≤ n →
  ∃ d : Decimal.uint,
    d ≠ Decimal.Nil
    ∧ PyFmt.str n = py (DecimalString.NilEmpty.string_of_uint d)
    ∧ d = N.to_uint (Z.to_N n).
Proof.
  intros Hn. destruct n as [|p|p]; [| | lia].
  - exists (Decimal.D0 Decimal.Nil). repeat split. discriminate.
  - exists (Pos.to_uint p). split; [apply DecimalPos.Unsigned.to_uint_nonnil |].
    split; [| done]. unfold PyFmt.str. simpl.
    pose proof (DecimalPos.Unsigned.to_uint_nonnil p).
    by destruct (Pos.to_uint p).
Qed.

Lemma ascii_digit_value (c : N) :
  Py.is_ascii_digit c = true → Py.decimal_value c = Some (Z.of_N c - 48).
Proof.
  unfold Py.is_ascii_digit. intros [H1%N.leb_le H2%N.leb_le]%andb_true_iff.
  assert (c = 48 ∨ c = 49 ∨ c = 50 ∨ c = 51 ∨ c = 52 ∨ c = 53 ∨ c = 54
          ∨ c = 55 ∨ c = 56 ∨ c = 57)%N as Hc by lia.
  repeat (destruct Hc as [-> | Hc]; [reflexivity |]). by subst.
Qed.

Lemma ascii_digits (l : Py.str) :
  forallb Py.is_ascii_digit l = true → forallb Py.is_digit l = true.
Proof.
  rewrite !forallb_forall. intros Hl c Hc.
  eapply decimal_value_digit, ascii_digit_value, Hl, Hc.
Qed.

(** [str(n)] is a run of ASCII digits that denotes [n]. *)
Lemma str_digits (n : Z) :
  0 ≤ n →
  PyFmt.str n ≠ []
  ∧ forallb Py.is_ascii_digit (PyFmt.str n) = true
  ∧ Py.isdigit (PyFmt.str n) = true
  ∧ Py.digits_value (PyFmt.str n) = Some n.
Proof.
  intros Hn. destruct (str_nonneg n Hn) as (d & Hd & -> & Ed).
  destruct (uint_text d) as (ds & [Hds Hascii] & Hlen & Hval).
  assert (py (DecimalString.NilEmpty.string_of_uint d) ≠ []) as Hne.
  { intros E. rewrite E in Hlen. by destruct d. }
  split; [done |]. split; [done |]. split.
  - unfold Py.isdigit.
    destruct (py (DecimalString.NilEmpty.string_of_uint d)) eqn:E; [done |].
    by apply ascii_digits.
  - unfold Py.digits_value. rewrite Hds. cbn. f_equal.
    rewrite (Hval Decimal.Nil 0 eq_refl).
    change (Decimal.revapp d Decimal.Nil) with (Decimal.rev d).
    rewrite <- DecimalPos.Unsigned.of_uint_alt.
    change (Pos.of_uint d) with (N.of_uint d).
    rewrite Ed, DecimalN.Unsigned.of_to. lia.
Qed.

(** [int(str(n)) == n], for a numeral within the limit of [int]. *)
Lemma int_str (n : Z) :
  0 ≤ n → (length (PyFmt.str n) ≤ Py.int_max_str_digits)%nat →
  Py.isdigit (PyFmt.str n) = true ∧ Py.int (PyFmt.str n) = Some n.
Proof.
  intros Hn Hlen. destruct (str_digits n Hn) as (Hne & _ & Hd & Hv).
  split; [done |]. unfold Py.int.
  destruct (PyFmt.str n) eqn:E; [done |]. rewrite <- E in *.
  destruct (Nat.ltb_spec Py.int_max_str_digits (length (PyFmt.str n)));
    [lia | done].
Qed.

(** The digits of a number, whatever their script and however many
    zeros lead them. *)
Lemma values_uint (ds : list Z) :
  Forall (λ v, 0 ≤ v ≤ 9) ds →
  ∃ d : Decimal.uint,
    Decimal.nb_digits d = length ds
    ∧ ∀ (d' : Decimal.uint) (acc : Z),
        acc = Z.of_N (DecimalPos.Unsigned.of_lu d') →
        fold_left (λ a v, 10 * a + v) ds acc
        = Z.of_N (DecimalPos.Unsigned.of_lu (Decimal.revapp d d')).
Proof.
  induction 1 as [|v ds Hv _ (d & Hlen & Hval)]; [by exists Decimal.Nil |].
  assert (v = 0 ∨ v = 1 ∨ v = 2 ∨ v = 3 ∨ v = 4 ∨ v = 5 ∨ v = 6 ∨ v = 7
          ∨ v = 8 ∨ v = 9) as Hc by lia.
  destruct Hc as [-> | [-> | [-> | [-> | [-> | [-> | [-> | [-> | [-> | ->]]]]]]]]];
    [ exists (Decimal.D0 d) | exists (Decimal.D1 d) | exists (Decimal.D2 d)
    | exists (Decimal.D3 d) | exists (Decimal.D4 d) | exists (Decimal.D5 d)
    | exists (Decimal.D6 d) | exists (Decimal.D7 d) | exists (Decimal.D8 d)
    | exists (Decimal.D9 d) ];
    (split;
     [ cbn [Decimal.nb_digits length]; by rewrite Hlen
     | intros d' acc ->; cbn [fold_left Decimal.revapp]; apply Hval;
       cbn [DecimalPos.Unsigned.of_lu]; lia ]).
Qed.

(** A number that [int] has read is written by [str] with no more
    digits than the text had. *)
Lemma int_str_length (s : Py.str) (n : Z) :
  Py.int s = Some n →
  0 ≤ n ∧ (length (PyFmt.str n) ≤ Py.int_max_str_digits)%nat.
Proof.
  unfold Py.int, Py.digits_value. destruct s as [|c s]; [done |].
  destruct (Nat.ltb_spec Py.int_max_str_digits (length (c :: s)));
    [done |].
  destruct (mapM Py.decimal_value (c :: s)) as [ds|] eqn:Hds; [| done].
  cbn. intros [= <-].
  pose proof (length_mapM _ _ _ Hds) as Hlen.
  assert (Forall (λ v, 0 ≤ v ≤ 9) ds) as Hrange.
  { apply mapM_Some in Hds. apply Forall_forall. intros v Hv.
    apply list_elem_of_lookup in Hv as [i Hi].
    destruct (Forall2_lookup_r _ _ _ _ _ Hds Hi) as (c' & _ & Hc').
    by eapply decimal_value_range. }
  destruct (values_uint ds Hrange) as (d & Hnb & Hval).
  rewrite (Hval Decimal.Nil 0 eq_refl).
  change (Decimal.revapp d Decimal.Nil) with (Decimal.rev d).
  rewrite <- DecimalPos.Unsigned.of_uint_alt.
  change (Pos.of_uint d) with (N.of_uint d).
  split; [lia |].
  destruct (str_nonneg (Z.of_N (N.of_uint d)) ltac:(lia)) as (e & _ & -> & ->).
  rewrite N2Z.id, DecimalN.Unsigned.to_of.
  destruct (uint_text (Decimal.unorm d)) as (_ & _ & -> & _).
  assert (d ≠ Decimal.Nil) as Hd.
  { intros ->. cbn in Hnb. rewrite <- Hnb in Hlen. done. }
  pose proof (DecimalFacts.nb_digits_unorm d Hd). lia.
Qed.

(** ** White space *)

Lemma lstrip_chars_snoc (l : Py.str) (c : N) :
  Py.is_space c = false →
  Py.lstrip_chars (l ++ [c]) = Py.lstrip_chars l ++ [c].
Proof.
  intros Hc. induction l as [|a l IH]; simpl.
  - by rewrite Hc.
  - destruct (Py.is_space a); [exact IH | reflexivity].
Qed.

(** What is left after [lstrip] does not start with a space. *)
Lemma lstrip_chars_head (l : Py.str) (c : N) (l' : Py.str) :
  Py.lstrip_chars l = c :: l' → Py.is_space c = false.
Proof.
  induction l as [|a l IH]; simpl; [discriminate |].
  destruct (Py.is_space a) eqn:E; [exact IH |]. by intros [= <- _].
Qed.

Lemma lstrip_chars_fixed (l : Py.str) :
  match l with c :: _ => Py.is_space c = false | [] => True end →
  Py.lstrip_chars l = l.
Proof. destruct l as [|c l]; simpl; [done |]. by intros ->. Qed.

(** [lstrip] removes a run of spaces from the left. *)
Lemma lstrip_chars_split (l : Py.str) :
  ∃ lead : Py.str,
    l = lead ++ Py.lstrip_chars l ∧ forallb Py.is_space lead = true.
Proof.
  induction l as [|a l (lead & IH & Hlead)]; [by exists [] |]. simpl.
  destruct (Py.is_space a) eqn:E.
  - exists (a :: lead). simpl. rewrite E, Hlead. split; [by f_equal | done].
  - by exists [].
Qed.

(** Stripping on the right keeps a head that is not a space. *)
Lemma rstrip_chars_head (l : Py.str) :
  match l with c :: _ => Py.is_space c = false | [] => True end →
  match rev (Py.lstrip_chars (rev l)) with
  | c :: _ => Py.is_space c = false
  | [] => True
  end.
Proof.
  destruct l as [|c l]; simpl; [done |]. intros Hc.
  by rewrite (lstrip_chars_snoc _ _ Hc), rev_app_distr.
Qed.

Lemma strip_chars_stripped (s : Py.str) : chars_stripped (Py.strip s).
Proof.
  unfold Py.strip, chars_stripped.
  set (l1 := Py.lstrip_chars s).
  assert (match l1 with c :: _ => Py.is_space c = false | [] => True end) as H1.
  { destruct l1 as [|c l'] eqn:E; [done |]. by eapply lstrip_chars_head. }
  split.
  - by apply rstrip_chars_head.
  - rewrite rev_involutive.
    destruct (Py.lstrip_chars (rev l1)) as [|c l'] eqn:E; [done |].
    by eapply lstrip_chars_head.
Qed.

Lemma strip_fixed (s : Py.str) : chars_stripped s → Py.strip s = s.
Proof.
  intros [Hh Ht]. unfold Py.strip.
  rewrite (lstrip_chars_fixed _ Hh), (lstrip_chars_fixed _ Ht).
  by rewrite rev_involutive.
Qed.

(** [strip] removes a run of spaces from each end, and nothing else. *)
Lemma strip_split (s : Py.str) :
  ∃ lead trail : Py.str,
    s = lead ++ Py.strip s ++ trail
    ∧ forallb Py.is_space lead = true ∧ forallb Py.is_space trail = true.
Proof.
  unfold Py.strip.
  destruct (lstrip_chars_split s) as (lead & Hs & Hlead).
  destruct (lstrip_chars_split (rev (Py.lstrip_chars s)))
    as (trail & Hr & Htrail).
  exists lead, (rev trail). split; [| split; [done |]].
  - rewrite <- rev_app_distr, <- Hr, rev_involutive. exact Hs.
  - rewrite forallb_forall in *. intros c Hc. apply Htrail. by apply in_rev.
Qed.

Lemma digit_not_space (c : N) :
  Py.is_digit c = true → Py.is_space c = false.
Proof.
  intros Hd. destruct (Py.is_space c) eqn:Hs; [| done]. exfalso.
  unfold Py.is_space in Hs. apply bool_decide_eq_true in Hs.
  assert (Forall (λ c, Py.is_digit c = false) Py.space_chars) as Hall.
  { apply (bool_decide_unpack _). vm_compute. exact I. }
  rewrite (proj1 (Forall_forall _ _) Hall c Hs) in Hd. done.
Qed.

Lemma digits_stripped (l : Py.str) :
  forallb Py.is_digit l = true → chars_stripped l.
Proof.
  intros Hl.
  assert (∀ l', forallb Py.is_digit l' = true →
            match l' with c :: _ => Py.is_space c = false | [] => True end)
    as Hhead.
  { intros [|c l']; simpl; [done |].
    intros [Hc _]%andb_true_iff. by apply digit_not_space. }
  split; [by apply Hhead |]. apply Hhead.
  rewrite forallb_forall in *. intros c Hc. apply Hl. by apply in_rev.
Qed.

Lemma isdigit_strip (s : Py.str) : Py.isdigit s = true → Py.strip s = s.
Proof.
  intros Hs. apply strip_fixed, digits_stripped.
  unfold Py.isdigit in Hs. by destruct s.
Qed.

Lemma lstrip_chars_nil (l : Py.str) :
  Py.lstrip_chars l = [] ↔ forallb Py.is_space l = true.
Proof.
  induction l as [|a l IH]; simpl; [done |].
  destruct (Py.is_space a); simpl; [exact IH | split; discriminate].
Qed.

Lemma strip_empty (s : Py.str) :
  Py.strip s = [] ↔ forallb Py.is_space s = true.
Proof.
  unfold Py.strip. rewrite <- lstrip_chars_nil.
  set (l1 := Py.lstrip_chars s). split.
  - intros H. destruct l1 as [|c l'] eqn:E; [done |]. exfalso.
    simpl in H. rewrite (lstrip_chars_snoc _ _ (lstrip_chars_head _ _ _ E)) in H.
    rewrite rev_app_distr in H. discriminate.
  - by intros ->.
Qed.

(** X1. [scan] returns the text of the entry without the white space at
    its two ends, and with everything between: the text is the result
    between two runs of white space, and neither end of the result is
    white space; so stripping the result again changes nothing.  Through
    its Confirm button the dialog closes only on a text that is not
    blank, and then returns a non-empty text. *)
Theorem scan_returns_stripped (typed : Py.str) :
  (∃ lead trail : Py.str,
     typed = lead ++ scan typed ++ trail
     ∧ forallb Py.is_space lead = true ∧ forallb Py.is_space trail = true)
  ∧ chars_stripped (scan typed)
  ∧ scan (scan typed) = scan typed
  ∧ (scan_ok typed = None ↔ forallb Py.is_space typed = true)
  ∧ (∀ r, scan_ok typed = Some r → r = scan typed ∧ r ≠ []).
Proof.
  unfold scan, scan_ok. split; [apply strip_split |].
  split; [apply strip_chars_stripped |].
  split; [apply strip_fixed, strip_chars_stripped |]. split.
  - rewrite <- strip_empty.
    destruct (str_eqb_spec (Py.strip typed) []); split; congruence.
  - intros r. destruct (str_eqb_spec (Py.strip typed) []);
      [discriminate |]. unfold scan. by intros [= <-].
Qed.

(** ** The station dialog of [start] *)

(** The loop ends on an entry that passes both tests. *)
Lemma station_loop_head (NUM_STATIONS : Z) (t : Py.str) (rest : list Py.str)
    (st : station_t) :
  Py.isdigit (scan t) = true → Py.int (scan t) = Some st →
  1 ≤ st ≤ NUM_STATIONS →
  station_loop NUM_STATIONS (t :: rest) = SStation st.
Proof.
  intros Hd Hi Hr. simpl. rewrite Hd, Hi. simpl.
  destruct (Z.ltb_spec st 1); [lia |].
  destruct (Z.gtb_spec st NUM_STATIONS); [lia | done].
Qed.

(** [scan] returns a decimal number as it was typed. *)
Lemma scan_str (n : Z) : 0 ≤ n → scan (PyFmt.str n) = PyFmt.str n.
Proof. intros Hn. apply isdigit_strip, str_digits, Hn. Qed.

(** [int] refuses the text of a number of more digits than its limit. *)
Lemma int_str_long (n : Z) :
  0 ≤ n → (Py.int_max_str_digits < length (PyFmt.str n))%nat →
  Py.isdigit (PyFmt.str n) = true ∧ Py.int (PyFmt.str n) = None.
Proof.
  intros Hn Hlen. destruct (str_digits n Hn) as (Hne & _ & Hd & _).
  split; [done |]. unfold Py.int.
  destruct (PyFmt.str n) eqn:E; [done |]. rewrite <- E in *.
  destruct (Nat.ltb_spec Py.int_max_str_digits (length (PyFmt.str n)));
    [done | lia].
Qed.

(** X2. A station number of the configured range, typed in decimal, is
    accepted at once and parsed to that number, unless it has more
    digits than [int] reads (4300): then [int] raises and [start] ends
    there.  What is typed after it plays no part. *)
Theorem valid_station_accepted (NUM_STATIONS : Z) (st : station_t)
    (rest : list Py.str) :
  1 ≤ st ≤ NUM_STATIONS →
  station_loop NUM_STATIONS (PyFmt.str st :: rest)
  = (if (Py.int_max_str_digits <? length (PyFmt.str st))%nat
     then SRaised else SStation st)
  ∧ scan_station NUM_STATIONS (PyFmt.str st :: rest)
    = (if (Py.int_max_str_digits <? length (PyFmt.str st))%nat
       then None else Some st).
Proof.
  intros Hst.
  assert (station_loop NUM_STATIONS (PyFmt.str st :: rest)
          = (if (Py.int_max_str_digits <? length (PyFmt.str st))%nat
             then SRaised else SStation st)) as Hloop.
  { destruct (Nat.ltb_spec Py.int_max_str_digits (length (PyFmt.str st)))
      as [Hlong | Hshort].
    - destruct (int_str_long st) as [Hd Hi]; [lia | done |].
      cbn [station_loop]. rewrite scan_str by lia. by rewrite Hd, Hi.
    - destruct (int_str st) as [Hd Hi]; [lia | done |].
      apply station_loop_head; rewrite ?scan_str by lia; done. }
  split; [exact Hloop |]. unfold scan_station. rewrite Hloop.
  by destruct (Py.int_max_str_digits <? length (PyFmt.str st))%nat.
Qed.

Lemma valid_station_accepted_witness :
  scan_station 8 [py "3"; py "x"] = Some 3.
Proof.
  apply (valid_station_accepted 8 3 [py "x"]). lia.
Defined.

(** X3. The station loop of [start] ends on a station exactly when the
    entries begin with a run of entries that are refused with an error
    box, followed by an entry that is, once stripped, a run of digits
    that [int] reads as a number within [1..NUM_STATIONS]; it ends on a
    ValueError exactly when the run of refused entries is followed by
    an entry of digits that [int] does not read.  What follows that
    entry plays no part. *)
Theorem scan_station_first_valid (NUM_STATIONS : Z) (typed : list Py.str) :
  (∀ st : station_t,
     scan_station NUM_STATIONS typed = Some st
     ↔ ∃ (bad : list Py.str) (t : Py.str) (rest : list Py.str),
         typed = bad ++ t :: rest
         ∧ Forall (station_refused NUM_STATIONS) bad
         ∧ Py.isdigit (scan t) = true
         ∧ Py.int (scan t) = Some st
         ∧ 1 ≤ st ≤ NUM_STATIONS)
  ∧ (station_loop NUM_STATIONS typed = SRaised
     ↔ ∃ (bad : list Py.str) (t : Py.str) (rest : list Py.str),
         typed = bad ++ t :: rest
         ∧ Forall (station_refused NUM_STATIONS) bad
         ∧ station_raises t).
Proof.
  assert (∀ res,
            station_loop NUM_STATIONS typed = res →
            res ≠ SPending →
            ∃ (bad : list Py.str) (t : Py.str) (rest : list Py.str),
              typed = bad ++ t :: rest
              ∧ Forall (station_refused NUM_STATIONS) bad
              ∧ Py.isdigit (scan t) = true
              ∧ match res with
                | SStation st =>
                    Py.int (scan t) = Some st ∧ 1 ≤ st ≤ NUM_STATIONS
                | _ => Py.int (scan t) = None
                end) as Hfwd.
  { intros res. unfold station_refused.
    induction typed as [|t typed IH]; simpl; [congruence |].
    destruct (Py.isdigit (scan t)) eqn:Hd; simpl.
    - destruct (Py.int (scan t)) as [n|] eqn:Hn.
      + destruct (Z.ltb_spec n 1); simpl.
        { intros E Hne.
          destruct (IH E Hne) as (bad & t' & rest & -> & Hbad & H').
          exists (t :: bad), t', rest. split; [done |].
          split; [constructor; [right; exists n; split; [done | lia] | done]
                 | done]. }
        destruct (Z.gtb_spec n NUM_STATIONS); simpl.
        { intros E Hne.
          destruct (IH E Hne) as (bad & t' & rest & -> & Hbad & H').
          exists (t :: bad), t', rest. split; [done |].
          split; [constructor; [right; exists n; split; [done | lia] | done]
                 | done]. }
        intros <- _. exists [], t, typed. repeat split; auto; lia.
      + intros <- _. by exists [], t, typed.
    - intros E Hne.
      destruct (IH E Hne) as (bad & t' & rest & -> & Hbad & H').
      exists (t :: bad), t', rest. split; [done |].
      split; [constructor; [by left | done] | done]. }
  assert (∀ (bad : list Py.str) (t : Py.str) (rest : list Py.str),
            Forall (station_refused NUM_STATIONS) bad →
            station_loop NUM_STATIONS (bad ++ t :: rest)
            = station_loop NUM_STATIONS (t :: rest)) as Hskip.
  { intros bad t rest Hbad.
    induction Hbad as [|b bad Hb _ IH]; [done |]. simpl.
    destruct Hb as [-> | (n & -> & Hn)]; [exact IH |].
    destruct (Py.isdigit (scan b)); simpl; [| exact IH].
    destruct (Z.ltb_spec n 1); simpl; [exact IH |].
    destruct (Z.gtb_spec n NUM_STATIONS); simpl; [exact IH | lia]. }
  split.
  - intros st. rewrite scan_station_loop. split.
    + intros E. destruct (Hfwd _ E ltac:(done))
        as (bad & t & rest & ? & ? & ? & ? & ?).
      by exists bad, t, rest.
    + intros (bad & t & rest & -> & Hbad & Hd & Hi & Hr).
      rewrite (Hskip _ _ _ Hbad). by apply station_loop_head.
  - unfold station_raises. split.
    + intros E. destruct (Hfwd _ E ltac:(done))
        as (bad & t & rest & ? & ? & ? & ?).
      by exists bad, t, rest.
    + intros (bad & t & rest & -> & Hbad & Hd & Hi).
      rewrite (Hskip _ _ _ Hbad). simpl. by rewrite Hd, Hi.
Qed.

(** ** The flow *)

(** X4. A rescan that equals the serial of the event opens the capture
    window on the first field, Voltage, with both boxes empty; nothing
    is written, no timer changes and the semaphore stays taken. *)
Theorem verify_match_starts_capture (NUM_STATIONS : Z) (CHECKPOINTS : list Z)
    (ws : list Row) (s : State) (f : nat) (ev : Event) (typed : Py.str) :
  reachable NUM_STATIONS CHECKPOINTS ws s →
  flows s !! f = Some (mkFlow ev PVerify) →
  scan typed = ev_serial ev →
  ∃ s' : State,
    exec NUM_STATIONS CHECKPOINTS (LAct f (AScan typed)) s = Some s'
    ∧ flows s' = [mkFlow ev (PAskDigit ∅ "Voltage" [] [])]
    ∧ prompt_lock s' = 0%nat
    ∧ sheet s' = sheet s ∧ heap s' = heap s ∧ timers s' = timers s
    ∧ prompt_q s' = prompt_q s ∧ popups s' = popups s.
Proof.
  intros Hreach Hf Heq.
  destruct (flow_in_progress _ _ _ _ _ _ Hreach Hf) as (-> & Hfs & Hlock).
  cbn [exec]. unfold flow_act. rewrite Hf. cbn. rewrite Heq, str_eqb_refl.
  cbn. eexists. split; [reflexivity |]. cbn. rewrite Hfs. by cbn.
Qed.

Lemma verify_match_starts_capture_witness :
  ∃ s s' : State,
    run8 ([register_SN1 0; LWake 0; LGet; LAcquire 0]) (init [header]) = Some s
    ∧ exec 8 CHECKPOINTS_source (LAct 0 (AScan (py "  SN1 "))) s = Some s'
    ∧ prompt_lock s' = 0%nat ∧ sheet s' = sheet s.
Proof.
  assert (∃ s ev, run8 ([register_SN1 0; LWake 0; LGet; LAcquire 0])
                       (init [header]) = Some s
                  ∧ flows s !! 0%nat = Some (mkFlow ev PVerify)
                  ∧ scan (py "  SN1 ") = ev_serial ev)
    as (s & ev & Hs & Hf & He).
  { do 2 eexists. split; [vm_compute; reflexivity |]. vm_compute. by split. }
  destruct (verify_match_starts_capture 8 CHECKPOINTS_source [header] s 0 ev
              (py "  SN1 ")
              (run_reachable 8 CHECKPOINTS_source [header] _ _ _
                 (reach_init 8 CHECKPOINTS_source [header]) Hs) Hf He)
    as (s' & Hex & _ & Hl & Hsh & _).
  exists s, s'. split; [exact Hs |]. split; [exact Hex |].
  split; [exact Hl | exact Hsh].
Defined.

Lemma set_phase_single (ev : Event) (ph ph' : Phase) (s : State) :
  flows s = [mkFlow ev ph] →
  flows (set_phase 0 ev ph' s) = [mkFlow ev ph']
  ∧ sheet (set_phase 0 ev ph' s) = sheet s
  ∧ heap (set_phase 0 ev ph' s) = heap s
  ∧ prompt_lock (set_phase 0 ev ph' s) = prompt_lock s.
Proof. intros Hfs. unfold set_phase, with_flows. simpl. by rewrite Hfs. Qed.

(** X5. In a capture window the Enter button never fails and moves to
    the field that follows in [fields], asked with empty boxes, or with
    ON for a toggle; after the last field, and only then, it opens the
    review, whose widgets hold every field as it was entered. *)
Theorem enter_advances (NUM_STATIONS : Z) (CHECKPOINTS : list Z)
    (ws : list Row) (s : State) (f : nat) (ev : Event) (ph : Phase)
    (label : string) (entries : gmap string Val) :
  reachable NUM_STATIONS CHECKPOINTS ws s →
  flows s !! f = Some (mkFlow ev ph) →
  asked ph = Some (label, entries) →
  ∃ (i : nat) (ft : FieldType) (s' : State) (ph' : Phase),
    fields !! i = Some (label, ft)
    ∧ exec NUM_STATIONS CHECKPOINTS (LAct f AEnter) s = Some s'
    ∧ flows s' = [mkFlow ev ph']
    ∧ sheet s' = sheet s ∧ heap s' = heap s ∧ prompt_lock s' = 0%nat
    ∧ match fields !! S i with
      | Some (l', digit) => ph' = PAskDigit entries l' [] []
      | Some (l', toggle) =>
          ph' = PAskToggle (<[l' := VToggle (py "ON")]> entries) l'
      | None =>
          ∃ w, ph' = PReview w
               ∧ ∀ fld, fld ∈ fields →
                   is_Some (w !! fld.1) ∧ w !! fld.1 = entries !! fld.1
      end.
Proof.
  intros Hreach Hf Hask.
  destruct (flow_in_progress _ _ _ _ _ _ Hreach Hf) as (-> & Hfs & Hlock).
  pose proof (reachable_inv _ _ _ _ Hreach) as (_ & _ & Hok).
  pose proof (Forall_lookup_1 _ _ _ _ Hok Hf) as Hph. simpl in Hph.
  assert (∃ i ft, fields !! i = Some (label, ft) ∧ filled false (S i) entries
            ∧ flow_act 0 AEnter s
              = (ph' ← next_field entries; Some (set_phase 0 ev ph' s)))
    as (i & ft & Hi & Hfill & Hact).
  { unfold flow_act. rewrite Hf. simpl.
    destruct ph as [|e l iv dv|e l|w]; simpl in Hask; try done;
      injection Hask as <- <-.
    - destruct Hph as [_ (i & Hi & Hfill)]. exists i, digit.
      split; [done |]. split; [| done].
      eapply filled_insert_new; eauto. by simpl.
    - destruct Hph as (i & Hi & Hfill). by exists i, toggle. }
  assert (∀ ph', ∃ s', Some (set_phase 0 ev ph' s) = Some s'
            ∧ flows s' = [mkFlow ev ph'] ∧ sheet s' = sheet s
            ∧ heap s' = heap s ∧ prompt_lock s' = 0%nat) as Hstep.
  { intros ph'. eexists. split; [reflexivity |].
    destruct (set_phase_single ev ph ph' s Hfs) as (-> & -> & -> & ->).
    by rewrite Hlock. }
  exists i, ft. change (exec _ _ (LAct 0 AEnter) s) with (flow_act 0 AEnter s).
  rewrite Hact. unfold next_field. rewrite (proj1 Hfill).
  destruct (fields !! S i) as [[l' ft']|] eqn:Hnext.
  - pose proof (lookup_lt_Some _ _ _ Hnext) as Hlt.
    destruct (Nat.ltb_spec (S i) (length fields)); [| lia].
    unfold ask. rewrite Hnext.
    destruct ft'.
    + destruct (Hstep (PAskDigit entries l' [] []))
        as (s' & Hs' & Hrest).
      exists s', (PAskDigit entries l' [] []).
      split; [done |]. split; [exact Hs' |].
      destruct Hrest as (? & ? & ? & ?). by repeat split.
    + destruct (Hstep (PAskToggle (<[l' := VToggle (py "ON")]> entries) l'))
        as (s' & Hs' & Hrest).
      exists s', (PAskToggle (<[l' := VToggle (py "ON")]> entries) l').
      split; [done |]. split; [exact Hs' |].
      destruct Hrest as (? & ? & ? & ?). by repeat split.
  - pose proof (proj1 (lookup_ge_None _ _) Hnext) as Hge.
    destruct (Nat.ltb_spec (S i) (length fields)); [lia |].
    pose proof (filled_complete _ _ _ Hge Hfill) as Hcomplete.
    destruct (review entries) as [ph'|] eqn:Hrev.
    + destruct (review_ok _ _ _ Hcomplete Hrev) as (w & -> & Hw & Hsame).
      destruct (Hstep (PReview w)) as (s' & Hs' & Hrest).
      exists s', (PReview w). split; [done |]. split; [exact Hs' |].
      destruct Hrest as (? & ? & ? & ?). repeat split; try done.
      exists w. split; [done |]. intros fld Hin. split; [| by apply Hsame].
      destruct (Hw fld Hin) as (v & -> & _). eauto.
    + exfalso. unfold review in Hrev.
      destruct (fold_left _ fields (Some ∅)) as [w|] eqn:Hfold; [done |].
      clear Hrev. revert Hfold.
      assert (∀ fs acc, (∀ fld, fld ∈ fs → fld ∈ fields) →
                fold_left (λ acc fld, review_field acc entries fld) fs
                          (Some acc) ≠ None) as Hgen.
      { induction fs as [|fld fs IH]; intros acc Hsub; simpl; [done |].
        destruct (Hcomplete fld (Hsub fld ltac:(left))) as (v & Hv & Hvok).
        rewrite Hv. simpl.
        destruct fld as [l [|]], v; simpl in *; try done;
          apply IH; intros; apply Hsub; by right. }
      apply Hgen. auto.
Qed.

Lemma enter_advances_witness :
  ∃ (s s' : State) (ev : Event) (entries : gmap string Val),
    run8 ([register_SN1 0; LWake 0] ++ serve_next (py "SN1")
            ++ [LAct 0 (AKey false (py "12"))]) (init [header]) = Some s
    ∧ exec 8 CHECKPOINTS_source (LAct 0 AEnter) s = Some s'
    ∧ flows s' = [mkFlow ev (PAskDigit entries "Current" [] [])]
    ∧ sheet s' = sheet s.
Proof.
  assert (∃ s ev ph entries,
            run8 ([register_SN1 0; LWake 0] ++ serve_next (py "SN1")
                    ++ [LAct 0 (AKey false (py "12"))]) (init [header])
            = Some s
            ∧ flows s !! 0%nat = Some (mkFlow ev ph)
            ∧ asked ph = Some ("Voltage"%string, entries))
    as (s & ev & ph & entries & Hs & Hf & Ha).
  { do 4 eexists. split; [vm_compute; reflexivity |].
    split; [vm_compute; reflexivity |]. reflexivity. }
  destruct (enter_advances 8 CHECKPOINTS_source [header] s 0 ev ph
              "Voltage" entries
              (run_reachable 8 CHECKPOINTS_source [header] _ _ _
                 (reach_init 8 CHECKPOINTS_source [header]) Hs) Hf Ha)
    as (i & ft & s' & ph' & Hi & Hex & Hfl & Hsh & _ & _ & Hnext).
  assert (i = 0%nat) as ->.
  { apply (fields_label_inj i 0 "Voltage" ft digit Hi). reflexivity. }
  change (fields !! 1%nat) with (Some ("Current"%string, digit)) in Hnext.
  cbv beta iota in Hnext. subst ph'. exists s, s', ev, entries.
  split; [exact Hs |]. split; [exact Hex |]. split; [exact Hfl | exact Hsh].
Defined.

(** X6. Whatever is typed into a box of the capture window, the box
    holds at most two characters, each one a digit for [str.isdigit]
    (a decimal digit of any script, or a digit such as the superscript
    two), and [save] persists it as exactly two such characters, padded
    with the digit zero; [int] reads the persisted text of a box that is
    not empty as it reads the box: the same number, or the same
    ValueError. *)
Theorem typed_box_is_two_digits (keys : list Py.str) :
  let e := fold_left (λ cur P, key_edit P cur) keys [] in
  vcmd e = true
  ∧ (length e ≤ 2)%nat ∧ forallb Py.is_digit e = true
  ∧ two_digit_string (Py.zfill 2 e)
  ∧ (e ≠ [] → Py.int (Py.zfill 2 e) = Py.int e).
Proof.
  intros e.
  assert (vcmd e = true) as He.
  { subst e. generalize (@nil N), (eq_refl : vcmd [] = true).
    induction keys as [|P keys IH]; intros cur Hcur; simpl; [done |].
    apply IH. by apply vcmd_key_edit. }
  split; [done |].
  pose proof (zfill_vcmd e He) as Hz. clearbody e.
  unfold vcmd in He. destruct e as [|a [|b [|c e']]].
  - split; [simpl; lia |]. split; [done |]. split; [done |]. congruence.
  - apply orb_true_iff in He as [[Ha _]%andb_true_iff | Habs]; [| done].
    simpl in Ha. rewrite andb_true_r in Ha.
    split; [simpl; lia |]. split; [simpl; by rewrite Ha |].
    split; [done |]. intros _.
    unfold Py.zfill. simpl. rewrite (digit_not_sign a Ha).
    change (Py.int [48%N; a]) with (Py.digits_value [48%N; a]).
    change (Py.int [a]) with (Py.digits_value [a]).
    unfold Py.digits_value. cbn [mapM].
    change (Py.decimal_value 48) with (Some 0).
    destruct (Py.decimal_value a) as [v|]; cbn; [f_equal; lia | done].
  - apply orb_true_iff in He as [[Hab _]%andb_true_iff | Habs]; [| done].
    split; [simpl; lia |]. split; [exact Hab |]. by split.
  - apply orb_true_iff in He as [[_ Hlen]%andb_true_iff | Habs]; done.
Qed.


(** X7. In every reachable state, Confirm & Save on a review either
    fails to write (the worksheet refuses a text of the row: it is left
    as it is, the window stays and the semaphore stays taken) or appends
    one row whose toggle cells are exactly ON or OFF and whose number
    cells are non-empty strings, followed by what the worksheet keeps of
    the technician's name. *)
Theorem committed_toggles_on_off (NUM_STATIONS : Z) (CHECKPOINTS : list Z)
    (ws : list Row) (s s' : State) (f : nat) (ev : Event)
    (w : gmap string Val) (now1 now2 : Py.datetime) :
  reachable NUM_STATIONS CHECKPOINTS ws s →
  flows s !! f = Some (mkFlow ev (PReview w)) →
  exec NUM_STATIONS CHECKPOINTS (LAct f (AConfirm now1 now2)) s = Some s' →
  (∃ row : Row,
     save_row ev w now1 now2 = Some row
     ∧ write_excel row (sheet s) = None
     ∧ sheet s' = sheet s ∧ flows s' = flows s
     ∧ prompt_lock s' = prompt_lock s)
  ∨ ∃ (row : Row) (v c cc t : Py.str) (cl lb : Py.str) (c_tech : Cell),
      sheet s' = sheet s ++ [row]
      ∧ drop 6 row = [CStr v; CStr c; CStr cc; CStr t; CStr cl; CStr lb;
                      c_tech]
      ∧ v ≠ [] ∧ c ≠ [] ∧ cc ≠ [] ∧ t ≠ []
      ∧ (cl = py "ON" ∨ cl = py "OFF")
      ∧ (lb = py "ON" ∨ lb = py "OFF")
      ∧ stored (CStr (ev_tech ev)) = Some c_tech.
Proof.
  intros Hreach Hf Hexec.
  destruct (committed_cells false _ _ _ _ _ _ _ _ _ _ Hreach Hf
              ltac:(discriminate) Hexec)
    as [Hrefused | (row & cells & c_tech & Hsheet & Hdrop & Htech & Hcells)];
    [by left | right].
  exists row. rewrite Hdrop. clear Hexec Hdrop.
  unfold fields in Hcells.
  repeat match goal with
  | H : Forall2 _ (_ :: _) _ |- _ =>
      apply Forall2_cons_inv_l in H as (? & ? & ? & H & ->)
  | H : Forall2 _ [] _ |- _ => apply Forall2_nil_inv_l in H as ->
  end.
  simpl in *.
  repeat match goal with
  | H : ∃ x, _ = CStr x ∧ _ |- _ => destruct H as (? & -> & ? & _)
  end.
  assert (∀ c : Cell, c = CStr (py "ON") ∨ c = CStr (py "OFF") →
            ∃ x, c = CStr x ∧ (x = py "ON" ∨ x = py "OFF")) as Hc.
  { intros c [-> | ->]; eauto. }
  repeat match goal with
  | H : _ = CStr (py "ON") ∨ _ = CStr (py "OFF") |- _ =>
      apply Hc in H as (? & -> & ?)
  end.
  eexists _, _, _, _, _, _, c_tech. split; [exact Hsheet |].
  split; [reflexivity |]. by repeat split.
Qed.

Lemma committed_toggles_on_off_witness :
  ∃ (s s' : State) (row : Row) (cl : Py.str),
    run8 first_check_in_review (init [header]) = Some s
    ∧ exec 8 CHECKPOINTS_source (LAct 0 (AConfirm 21000000 21000000)) s
      = Some s'
    ∧ sheet s' = sheet s ++ [row]
    ∧ drop 6 row !! 4%nat = Some (CStr cl)
    ∧ (cl = py "ON" ∨ cl = py "OFF").
Proof.
  assert (∃ s s' ev w,
            run8 first_check_in_review (init [header]) = Some s
            ∧ exec 8 CHECKPOINTS_source (LAct 0 (AConfirm 21000000 21000000)) s
              = Some s'
            ∧ flows s !! 0%nat = Some (mkFlow ev (PReview w))
            ∧ flows s' ≠ flows s)
    as (s & s' & ev & w & Hs & Hs' & Hf & Hne).
  { do 4 eexists. split; [vm_compute; reflexivity |].
    split; [vm_compute; reflexivity |].
    split; [vm_compute; reflexivity |]. vm_compute. discriminate. }
  pose proof (run_reachable 8 CHECKPOINTS_source [header] _ _ _
                (reach_init 8 CHECKPOINTS_source [header]) Hs) as Hreach.
  destruct (committed_toggles_on_off 8 CHECKPOINTS_source [header] s s' 0 ev w
              21000000 21000000 Hreach Hf Hs')
    as [(row & _ & _ & _ & Hfl & _)
       | (row & v & c & cc & t & cl & lb & c_tech & Hsheet & Hdrop & _ & _ & _
          & _ & Hcl & _)];
    [by destruct Hne |].
  exists s, s', row, cl. split; [exact Hs |]. split; [exact Hs' |].
  split; [exact Hsheet |]. split; [| exact Hcl].
  rewrite Hdrop. reflexivity.
Defined.



(** ** The worksheet *)

(** X9. A step changes the worksheet in one of two ways only: a commit
    from the review step appends one row, and a confirmed Cancel runs
    the retraction; every other step leaves the worksheet as it is. *)
Theorem sheet_changes_by_commit_or_cancel (NUM_STATIONS : Z)
    (CHECKPOINTS : list Z) (l : Label) (s s' : State) :
  exec NUM_STATIONS CHECKPOINTS l s = Some s' →
  sheet s' = sheet s
  ∨ (∃ f n1 n2 row,
       (l = LAct f (AConfirm n1 n2) ∨ l = LAct f (AClose n1 n2))
       ∧ sheet s' = sheet s ++ [row])
  ∨ (∃ st, l = LCancel (Some st) true ∧ sheet s' = retract st (sheet s)).
Proof.
  destruct l as [now t sr sts|sel yes|i| |p|f a]; simpl.
  - intros [= <-]. left.
    by destruct (start_frame NUM_STATIONS CHECKPOINTS now t sr sts s)
      as (_ & _ & _ & _ & ->).
  - intros [= <-]. unfold cancel. destruct sel as [st|]; [| by left].
    destruct yes; simpl; [| by left].
    destruct (timers s !! st); [| by left]. right. right. by exists st.
  - unfold worker_wake. destruct (workers s !! i) as [w|]; [| done]. simpl.
    destruct (heap s !! wk_td w); [| done]. intros [= <-]. by left.
  - unfold consumer_get. destruct (prompt_q s); [done |].
    intros [= <-]. by left.
  - unfold popup_acquire. destruct (popups s !! p); [| done]. simpl.
    destruct (prompt_lock s); [done |]. intros [= <-]. by left.
  - intros Hact. pose proof Hact as (fl & Hf & Hcases)%flow_act_cases.
    destruct Hcases as [[ph ->] | [-> | [-> | (w & n1 & n2 & Hph & Hs)]]];
      try by left.
    unfold flow_act in Hact. rewrite Hf in Hact. simpl in Hact.
    rewrite Hph in Hact.
    destruct a as [typed|second P|off| |lb second P|lb off|m1 m2|m1 m2];
      try done.
    + destruct (w !! lb) as [[e1 e2|]|]; try done.
      injection Hact as <-. by left.
    + destruct (w !! lb) as [[|v]|]; try done.
      injection Hact as <-. by left.
    + apply save_Some in Hact
        as (row & ? & ? & ? & _ & _ & _ & _ & [(cells & _ & ->) | (_ & ->)]);
        [| by left].
      right. left. exists f, m1, m2, cells. auto.
    + apply save_Some in Hact
        as (row & ? & ? & ? & _ & _ & _ & _ & [(cells & _ & ->) | (_ & ->)]);
        [| by left].
      right. left. exists f, m1, m2, cells. auto.
Qed.

Lemma sheet_changes_by_commit_or_cancel_witness :
  sheet (schedule CHECKPOINTS_source (py "SN1") 3 (py "Alice") 0
                  (init [header]))
  = [header]
  ∨ (∃ f n1 n2 row,
       (register_SN1 0 = LAct f (AConfirm n1 n2)
        ∨ register_SN1 0 = LAct f (AClose n1 n2))
       ∧ sheet (schedule CHECKPOINTS_source (py "SN1") 3 (py "Alice") 0
                         (init [header]))
         = [header] ++ [row])
  ∨ (∃ st, register_SN1 0 = LCancel (Some st) true
           ∧ sheet (schedule CHECKPOINTS_source (py "SN1") 3 (py "Alice") 0
                             (init [header]))
             = retract st [header]).
Proof.
  apply (sheet_changes_by_commit_or_cancel 8 CHECKPOINTS_source
           (register_SN1 0) (init [header])).
  reflexivity.
Defined.

(** ** The serialiser after a closed capture window *)

Lemma exec_serializer_dead (NUM_STATIONS : Z) (CHECKPOINTS : list Z)
    (l : Label) (s s' : State) :
  serializer_dead s → exec NUM_STATIONS CHECKPOINTS l s = Some s' →
  serializer_dead s'
  ∧ (sheet s' = sheet s ∨ ∃ st, sheet s' = retract st (sheet s)).
Proof.
  intros [Hfl Hlk] Hexec. unfold serializer_dead.
  destruct l as [now t sr sts|sel yes|i| |p|f a]; simpl in Hexec.
  - injection Hexec as <-.
    destruct (start_frame NUM_STATIONS CHECKPOINTS now t sr sts s)
      as (_ & _ & -> & -> & ->). auto.
  - injection Hexec as <-.
    destruct (cancel_frame sel yes s) as (_ & _ & -> & -> & _).
    split; [done |]. unfold cancel. destruct sel as [st|]; [| by left].
    destruct (negb yes); [by left |].
    destruct (timers s !! st); [| by left]. right. by exists st.
  - unfold worker_wake in Hexec.
    destruct (workers s !! i) as [w|]; [| done]. simpl in Hexec.
    destruct (heap s !! wk_td w); [| done]. injection Hexec as <-. auto.
  - unfold consumer_get in Hexec. destruct (prompt_q s); [done |].
    injection Hexec as <-. auto.
  - unfold popup_acquire in Hexec. destruct (popups s !! p); [| done].
    simpl in Hexec. by rewrite Hlk in Hexec.
  - unfold flow_act in Hexec. by rewrite Hfl in Hexec.
Qed.

Lemma retract_rows_sublist (st : station_t) (ps : list (nat * Row))
    (ws : list Row) :
  fold_left (retract_row st) ps ws `sublist_of` ws.
Proof.
  revert ws. induction ps as [|p ps IH]; intros ws; simpl; [done |].
  etrans; [apply IH |]. unfold retract_row, delete_rows.
  destruct (cell_eqb _ _); [apply sublist_delete | done].
Qed.

Lemma retract_length (st : station_t) (ws : list Row) :
  (length (retract st ws) ≤ length ws)%nat.
Proof. apply sublist_length, retract_rows_sublist. Qed.

Lemma run_serializer_dead (NUM_STATIONS : Z) (CHECKPOINTS : list Z)
    (ls : list Label) (s s' : State) :
  serializer_dead s → run NUM_STATIONS CHECKPOINTS ls s = Some s' →
  serializer_dead s' ∧ (length (sheet s') ≤ length (sheet s))%nat.
Proof.
  revert s. induction ls as [|l ls IH]; intros s Hdead; simpl.
  - intros [= <-]. split; [done | lia].
  - destruct (exec _ _ l s) as [s1|] eqn:Hexec; [| done]. simpl.
    destruct (exec_serializer_dead _ _ _ _ _ Hdead Hexec) as [Hdead1 Hsh].
    intros Hrun. destruct (IH s1 Hdead1 Hrun) as [Hdead' Hlen].
    split; [done |]. etrans; [exact Hlen |].
    destruct Hsh as [-> | [st ->]]; [lia | apply retract_length].
Qed.

(** X10. Closing the window during the capture of a field ends the flow
    without releasing the semaphore: from then on, whatever happens, no
    prompt is ever shown and no record is ever appended. *)
Theorem capture_close_blocks_forever (NUM_STATIONS : Z) (CHECKPOINTS : list Z)
    (ws : list Row) (s : State) (f : nat) (ev : Event) (ph : Phase)
    (label : string) (entries : gmap string Val) (now1 now2 : Py.datetime) :
  reachable NUM_STATIONS CHECKPOINTS ws s →
  flows s !! f = Some (mkFlow ev ph) →
  asked ph = Some (label, entries) →
  ∃ s1 : State,
    exec NUM_STATIONS CHECKPOINTS (LAct f (AClose now1 now2)) s = Some s1
    ∧ sheet s1 = sheet s ∧ heap s1 = heap s
    ∧ ∀ (ls : list Label) (s2 : State),
        run NUM_STATIONS CHECKPOINTS ls s1 = Some s2 →
        flows s2 = [] ∧ prompt_lock s2 = 0%nat
        ∧ (∀ p, exec NUM_STATIONS CHECKPOINTS (LAcquire p) s2 = None)
        ∧ (length (sheet s2) ≤ length (sheet s))%nat.
Proof.
  intros Hreach Hf Hask.
  destruct (flow_in_progress _ _ _ _ _ _ Hreach Hf) as (-> & Hfs & Hlock).
  exists (drop_flow 0 s). split.
  { simpl. unfold flow_act. rewrite Hf. simpl.
    by destruct ph as [|e l iv dv|e l|w]. }
  split; [done |]. split; [done |].
  intros ls s2 Hrun.
  assert (serializer_dead (drop_flow 0 s)) as Hdead.
  { split; simpl; [by rewrite Hfs | done]. }
  destruct (run_serializer_dead _ _ _ _ _ Hdead Hrun) as [[Hfl Hlk] Hlen].
  repeat split; try done.
  intros p. simpl. unfold popup_acquire.
  destruct (popups s2 !! p); [| done]. simpl. by rewrite Hlk.
Qed.

Lemma capture_close_blocks_forever_witness :
  ∃ s s2 : State,
    run8 ([register_SN1 0; LWake 0; LWake 0] ++ serve_next (py "SN1"))
         (init [header]) = Some s
    ∧ run8 [LAct 0 (AClose 0 0); LGet; LAcquire 0] s = None
    ∧ run8 [LAct 0 (AClose 0 0); LGet] s = Some s2
    ∧ flows s2 = [] ∧ prompt_lock s2 = 0%nat
    ∧ exec 8 CHECKPOINTS_source (LAcquire 0) s2 = None.
Proof.
  assert (∃ s s2 ev ph entries,
            run8 ([register_SN1 0; LWake 0; LWake 0] ++ serve_next (py "SN1"))
                 (init [header]) = Some s
            ∧ run8 [LAct 0 (AClose 0 0); LGet; LAcquire 0] s = None
            ∧ run8 [LAct 0 (AClose 0 0); LGet] s = Some s2
            ∧ flows s !! 0%nat = Some (mkFlow ev ph)
            ∧ asked ph = Some ("Voltage"%string, entries))
    as (s & s2 & ev & ph & entries & Hs & Hnone & Hs2 & Hf & Ha).
  { do 5 eexists. split; [vm_compute; reflexivity |].
    split; [vm_compute; reflexivity |].
    split; [vm_compute; reflexivity |].
    split; [vm_compute; reflexivity |]. reflexivity. }
  destruct (capture_close_blocks_forever 8 CHECKPOINTS_source [header] s 0 ev
              ph "Voltage" entries 0 0
              (run_reachable 8 CHECKPOINTS_source [header] _ _ _
                 (reach_init 8 CHECKPOINTS_source [header]) Hs) Hf Ha)
    as (s1 & Hex & _ & _ & Hall).
  assert (run 8 CHECKPOINTS_source [LGet] s1 = Some s2) as Hrun.
  { unfold run8 in Hs2. simpl in Hs2. simpl in Hex. rewrite Hex in Hs2.
    exact Hs2. }
  destruct (Hall [LGet] s2 Hrun) as (Hfl & Hlk & Hacq & _).
  exists s, s2. split; [exact Hs |]. split; [exact Hnone |].
  split; [exact Hs2 |]. split; [exact Hfl |]. split; [exact Hlk |].
  apply Hacq.
Defined.

(** ** Timers and the registry *)

(** One step of the system, seen from one timer object. *)
Lemma exec_timer_step (NUM_STATIONS : Z) (CHECKPOINTS : list Z)
    (l : Label) (s s' : State) (r : nat) (td : TimerData) :
  exec NUM_STATIONS CHECKPOINTS l s = Some s' →
  heap s !! r = Some td →
  ∃ td' : TimerData,
    heap s' !! r = Some td'
    ∧ serial td' = serial td ∧ station td' = station td
    ∧ tech td' = tech td ∧ start_time td' = start_time td
    ∧ (done_checks td ≤ done_checks td' ≤ S (done_checks td))%nat
    ∧ (cancelled td = true → cancelled td' = true).
Proof.
  intros Hexec Htd.
  assert (∀ s1, heap s1 = heap s →
          ∃ td', heap s1 !! r = Some td'
            ∧ serial td' = serial td ∧ station td' = station td
            ∧ tech td' = tech td ∧ start_time td' = start_time td
            ∧ (done_checks td ≤ done_checks td' ≤ S (done_checks td))%nat
            ∧ (cancelled td = true → cancelled td' = true)) as Hsame.
  { intros s1 ->. exists td. repeat split; auto; lia. }
  assert (∀ r0 td0 err,
            heap s !! r0 = Some td0 →
            ∃ td', <[r0 := set_checked err td0]> (heap s) !! r = Some td'
              ∧ serial td' = serial td ∧ station td' = station td
              ∧ tech td' = tech td ∧ start_time td' = start_time td
              ∧ (done_checks td ≤ done_checks td' ≤ S (done_checks td))%nat
              ∧ (cancelled td = true → cancelled td' = true)) as Hchecked.
  { intros r0 td0 err Htd0. destruct (decide (r0 = r)) as [-> | Hne].
    + rewrite list_lookup_insert_eq by (by eapply lookup_lt_Some).
      assert (td0 = td) as -> by congruence.
      exists (set_checked err td). simpl. repeat split; auto; lia.
    + rewrite list_lookup_insert_ne by done.
      exists td. repeat split; auto; lia. }
  destruct l as [now t sr sts|sel yes|i| |p|f a]; simpl in Hexec.
  - injection Hexec as <-. unfold start.
    destruct (Py.eqb _ _); [by apply Hsame |].
    destruct (station_loop _ _) as [| |st];
      [by apply Hsame | by apply Hsame |].
    destruct (station_busy _ _ _); [by apply Hsame |].
    exists td. simpl. rewrite lookup_app_l by (by eapply lookup_lt_Some).
    repeat split; auto; lia.
  - injection Hexec as <-. unfold cancel.
    destruct sel as [st|]; [| by apply Hsame].
    destruct (negb yes); [by apply Hsame |].
    destruct (timers s !! st) as [r0|]; [| by apply Hsame].
    simpl. rewrite list_lookup_alter.
    destruct (decide (r0 = r)) as [-> | _].
    + rewrite Htd. exists (set_cancelled td). simpl. repeat split; auto; lia.
    + exists td. repeat split; auto; lia.
  - unfold worker_wake in Hexec.
    destruct (workers s !! i) as [w|]; [| done]. simpl in Hexec.
    destruct (heap s !! wk_td w); [| done]. injection Hexec as <-.
    by apply Hsame.
  - unfold consumer_get in Hexec. destruct (prompt_q s); [done |].
    injection Hexec as <-. by apply Hsame.
  - unfold popup_acquire in Hexec. destruct (popups s !! p); [| done].
    simpl in Hexec. destruct (prompt_lock s); [done |].
    injection Hexec as <-. by apply Hsame.
  - apply flow_act_cases in Hexec
      as (fl & Hf & [[ph ->] | [-> | [-> | (w & n1 & n2 & _ & Hs)]]]);
      try by apply Hsame.
    apply save_Some in Hs
      as (row & r0 & td0 & err & _ & _ & Htd0 & _
          & [(cells & _ & ->) | (_ & ->)]); simpl; by apply Hchecked.
Qed.

(** X11. A timer object is never removed and keeps its serial, station,
    technician and start time; its count of checks never decreases, and
    grows by at most one in a step; once cancelled it stays cancelled. *)
Theorem timer_lifecycle_monotone (NUM_STATIONS : Z) (CHECKPOINTS : list Z)
    (ls : list Label) (s s' : State) (r : nat) (td : TimerData) :
  run NUM_STATIONS CHECKPOINTS ls s = Some s' →
  heap s !! r = Some td →
  ∃ td' : TimerData,
    heap s' !! r = Some td'
    ∧ serial td' = serial td ∧ station td' = station td
    ∧ tech td' = tech td ∧ start_time td' = start_time td
    ∧ (done_checks td ≤ done_checks td' ≤ done_checks td + length ls)%nat
    ∧ (cancelled td = true → cancelled td' = true).
Proof.
  revert s td. induction ls as [|l ls IH]; intros s td; simpl.
  - intros [= <-] Htd. exists td. repeat split; auto; lia.
  - destruct (exec _ _ l s) as [s1|] eqn:Hexec; [| done]. simpl.
    intros Hrun Htd.
    destruct (exec_timer_step _ _ _ _ _ _ _ Hexec Htd)
      as (td1 & Htd1 & E1 & E2 & E3 & E4 & Hd1 & Hc1).
    destruct (IH s1 td1 Hrun Htd1)
      as (td' & Htd' & F1 & F2 & F3 & F4 & Hd' & Hc').
    exists td'. split; [done |]. repeat split; try congruence; try lia.
    auto.
Qed.

Lemma timer_lifecycle_monotone_witness :
  ∃ (s' : State) (td' : TimerData),
    run8 ([LWake 0; LWake 0] ++ check (py "12") (py "34") true 20000000)
         (schedule CHECKPOINTS_source (py "SN1") 3 (py "Alice") 0
                   (init [header]))
    = Some s'
    ∧ heap s' !! 0%nat = Some td'
    ∧ serial td' = py "SN1" ∧ done_checks td' = 1%nat.
Proof.
  assert (∃ s' td',
            run8 ([LWake 0; LWake 0] ++ check (py "12") (py "34") true 20000000)
                 (schedule CHECKPOINTS_source (py "SN1") 3 (py "Alice") 0
                           (init [header])) = Some s'
            ∧ heap s' !! 0%nat = Some td'
            ∧ done_checks td' = 1%nat)
    as (s' & td0 & Hs' & Htd0 & Hd).
  { do 2 eexists. split; [vm_compute; reflexivity |]. vm_compute. by split. }
  destruct (timer_lifecycle_monotone 8 CHECKPOINTS_source
              ([LWake 0; LWake 0] ++ check (py "12") (py "34") true 20000000)
              (schedule CHECKPOINTS_source (py "SN1") 3 (py "Alice") 0
                        (init [header]))
              s' 0 (TimerData_init (py "SN1") 3 (py "Alice") 0) Hs' eq_refl)
    as (td' & Htd' & Hser & _).
  exists s', td'. split; [exact Hs' |]. split; [exact Htd' |].
  split; [exact Hser |].
  rewrite Htd0 in Htd'. injection Htd' as <-. exact Hd.
Defined.

(** The station on which the loop of [start] ends lies in the
    configured range, and [int] has read it. *)
Lemma station_loop_digits (NUM_STATIONS : Z) (typed : list Py.str)
    (st : station_t) :
  station_loop NUM_STATIONS typed = SStation st →
  1 ≤ st ≤ NUM_STATIONS
  ∧ (length (PyFmt.str st) ≤ Py.int_max_str_digits)%nat.
Proof.
  induction typed as [|t rest IH]; simpl; [discriminate |].
  destruct (Py.isdigit (scan t)); simpl; [| exact IH].
  destruct (Py.int (scan t)) as [n|] eqn:Hn; [| discriminate].
  destruct (Z.ltb_spec n 1); simpl; [exact IH |].
  destruct (Z.gtb_spec n NUM_STATIONS); simpl; [exact IH |].
  intros [= <-]. split; [lia |]. by destruct (int_str_length _ _ Hn).
Qed.

Lemma exec_registry_ok (NUM_STATIONS : Z) (CHECKPOINTS : list Z)
    (l : Label) (s s' : State) :
  registry_ok NUM_STATIONS s →
  exec NUM_STATIONS CHECKPOINTS l s = Some s' →
  registry_ok NUM_STATIONS s'.
Proof.
  intros Hok Hexec.
  assert (∀ s1, timers s1 = timers s → heap s1 = heap s →
          registry_ok NUM_STATIONS s1) as Hsame.
  { intros s1 Et Eh st r. rewrite Et, Eh. apply Hok. }
  assert (∀ r0 td0 err,
            heap s !! r0 = Some td0 →
            ∀ st r, timers s !! st = Some r →
              ∃ td, <[r0 := set_checked err td0]> (heap s) !! r = Some td
                ∧ station td = st ∧ cancelled td = false
                ∧ 1 ≤ st ≤ NUM_STATIONS
                ∧ (length (PyFmt.str st) ≤ Py.int_max_str_digits)%nat)
    as Hchecked.
  { intros r0 td0 err Htd0 st r Hr.
    destruct (Hok st r Hr) as (td & Htd & Hst & Hc & Hrange).
    destruct (decide (r0 = r)) as [-> | Hne].
    + rewrite list_lookup_insert_eq by (by eapply lookup_lt_Some).
      assert (td0 = td) as -> by congruence.
      by exists (set_checked err td).
    + rewrite list_lookup_insert_ne by done. by exists td. }
  destruct l as [now t sr sts|sel yes|i| |p|f a]; simpl in Hexec.
  - injection Hexec as <-. unfold start.
    destruct (Py.eqb _ _); [done |].
    destruct (station_loop _ _) as [| |st0] eqn:Hst0; [done | done |].
    destruct (station_busy _ _ _); [done |].
    intros st r. simpl. destruct (decide (st0 = st)) as [<- | Hne].
    + rewrite lookup_insert_eq. intros [= <-].
      rewrite lookup_app_r, Nat.sub_diag by lia. simpl.
      eexists. split; [reflexivity |]. simpl.
      destruct (station_loop_digits _ _ _ Hst0) as [Hrange Hlen].
      by repeat split; try lia.
    + rewrite lookup_insert_ne by done. intros (td & Htd & H')%Hok.
      exists td. split; [| done].
      rewrite lookup_app_l; [done | by eapply lookup_lt_Some].
  - injection Hexec as <-. unfold cancel.
    destruct sel as [st0|]; [| done].
    destruct (negb yes); [done |].
    destruct (timers s !! st0) as [r0|] eqn:Hr0; [| done].
    intros st r. simpl. intros [Hne Hr]%lookup_delete_Some.
    destruct (Hok st r Hr) as (td & Htd & Hst & Hc & Hrange).
    destruct (Hok st0 r0 Hr0) as (td0 & Htd0 & Hst0 & _).
    exists td. split; [| done].
    rewrite list_lookup_alter. destruct (decide (r0 = r)) as [-> | _]; [| done].
    congruence.
  - unfold worker_wake in Hexec.
    destruct (workers s !! i) as [w|]; [| done]. simpl in Hexec.
    destruct (heap s !! wk_td w); [| done]. injection Hexec as <-.
    by apply Hsame.
  - unfold consumer_get in Hexec. destruct (prompt_q s); [done |].
    injection Hexec as <-. by apply Hsame.
  - unfold popup_acquire in Hexec. destruct (popups s !! p); [| done].
    simpl in Hexec. destruct (prompt_lock s); [done |].
    injection Hexec as <-. by apply Hsame.
  - apply flow_act_cases in Hexec
      as (fl & Hf & [[ph ->] | [-> | [-> | (w & n1 & n2 & _ & Hs)]]]);
      try by apply Hsame.
    apply save_Some in Hs
      as (row & r0 & td0 & err & _ & _ & Htd0 & _
          & [(cells & _ & ->) | (_ & ->)]);
      intros st r Hr; simpl in Hr; simpl; by eapply Hchecked.
Qed.

Lemma reachable_registry_ok (NUM_STATIONS : Z) (CHECKPOINTS : list Z)
    (ws : list Row) (s : State) :
  reachable NUM_STATIONS CHECKPOINTS ws s → registry_ok NUM_STATIONS s.
Proof.
  induction 1 as [|s l s' _ IH Hexec].
  - intros st r. simpl. by rewrite lookup_empty.
  - by eapply exec_registry_ok.
Qed.

(** X12. In every reachable state a registered timer is not cancelled,
    bears the station it is registered under, and that station lies
    within [1..NUM_STATIONS]; so two stations never share a timer, and
    the Busy test of [start] amounts to: registered with checks left. *)
Theorem registered_timers (NUM_STATIONS : Z) (CHECKPOINTS : list Z)
    (ws : list Row) (s : State) :
  reachable NUM_STATIONS CHECKPOINTS ws s →
  (∀ st r, timers s !! st = Some r →
     ∃ td, heap s !! r = Some td ∧ station td = st ∧ cancelled td = false
           ∧ 1 ≤ st ≤ NUM_STATIONS
           ∧ station_busy CHECKPOINTS st s
             = (done_checks td <? length CHECKPOINTS)%nat)
  ∧ (∀ st1 st2 r, timers s !! st1 = Some r → timers s !! st2 = Some r →
       st1 = st2).
Proof.
  intros Hreach.
  pose proof (reachable_registry_ok _ _ _ _ Hreach) as Hok.
  split.
  - intros st r Hr.
    destruct (Hok st r Hr) as (td & Htd & Hst & Hc & Hrange & _).
    exists td. repeat split; try done; try lia.
    unfold station_busy. rewrite Hr, Htd, Hc. simpl. apply andb_true_r.
  - intros st1 st2 r H1 H2.
    destruct (Hok st1 r H1) as (td1 & Htd1 & <- & _).
    destruct (Hok st2 r H2) as (td2 & Htd2 & <- & _). congruence.
Qed.

Lemma registered_timers_witness :
  ∃ (s : State) (td : TimerData),
    run8 both_checks (init [header]) = Some s
    ∧ heap s !! 0%nat = Some td ∧ station td = 3 ∧ cancelled td = false
    ∧ station_busy CHECKPOINTS_source 3 s = false.
Proof.
  assert (∃ s td0, run8 both_checks (init [header]) = Some s
                   ∧ timers s !! 3 = Some 0%nat
                   ∧ heap s !! 0%nat = Some td0 ∧ done_checks td0 = 2%nat)
    as (s & td0 & Hs & Hr & Htd0 & Hd).
  { do 2 eexists. split; [vm_compute; reflexivity |]. vm_compute. by split. }
  destruct (proj1 (registered_timers 8 CHECKPOINTS_source [header] s
                     (run_reachable 8 CHECKPOINTS_source [header] _ _ _
                        (reach_init 8 CHECKPOINTS_source [header]) Hs))
              3 0%nat Hr)
    as (td & Htd & Hst & Hc & _ & Hbusy).
  exists s, td. split; [exact Hs |]. split; [exact Htd |].
  split; [exact Hst |]. split; [exact Hc |].
  rewrite Hbusy. rewrite Htd0 in Htd. injection Htd as <-.
  rewrite Hd. reflexivity.
Defined.

(** ** Re-use of a station *)

(** X13. A confirmed Cancel frees the station at once: the next Start for
    it, with the station number typed in decimal, registers a fresh
    timer, while the cancelled timer object stays cancelled. *)
Theorem cancel_then_start (NUM_STATIONS : Z) (CHECKPOINTS : list Z)
    (ws : list Row) (s s1 : State) (st : station_t) (r : nat)
    (now : Py.datetime) (tech_var serial_typed : Py.str) :
  reachable NUM_STATIONS CHECKPOINTS ws s →
  cancel (Some st) true s = (Cancelled r, s1) →
  Py.strip tech_var ≠ [] →
  ∃ s2 : State,
    start NUM_STATIONS CHECKPOINTS now tech_var serial_typed [PyFmt.str st] s1
    = (Started st, s2)
    ∧ timers s2 !! st = Some (length (heap s))
    ∧ heap s2 !! length (heap s)
      = Some (TimerData_init (scan serial_typed) st (Py.strip tech_var) now)
    ∧ cancelled <$> heap s2 !! r = Some true.
Proof.
  intros Hreach Hcancel Htech.
  unfold cancel in Hcancel. simpl in Hcancel.
  destruct (timers s !! st) as [r0|] eqn:Hr; [| done].
  injection Hcancel as <- <-.
  destruct (reachable_registry_ok _ _ _ _ Hreach st r0 Hr)
    as (td & Htd & _ & _ & Hrange & Hlen).
  unfold start.
  destruct (str_eqb_spec (Py.strip tech_var) []); [done |].
  destruct (int_str st) as [Hd Hi]; [lia | done |].
  rewrite (station_loop_head NUM_STATIONS (PyFmt.str st) [] st);
    rewrite ?scan_str by lia; [| done | done | lia].
  unfold station_busy. simpl. rewrite lookup_delete_eq.
  eexists. split; [reflexivity |]. simpl. rewrite length_alter.
  split; [apply lookup_insert_eq |]. split.
  - rewrite lookup_app_r by (rewrite length_alter; lia).
    by rewrite length_alter, Nat.sub_diag.
  - rewrite lookup_app_l
      by (rewrite length_alter; by eapply lookup_lt_Some).
    rewrite list_lookup_alter, decide_True by done. by rewrite Htd.
Qed.

Lemma cancel_then_start_witness :
  ∃ s s1 s2 : State,
    run8 [register_SN1 0; LWake 0] (init [header]) = Some s
    ∧ cancel (Some 3) true s = (Cancelled 0, s1)
    ∧ start 8 CHECKPOINTS_source 5000000 (py "Bob") (py "SN9") [py "3"] s1
      = (Started 3, s2)
    ∧ timers s2 !! 3 = Some 1%nat
    ∧ cancelled <$> heap s2 !! 0%nat = Some true.
Proof.
  assert (∃ s s1, run8 [register_SN1 0; LWake 0] (init [header]) = Some s
                  ∧ cancel (Some 3) true s = (Cancelled 0, s1)
                  ∧ length (heap s) = 1%nat)
    as (s & s1 & Hs & Hc & Hlen).
  { do 2 eexists. split; [vm_compute; reflexivity |]. vm_compute. by split. }
  destruct (cancel_then_start 8 CHECKPOINTS_source [header] s s1 3 0
              5000000 (py "Bob") (py "SN9")
              (run_reachable 8 CHECKPOINTS_source [header] _ _ _
                 (reach_init 8 CHECKPOINTS_source [header]) Hs) Hc)
    as (s2 & Hst & Ht & _ & Hcd); [discriminate |].
  exists s, s1, s2. split; [exact Hs |]. split; [exact Hc |].
  split; [exact Hst |]. rewrite Hlen in Ht. split; [exact Ht | exact Hcd].
Defined.

(** ** Triggers *)

Lemma enumerate_length {A} (l : list A) (k : nat) :
  length (Py.enumerate k l) = length l.
Proof. revert k. induction l as [|x l IH]; intros k; simpl; [done | by rewrite IH]. Qed.

(** X14. A successful Start arms one worker per offset, after those
    already asleep: the worker of the offset at position [i] sleeps that
    offset and, when it wakes while the timer is not cancelled, puts at
    the tail of the queue the event of checkpoint [i+1] with the serial,
    station and technician of the registration; the scheduled time of
    the event is the start time plus the sum of the offsets up to and
    including position [i]. *)
Theorem start_arms_triggers (NUM_STATIONS : Z) (CHECKPOINTS : list Z)
    (now : Py.datetime) (tech_var serial_typed : Py.str)
    (station_typed : list Py.str) (st : station_t) (s s' : State)
    (i : nat) (off : Z) :
  start NUM_STATIONS CHECKPOINTS now tech_var serial_typed station_typed s
  = (Started st, s') →
  CHECKPOINTS !! i = Some off →
  length (workers s') = (length (workers s) + length CHECKPOINTS)%nat
  ∧ ∃ (w : Worker) (s'' : State) (ev : Event),
      workers s' !! (length (workers s) + i)%nat = Some w
      ∧ wk_delay w = off ∧ wk_start w = now
      ∧ worker_wake CHECKPOINTS (length (workers s) + i) s' = Some s''
      ∧ prompt_q s'' = prompt_q s' ++ [ev]
      ∧ ev_serial ev = scan serial_typed ∧ ev_station ev = st
      ∧ ev_tech ev = Py.strip tech_var ∧ ev_idx ev = S i
      ∧ ev_sched ev = now + Py.seconds (Py.sum (take (S i) CHECKPOINTS))
      ∧ length (workers s'') = (length (workers s) + length CHECKPOINTS - 1)%nat.
Proof.
  unfold start. intros Hstart Hoff.
  destruct (Py.eqb _ _); [done |].
  destruct (station_loop _ _) as [| |st0]; [done | done |].
  destruct (station_busy _ _ _); [done |].
  injection Hstart as -> <-. simpl.
  assert (length (spawn_workers CHECKPOINTS (length (heap s))
                    (scan serial_typed) st (Py.strip tech_var) now)
          = length CHECKPOINTS) as Hlen.
  { unfold spawn_workers. by rewrite length_map, enumerate_length. }
  rewrite length_app, Hlen. split; [done |].
  pose proof (spawn_workers_lookup CHECKPOINTS (length (heap s))
                (scan serial_typed) st (Py.strip tech_var) now i off Hoff)
    as Hw.
  eexists _, _, _. split.
  { rewrite lookup_app_r by lia.
    replace (length (workers s) + i - length (workers s))%nat with i by lia.
    exact Hw. }
  split; [done |]. split; [done |]. unfold worker_wake. simpl.
  rewrite lookup_app_r by lia.
  replace (length (workers s) + i - length (workers s))%nat with i by lia.
  rewrite Hw. simpl. rewrite lookup_app_r, Nat.sub_diag by lia. simpl.
  split; [reflexivity |]. simpl. split; [reflexivity |].
  repeat split.
  rewrite length_delete.
  - rewrite length_app, Hlen. lia.
  - rewrite lookup_app_r by lia.
    replace (length (workers s) + i - length (workers s))%nat with i by lia.
    by rewrite Hw.
Qed.

Lemma start_arms_triggers_witness :
  ∃ (s' s'' : State) (ev : Event),
    start 8 CHECKPOINTS_source 0 (py "Alice") (py "SN1") [py "3"] (init [header])
    = (Started 3, s')
    ∧ length (workers s') = 2%nat
    ∧ worker_wake CHECKPOINTS_source 1 s' = Some s''
    ∧ prompt_q s'' = [ev] ∧ ev_idx ev = 2%nat ∧ ev_station ev = 3.
Proof.
  destruct (start_arms_triggers 8 CHECKPOINTS_source 0 (py "Alice") (py "SN1") [py "3"] 3
              (init [header])
              (schedule CHECKPOINTS_source (py "SN1") 3 (py "Alice") 0 (init [header]))
              1 40 eq_refl eq_refl)
    as (Hlen & w & s'' & ev & _ & _ & _ & Hwake & Hq & _ & Hst & _ & Hidx
        & _).
  exists (schedule CHECKPOINTS_source (py "SN1") 3 (py "Alice") 0 (init [header])),
    s'', ev.
  split; [reflexivity |]. split; [exact Hlen |]. split; [exact Hwake |].
  split; [exact Hq |]. split; [exact Hidx | exact Hst].
Defined.

Lemma run_cancelled_sticky (NUM_STATIONS : Z) (CHECKPOINTS : list Z)
    (ls : list Label) (s s' : State) (r : nat) :
  run NUM_STATIONS CHECKPOINTS ls s = Some s' →
  cancelled <$> heap s !! r = Some true →
  cancelled <$> heap s' !! r = Some true.
Proof.
  revert s. induction ls as [|l ls IH]; intros s; simpl.
  - by intros [= <-].
  - destruct (exec _ _ l s) as [s1|] eqn:Hexec; [| done]. simpl.
    intros Hrun Hc. apply (IH s1 Hrun).
    destruct (heap s !! r) as [td|] eqn:Htd; [| done].
    simpl in Hc. injection Hc as Hc.
    destruct (exec_timer_step _ _ _ _ _ _ _ Hexec Htd)
      as (td' & -> & _ & _ & _ & _ & _ & Hc').
    simpl. by rewrite Hc'.
Qed.

(** X15. After a confirmed Cancel no worker of the cancelled timer ever
    puts an event on the queue, however much later it wakes: it ends
    without a trace. *)
Theorem cancelled_timer_never_fires (NUM_STATIONS : Z) (CHECKPOINTS : list Z)
    (s s1 s2 : State) (st : station_t) (r : nat) (ls : list Label)
    (i : nat) (w : Worker) :
  cancel (Some st) true s = (Cancelled r, s1) →
  is_Some (heap s !! r) →
  run NUM_STATIONS CHECKPOINTS ls s1 = Some s2 →
  workers s2 !! i = Some w → wk_td w = r →
  ∃ s3 : State,
    exec NUM_STATIONS CHECKPOINTS (LWake i) s2 = Some s3
    ∧ prompt_q s3 = prompt_q s2 ∧ popups s3 = popups s2
    ∧ flows s3 = flows s2 ∧ sheet s3 = sheet s2
    ∧ workers s3 = delete i (workers s2).
Proof.
  intros Hcancel [td Htd] Hrun Hw Hr.
  assert (cancelled <$> heap s1 !! r = Some true) as Hc1.
  { unfold cancel in Hcancel. simpl in Hcancel.
    destruct (timers s !! st) as [r0|]; [| done].
    injection Hcancel as -> <-. simpl.
    rewrite list_lookup_alter, decide_True by done. by rewrite Htd. }
  pose proof (run_cancelled_sticky _ _ _ _ _ _ Hrun Hc1) as Hc2.
  simpl. unfold worker_wake. rewrite Hw. simpl. rewrite Hr.
  destruct (heap s2 !! r) as [td2|]; [| done]. simpl in *.
  injection Hc2 as ->. eexists. split; [reflexivity |]. done.
Qed.

Lemma cancelled_timer_never_fires_witness :
  ∃ s s1 s2 s3 : State,
    run8 [register_SN1 0] (init [header]) = Some s
    ∧ cancel (Some 3) true s = (Cancelled 0, s1)
    ∧ run8 [LStart 5000000 (py "Bob") (py "SN9") [py "3"]] s1 = Some s2
    ∧ exec 8 CHECKPOINTS_source (LWake 0) s2 = Some s3
    ∧ prompt_q s3 = [].
Proof.
  assert (∃ s s1 s2 w,
            run8 [register_SN1 0] (init [header]) = Some s
            ∧ cancel (Some 3) true s = (Cancelled 0, s1)
            ∧ run8 [LStart 5000000 (py "Bob") (py "SN9") [py "3"]] s1 = Some s2
            ∧ is_Some (heap s !! 0%nat)
            ∧ workers s2 !! 0%nat = Some w ∧ wk_td w = 0%nat
            ∧ prompt_q s2 = [])
    as (s & s1 & s2 & w & Hs & Hc & Hs2 & Hh & Hw & Hr & Hq).
  { do 4 eexists. split; [vm_compute; reflexivity |].
    split; [vm_compute; reflexivity |].
    split; [vm_compute; reflexivity |].
    split; [vm_compute; eauto |]. vm_compute. by repeat split. }
  destruct (cancelled_timer_never_fires 8 CHECKPOINTS_source s s1 s2 3 0
              [LStart 5000000 (py "Bob") (py "SN9") [py "3"]] 0 w Hc Hh Hs2 Hw Hr)
    as (s3 & Hex & Hq3 & _).
  exists s, s1, s2, s3. split; [exact Hs |]. split; [exact Hc |].
  split; [exact Hs2 |]. split; [exact Hex |]. by rewrite Hq3.
Defined.

(** ** Events *)

Lemma enumerate_elem {A} (l : list A) (k i : nat) (x : A) :
  (i, x) ∈ Py.enumerate k l → (k ≤ i)%nat ∧ l !! (i - k)%nat = Some x.
Proof.
  revert k. induction l as [|y l IH]; intros k; simpl.
  - by intros ?%elem_of_nil.
  - intros [[= -> ->] | Hin]%elem_of_cons.
    + split; [lia |]. by rewrite Nat.sub_diag.
    + destruct (IH _ Hin) as [Hle Hl]. split; [lia |].
      replace (i - k)%nat with (S (i - S k)) by lia. exact Hl.
Qed.

Lemma exec_events_ok (NUM_STATIONS : Z) (CHECKPOINTS : list Z)
    (l : Label) (s s' : State) :
  events_ok NUM_STATIONS CHECKPOINTS s →
  exec NUM_STATIONS CHECKPOINTS l s = Some s' →
  events_ok NUM_STATIONS CHECKPOINTS s'.
Proof.
  intros (Hw & Hq & Hp & Hf) Hexec.
  destruct l as [now t sr sts|sel yes|i| |p|f a]; simpl in Hexec.
  - injection Hexec as <-. unfold start.
    destruct (Py.eqb _ _); [done |].
    destruct (station_loop _ _) as [| |st] eqn:Hst; [done | done |].
    destruct (station_busy _ _ _); [done |].
    split; [| done]. simpl. apply Forall_app. split; [done |].
    apply Forall_forall. intros w [[i off] [-> Hin]]%list_elem_of_fmap.
    apply enumerate_elem in Hin as [Hle Hoff].
    pose proof (lookup_lt_Some _ _ _ Hoff) as Hlt.
    unfold worker_ok. cbn [wk_station wk_idx wk_delay fst snd].
    split; [by apply (station_loop_digits _ _ _ Hst) |].
    split; [lia |]. by replace (pred i) with (i - 1)%nat by lia.
  - injection Hexec as <-.
    destruct (cancel_frame sel yes s) as (Eq & Ep & _ & Ef & Ew).
    unfold events_ok. by rewrite Eq, Ep, Ef, Ew.
  - unfold worker_wake in Hexec.
    destruct (workers s !! i) as [w|] eqn:Hwi; [| done]. simpl in Hexec.
    destruct (heap s !! wk_td w) as [td|]; [| done]. injection Hexec as <-.
    split; [by apply Forall_delete |]. simpl. split; [| done].
    destruct (cancelled td); [done |].
    apply Forall_app. split; [done |]. constructor; [| done].
    destruct (Forall_lookup_1 _ _ _ _ Hw Hwi) as (? & ? & _). by split.
  - unfold consumer_get in Hexec.
    destruct (prompt_q s) as [|ev q]; [done |]. injection Hexec as <-.
    apply Forall_cons in Hq as [Hev Hq].
    split; [done |]. split; [done |]. simpl. split; [| done].
    apply Forall_app. split; [done |]. by constructor.
  - unfold popup_acquire in Hexec.
    destruct (popups s !! p) as [ev|] eqn:Hev; [| done]. simpl in Hexec.
    destruct (prompt_lock s); [done |]. injection Hexec as <-.
    split; [done |]. split; [done |]. simpl.
    split; [by apply Forall_delete |].
    apply Forall_app. split; [done |]. constructor; [| done].
    exact (Forall_lookup_1 _ _ _ _ Hp Hev).
  - apply flow_act_cases in Hexec
      as (fl & Hfl & [[ph ->] | [-> | [-> | (w & n1 & n2 & _ & Hs)]]]).
    + split; [done |]. split; [done |]. split; [done |]. simpl.
      apply Forall_insert; [done |].
      exact (Forall_lookup_1 _ _ _ _ Hf Hfl).
    + split; [done |]. split; [done |]. split; [done |]. simpl.
      by apply Forall_delete.
    + split; [done |]. split; [done |]. split; [done |]. simpl.
      by apply Forall_delete.
    + apply save_Some in Hs
        as (? & ? & ? & ? & _ & _ & _ & _ & [(? & _ & ->) | (_ & ->)]);
        (split; [done |]); (split; [done |]); (split; [done |]); simpl;
        [by apply Forall_delete | done].
Qed.

(** X16. In every reachable state each sleeping worker, each queued or
    waiting event and each flow names a station within
    [1..NUM_STATIONS] and a checkpoint index within
    [1..len(CHECKPOINTS)]; a worker sleeps the offset of its index. *)
Theorem events_name_configured_checkpoints (NUM_STATIONS : Z)
    (CHECKPOINTS : list Z) (ws : list Row) (s : State) :
  reachable NUM_STATIONS CHECKPOINTS ws s →
  (∀ w, w ∈ workers s →
     1 ≤ wk_station w ≤ NUM_STATIONS
     ∧ (1 ≤ wk_idx w ≤ length CHECKPOINTS)%nat
     ∧ CHECKPOINTS !! pred (wk_idx w) = Some (wk_delay w))
  ∧ (∀ ev, ev ∈ prompt_q s ∨ ev ∈ popups s ∨ ev ∈ fl_event <$> flows s →
       1 ≤ ev_station ev ≤ NUM_STATIONS
       ∧ (1 ≤ ev_idx ev ≤ length CHECKPOINTS)%nat).
Proof.
  intros Hreach.
  assert (events_ok NUM_STATIONS CHECKPOINTS s) as (Hw & Hq & Hp & Hf).
  { induction Hreach as [|s l s' _ IH Hexec].
    - repeat split; constructor.
    - by eapply exec_events_ok. }
  split.
  - intros w Hin. exact (proj1 (Forall_forall _ _) Hw w Hin).
  - intros ev [Hin | [Hin | Hin]].
    + exact (proj1 (Forall_forall _ _) Hq ev Hin).
    + exact (proj1 (Forall_forall _ _) Hp ev Hin).
    + apply list_elem_of_fmap in Hin as (fl & -> & Hin).
      exact (proj1 (Forall_forall _ _) Hf fl Hin).
Qed.

Lemma events_name_configured_checkpoints_witness :
  ∃ (s : State) (ev : Event),
    run8 two_stations_fire (init [header]) = Some s
    ∧ prompt_q s !! 1%nat = Some ev
    ∧ 1 ≤ ev_station ev ≤ 8 ∧ (1 ≤ ev_idx ev ≤ 2)%nat.
Proof.
  assert (∃ s ev, run8 two_stations_fire (init [header]) = Some s
                  ∧ prompt_q s !! 1%nat = Some ev)
    as (s & ev & Hs & Hev).
  { do 2 eexists. split; vm_compute; reflexivity. }
  exists s, ev. split; [exact Hs |]. split; [exact Hev |].
  apply (proj2 (events_name_configured_checkpoints 8 CHECKPOINTS_source
                  [header] s
                  (run_reachable 8 CHECKPOINTS_source [header] _ _ _
                     (reach_init 8 CHECKPOINTS_source [header]) Hs)) ev).
  left. by eapply list_elem_of_lookup_2.
Defined.

(** ** Retraction, in general *)

Lemma matching_enumerate (st : station_t) (rows : list Row) (k : nat) :
  length (matching st (Py.enumerate k rows))
  = length (List.filter (is_record_of st) rows).
Proof.
  revert k. induction rows as [|row rows IH]; intros k; simpl; [done |].
  destruct (is_record_of st row); simpl; by rewrite IH.
Qed.

Lemma delete_rows_below_header (r : nat) (hd : Row) (rows : list Row) :
  (2 ≤ r)%nat → delete_rows r (hd :: rows) = hd :: delete (r - 2)%nat rows.
Proof.
  intros Hr. unfold delete_rows.
  destruct r as [|[|r]]; [lia | lia |]. simpl. by rewrite Nat.sub_0_r.
Qed.

Lemma length_delete_le {A} (l : list A) (i : nat) :
  (length l ≤ S (length (delete i l)))%nat.
Proof.
  revert i. induction l as [|x l IH]; intros [|i]; simpl; try lia.
  specialize (IH i). lia.
Qed.

(** The loop never touches row 1, deletes at most one row per matching
    record of its list, and only rows of the worksheet. *)
Lemma retract_rows_header (st : station_t) (hd : Row)
    (ps : list (nat * Row)) (rows : list Row) :
  Forall (λ p, (2 ≤ p.1)%nat) ps →
  ∃ rows' : list Row,
    fold_left (retract_row st) ps (hd :: rows) = hd :: rows'
    ∧ rows' `sublist_of` rows
    ∧ (length rows ≤ length rows' + length (matching st ps))%nat.
Proof.
  intros Hps. revert rows.
  induction Hps as [|p ps Hp _ IH]; intros rows; simpl.
  - exists rows. split; [done |]. split; [done | lia].
  - unfold retract_row at 2, is_record_of.
    destruct (cell_eqb (station_cell p.2) (CInt st)) eqn:E; simpl.
    + rewrite (delete_rows_below_header _ _ _ Hp).
      destruct (IH (delete (p.1 - 2)%nat rows)) as (rows' & -> & Hsub & Hlen).
      exists rows'. split; [done |].
      split; [etrans; [exact Hsub | apply sublist_delete] |].
      pose proof (length_delete_le rows (p.1 - 2)). lia.
    + destruct (IH rows) as (rows' & -> & Hsub & Hlen). by exists rows'.
Qed.

Lemma enumerate_from (A : Type) (l : list A) (k : nat) :
  Forall (λ p, (k ≤ p.1)%nat) (Py.enumerate k l).
Proof.
  revert k. induction l as [|x l IH]; intros k; simpl; constructor.
  - simpl. lia.
  - eapply Forall_impl; [apply IH |]. simpl. intros. lia.
Qed.

Lemma filter_first_match (st : station_t) (rows : list Row) :
  List.filter (is_record_of st) rows ≠ [] →
  ∃ (above : list Row) (row : Row) (below : list Row),
    rows = above ++ row :: below
    ∧ Forall (λ row, is_record_of st row = false) above
    ∧ is_record_of st row = true.
Proof.
  induction rows as [|row rows IH]; simpl; [done |].
  destruct (is_record_of st row) eqn:E.
  - intros _. exists [], row, rows. by repeat split.
  - intros (above & row' & below & -> & Ha & Hr)%IH.
    exists (row :: above), row', below. split; [done |].
    split; [by constructor | done].
Qed.

Lemma delete_middle {A} (l1 : list A) (x : A) (l2 : list A) :
  delete (length l1) (l1 ++ x :: l2) = l1 ++ l2.
Proof. induction l1 as [|a l1 IH]; simpl; [done | by rewrite IH]. Qed.

(** A turn of the loop on a matching record of the list, at the row
    right below [above]. *)
Lemma retract_row_match (st : station_t) (hd row x : Row)
    (above below : list Row) :
  is_record_of st row = true →
  retract_row st (hd :: above ++ x :: below) ((2 + length above)%nat, row)
  = hd :: above ++ below.
Proof.
  intros Hr. unfold retract_row. cbn [fst snd].
  unfold is_record_of in Hr. rewrite Hr.
  rewrite delete_rows_below_header by lia.
  replace (2 + length above - 2)%nat with (length above) by lia.
  by rewrite delete_middle.
Qed.

(** X17. Retraction never touches the header row, removes rows of the
    worksheet only and keeps the order of those that stay; it removes at
    most as many rows as the station has records, and at least one row
    when the station has a record. *)
Theorem retract_keeps_header (st : station_t) (hd : Row) (rows : list Row) :
  ∃ rows' : list Row,
    retract st (hd :: rows) = hd :: rows'
    ∧ rows' `sublist_of` rows
    ∧ (length rows ≤ length rows' + length (records_of st (hd :: rows)))%nat
    ∧ (records_of st (hd :: rows) ≠ [] → (length rows' < length rows)%nat).
Proof.
  unfold retract, records_of.
  change (drop 1 (hd :: rows)) with rows.
  destruct (retract_rows_header st hd (Py.enumerate 2 rows) rows
              (enumerate_from _ rows 2)) as (rows' & Hfold & Hsub & Hlen).
  exists rows'. split; [done |]. split; [done |].
  split; [by rewrite <- (matching_enumerate st rows 2) |].
  intros (above & row & below & -> & Ha & Hr)%filter_first_match.
  rewrite enumerate_app, fold_left_app, (retract_rows_no_match st above 2 _ Ha)
    in Hfold.
  cbn [Py.enumerate fold_left] in Hfold.
  rewrite (retract_row_match st hd row row above below Hr) in Hfold.
  destruct (retract_rows_header st hd
              (Py.enumerate (S (2 + length above)) below) (above ++ below))
    as (rows2 & Hfold2 & Hsub2 & _).
  { eapply Forall_impl; [apply enumerate_from |]. cbn beta. intros. lia. }
  rewrite Hfold2 in Hfold. injection Hfold as <-.
  apply sublist_length in Hsub2. rewrite !length_app in *. simpl. lia.
Qed.

(** X18. Of two adjacent records of the station, retraction removes the
    first, keeps the second, and removes the row that follows them, the
    record of another station. *)
Theorem retract_adjacent_pair (st : station_t) (hd a b c : Row)
    (above below : list Row) :
  Forall (λ row, is_record_of st row = false) above →
  is_record_of st a = true → is_record_of st b = true →
  is_record_of st c = false →
  Forall (λ row, is_record_of st row = false) below →
  retract st (hd :: above ++ a :: b :: c :: below) = hd :: above ++ b :: below.
Proof.
  intros Ha Hra Hrb Hrc Hb. unfold retract.
  change (drop 1 (hd :: above ++ a :: b :: c :: below))
    with (above ++ a :: b :: c :: below).
  rewrite enumerate_app, fold_left_app, (retract_rows_no_match st above 2 _ Ha).
  cbn [Py.enumerate fold_left].
  rewrite (retract_row_match st hd a a above (b :: c :: below) Hra).
  replace (S (2 + length above)) with (2 + length (above ++ [b]))%nat
    by (rewrite length_app; simpl; lia).
  replace (above ++ b :: c :: below) with ((above ++ [b]) ++ c :: below)
    by (by rewrite <- app_assoc).
  rewrite (retract_row_match st hd b c (above ++ [b]) below Hrb).
  rewrite <- app_assoc. cbn [app].
  unfold retract_row at 2. cbn [fst snd].
  unfold is_record_of in Hrc. rewrite Hrc.
  apply retract_rows_no_match, Hb.
Qed.

Lemma retract_adjacent_pair_witness :
  let rec (sn : Py.str) (st k : Z) : Row := [CStr sn; CInt st; CInt k] in
  retract 3 [header; rec (py "SN2") 5 1; rec (py "SN1") 3 1; rec (py "SN1") 3 2;
             rec (py "SN2") 5 2]
  = [header; rec (py "SN2") 5 1; rec (py "SN1") 3 2].
Proof.
  intros rec.
  apply (retract_adjacent_pair 3 header (rec (py "SN1") 3 1)
           (rec (py "SN1") 3 2) (rec (py "SN2") 5 2)
           [rec (py "SN2") 5 1] []);
    repeat constructor.
Defined.


(** ** The columns Next and Overdue *)

Lemma fmt_02d_two_digits (n : Z) :
  0 ≤ n < 60 →
  length (PyFmt.fmt_02d n) = 2%nat
  ∧ forallb Py.is_ascii_digit (PyFmt.fmt_02d n) = true
  ∧ Py.digits_value (PyFmt.fmt_02d n) = Some n.
Proof.
  intros Hn. rewrite <- (Z2Nat.id n) by lia.
  assert (Z.to_nat n < 60)%nat as Hk by lia.
  generalize dependent (Z.to_nat n). clear Hn. intros k Hk.
  do 60 (destruct k as [|k];
         [split; [reflexivity | split; reflexivity] |]).
  lia.
Qed.

Lemma min_sec_M_SS (s : Z) : 0 ≤ s → M_SS (min_sec s) s.
Proof.
  intros Hs.
  exists (PyFmt.str (s / 60)), (PyFmt.fmt_02d (s mod 60)), (s / 60),
    (s mod 60).
  destruct (str_digits (s / 60)) as (Hne & Hascii & _ & Hv);
    [apply Z.div_pos; lia |].
  destruct (fmt_02d_two_digits (s mod 60)) as (Hlen & Hascii' & Hv');
    [apply Z.mod_pos_bound; lia |].
  repeat (split; [done |]).
  pose proof (Z.mod_pos_bound s 60). pose proof (Z.div_mod s 60). lia.
Qed.

(** A text that reads M:SS starts with a digit. *)
Lemma M_SS_head (x : Py.str) (secs : Z) :
  M_SS x secs →
  ∃ (c : N) (rest : Py.str), x = c :: rest ∧ Py.is_ascii_digit c = true.
Proof.
  intros (m & ss & a & b & -> & Hne & Hm & _). destruct m as [|c m]; [done |].
  exists c, (m ++ py ":" ++ ss). split; [done |].
  simpl in Hm. by apply andb_true_iff in Hm as [? _].
Qed.

(** The three cases of [status]. *)
Lemma status_cases (CHECKPOINTS : list Z) (now : Py.datetime)
    (td : TimerData) :
  match CHECKPOINTS !! done_checks td with
  | None => status CHECKPOINTS now td = (py "-", [])
  | Some off =>
      let target := start_time td + Py.seconds off in
      if target <? now
      then status CHECKPOINTS now td
           = (py "OVERDUE", min_sec ((now - target) / 1000000))
      else status CHECKPOINTS now td
           = (min_sec ((target - now) / 1000000), [])
  end.
Proof.
  unfold status, next_delta.
  destruct (CHECKPOINTS !! done_checks td) as [off|] eqn:Hoff.
  - pose proof (lookup_lt_Some _ _ _ Hoff) as Hlt.
    destruct (Nat.leb_spec (length CHECKPOINTS) (done_checks td)); [lia |].
    cbv zeta. unfold PyFmt.negative, PyFmt.int_float, Py.total_seconds.
    cbn [Qnum Qden Qopp].
    set (target := start_time td + Py.seconds off).
    destruct (Z.ltb_spec target now);
      destruct (Z.ltb_spec (target - now) 0); try lia.
    + do 2 f_equal. rewrite Z.quot_div_nonneg by lia. f_equal. lia.
    + do 2 f_equal. rewrite Z.quot_div_nonneg by lia. done.
  - by destruct (length CHECKPOINTS <=? done_checks td)%nat.
Qed.

(** X19. While checks are left, [status] shows in Next the whole seconds
    to the next checkpoint as M:SS, and leaves Overdue empty; once the
    checkpoint has passed, Next reads OVERDUE and Overdue shows as M:SS
    the whole seconds since. *)
Theorem status_shows_whole_seconds (CHECKPOINTS : list Z)
    (now : Py.datetime) (td : TimerData) (off : Z) :
  CHECKPOINTS !! done_checks td = Some off →
  let target := start_time td + Py.seconds off in
  (now ≤ target →
   ∃ x, status CHECKPOINTS now td = (x, [])
        ∧ M_SS x ((target - now) / 1000000))
  ∧ (target < now →
     ∃ x, status CHECKPOINTS now td = (py "OVERDUE", x)
          ∧ M_SS x ((now - target) / 1000000)).
Proof.
  intros Hoff target. pose proof (status_cases CHECKPOINTS now td) as Hc.
  rewrite Hoff in Hc. cbv zeta in Hc. fold target in Hc.
  destruct (Z.ltb_spec target now); split; intros ?; try lia.
  - eexists. split; [exact Hc |]. apply min_sec_M_SS, Z.div_pos; lia.
  - eexists. split; [exact Hc |]. apply min_sec_M_SS, Z.div_pos; lia.
Qed.

Lemma status_shows_whole_seconds_witness :
  let td := mkTimerData (py "SN1") 3 (py "Alice") 0 0 false false in
  (∃ x, status CHECKPOINTS_source 5500000 td = (x, []) ∧ M_SS x 14)
  ∧ (∃ x, status CHECKPOINTS_source 95000000 td = (py "OVERDUE", x)
          ∧ M_SS x 75).
Proof.
  intros td. split.
  - apply (proj1 (status_shows_whole_seconds CHECKPOINTS_source 5500000 td 20
                    eq_refl)).
    vm_compute. discriminate.
  - apply (proj2 (status_shows_whole_seconds CHECKPOINTS_source 95000000 td 20
                    eq_refl)).
    reflexivity.
Defined.

(** A text that starts with a digit is neither of the two marks of the
    column Next. *)
Lemma digit_head_no_mark (c : N) (rest : Py.str) :
  Py.is_ascii_digit c = true →
  c :: rest ≠ py "-" ∧ c :: rest ≠ py "OVERDUE".
Proof.
  intros Hdig.
  split; intros E; vm_compute in E; injection E as -> _;
    vm_compute in Hdig; discriminate Hdig.
Qed.

Lemma overdue_no_dash : py "OVERDUE" ≠ py "-".
Proof. intros E. vm_compute in E. discriminate E. Qed.

(** X20. Next reads - exactly when every check is done, and OVERDUE
    exactly when the next checkpoint has passed; Overdue is filled only
    beside OVERDUE. *)
Theorem status_columns (CHECKPOINTS : list Z) (now : Py.datetime)
    (td : TimerData) :
  ((status CHECKPOINTS now td).1 = py "-"
   ↔ (length CHECKPOINTS ≤ done_checks td)%nat)
  ∧ ((status CHECKPOINTS now td).1 = py "OVERDUE"
     ↔ ∃ off, CHECKPOINTS !! done_checks td = Some off
              ∧ start_time td + Py.seconds off < now)
  ∧ ((status CHECKPOINTS now td).2 ≠ []
     ↔ (status CHECKPOINTS now td).1 = py "OVERDUE").
Proof.
  pose proof (status_cases CHECKPOINTS now td) as Hc.
  pose proof overdue_no_dash as Hod.
  destruct (CHECKPOINTS !! done_checks td) as [off|] eqn:Hoff.
  - pose proof (lookup_lt_Some _ _ _ Hoff) as Hlt. cbv zeta in Hc.
    set (target := start_time td + Py.seconds off) in *.
    destruct (Z.ltb_spec target now) as [Hlate | Hearly]; rewrite Hc;
      cbn [fst snd].
    + destruct (M_SS_head _ _ (min_sec_M_SS ((now - target) / 1000000)
                                 ltac:(apply Z.div_pos; lia)))
        as (c & rest & -> & _).
      split; [split; [done | lia] |].
      split; [split; [eauto | done] |]. split; [done | discriminate].
    + destruct (M_SS_head _ _ (min_sec_M_SS ((target - now) / 1000000)
                                 ltac:(apply Z.div_pos; lia)))
        as (c & rest & -> & Hdig).
      destruct (digit_head_no_mark c rest Hdig) as [H1 H2].
      split; [split; [done | lia] |].
      split; [split; [done | intros (o & [= <-] & ?); lia] |].
      split; [done | done].
  - pose proof (proj1 (lookup_ge_None _ _) Hoff). rewrite Hc. cbn [fst snd].
    split; [done |].
    split; [split; [intros E; by destruct Hod | by intros (? & ? & _)] |].
    split; [done | intros E; by destruct Hod].
Qed.

(** ** The tree view *)

Lemma station_le_trans : Transitive station_le.
Proof. unfold station_le. intros a b c. lia. Qed.

Lemma station_le_total : Total station_le.
Proof. unfold station_le. intros a b. lia. Qed.

Lemma sorted_by_station (l : list (Z * nat)) :
  StronglySorted station_le l → NoDup l.*1 → StronglySorted Z.lt l.*1.
Proof.
  induction 1 as [|p l Hl IH Hp]; simpl; [constructor |].
  intros [Hnin Hnd]%NoDup_cons. constructor; [by apply IH |].
  apply Forall_fmap, Forall_forall. intros q Hq.
  pose proof (proj1 (Forall_forall _ _) Hp q Hq) as Hle.
  unfold station_le in Hle. simpl.
  destruct (decide (p.1 = q.1)) as [E | ?]; [| lia].
  exfalso. apply Hnin. rewrite E. apply list_elem_of_fmap. eauto.
Qed.

(** [sorted(timers.items())] lists every registered station once, in
    ascending order. *)
Lemma sorted_items_spec (s : State) :
  sorted_items s ≡ₚ map_to_list (timers s)
  ∧ StronglySorted Z.lt (sorted_items s).*1.
Proof.
  unfold sorted_items.
  pose proof (merge_sort_Permutation station_le (map_to_list (timers s)))
    as Hperm.
  split; [done |]. apply sorted_by_station.
  - apply (@StronglySorted_merge_sort _ station_le _ station_le_trans
             station_le_total).
  - rewrite Hperm. apply NoDup_fst_map_to_list.
Qed.

Lemma sorted_items_elem (s : State) (st : Z) (r : nat) :
  (st, r) ∈ sorted_items s ↔ timers s !! st = Some r.
Proof.
  rewrite (proj1 (sorted_items_spec s)). apply elem_of_map_to_list.
Qed.

(** The rows that [refresh_tree] inserts. *)
Lemma refresh_tree_rows (CHECKPOINTS : list Z) (now : Py.datetime)
    (s : State) (t : Tree) (row : TreeRow) :
  row ∈ tree_rows (refresh_tree CHECKPOINTS now s t) ↔
  ∃ (r : nat) (td : TimerData),
    timers s !! tr_station row = Some r ∧ heap s !! r = Some td
    ∧ row = tree_row CHECKPOINTS now (tr_station row) td.
Proof.
  unfold refresh_tree. cbn [tree_rows]. rewrite list_elem_of_omap. split.
  - intros ([st r] & Hin%sorted_items_elem & Hrow). cbn [fst snd] in Hrow.
    destruct (heap s !! r) as [td|] eqn:Htd; [| done].
    injection Hrow as <-. exists r, td. by cbn [tr_station tree_row].
  - intros (r & td & Hr & Htd & Hrow). exists (tr_station row, r).
    split; [by apply sorted_items_elem |]. cbn [fst snd].
    by rewrite Htd, Hrow.
Qed.

Lemma refresh_tree_stations (CHECKPOINTS : list Z) (now : Py.datetime)
    (s : State) (t : Tree) :
  registry_wf s →
  tr_station <$> tree_rows (refresh_tree CHECKPOINTS now s t)
  = (sorted_items s).*1.
Proof.
  intros Hwf. unfold refresh_tree. cbn [tree_rows].
  assert (∀ p, p ∈ sorted_items s → is_Some (heap s !! p.2)) as Hall.
  { intros [st r] Hin%sorted_items_elem. apply lookup_lt_is_Some_2.
    by apply (Hwf st r). }
  induction (sorted_items s) as [|p l IH]; [done |]. simpl.
  destruct (Hall p ltac:(left)) as [td ->]. simpl. f_equal.
  apply IH. intros q Hq. apply Hall. by right.
Qed.

(** The selection that [refresh_tree] leaves. *)
Lemma refresh_tree_selection (CHECKPOINTS : list Z) (now : Py.datetime)
    (s : State) (t : Tree) :
  tree_selection (refresh_tree CHECKPOINTS now s t)
  = match head (tree_selection t) with
    | Some st =>
        if bool_decide
             (st ∈ tr_station
                <$> tree_rows (refresh_tree CHECKPOINTS now s t))
        then [st] else []
    | None => []
    end.
Proof. reflexivity. Qed.

(** X21. In every reachable state [refresh_tree] rebuilds the tree with
    one row per registered station, in ascending order of the station,
    each showing the timer registered there; the selection stays on the
    station that was selected first when that station is still
    registered, and is empty otherwise. *)
Theorem refresh_tree_lists_registry (NUM_STATIONS : Z) (CHECKPOINTS : list Z)
    (ws : list Row) (s : State) (now : Py.datetime) (t : Tree) :
  reachable NUM_STATIONS CHECKPOINTS ws s →
  let t' := refresh_tree CHECKPOINTS now s t in
  StronglySorted Z.lt (tr_station <$> tree_rows t')
  ∧ (∀ st, st ∈ tr_station <$> tree_rows t' ↔ is_Some (timers s !! st))
  ∧ (∀ row, row ∈ tree_rows t' →
       ∃ r td, timers s !! tr_station row = Some r ∧ heap s !! r = Some td
               ∧ row = tree_row CHECKPOINTS now (tr_station row) td)
  ∧ (∀ st, tree_selection t' = [st]
           ↔ head (tree_selection t) = Some st ∧ is_Some (timers s !! st))
  ∧ (length (tree_selection t') ≤ 1)%nat.
Proof.
  intros Hreach t'.
  pose proof (reachable_inv _ _ _ _ Hreach) as (Hwf & _).
  assert (∀ st, st ∈ tr_station <$> tree_rows t' ↔ is_Some (timers s !! st))
    as Hmem.
  { intros st. subst t'. rewrite (refresh_tree_stations _ _ _ _ Hwf).
    rewrite list_elem_of_fmap. split.
    - intros ([st' r] & -> & Hin%sorted_items_elem). eauto.
    - intros [r Hr]. exists (st, r). split; [done |].
      by apply sorted_items_elem. }
  split.
  { subst t'. rewrite (refresh_tree_stations _ _ _ _ Hwf).
    apply sorted_items_spec. }
  split; [exact Hmem |].
  split; [intros row; apply refresh_tree_rows |].
  subst t'. rewrite refresh_tree_selection.
  destruct (head (tree_selection t)) as [sel|]; cbn [length].
  - destruct (bool_decide_reflect
                (sel ∈ tr_station
                   <$> tree_rows (refresh_tree CHECKPOINTS now s t)))
      as [Hin | Hnin]; cbn [length].
    + split; [| lia]. intros st. split.
      * intros [= <-]. split; [done |]. by apply Hmem.
      * by intros [[= <-] _].
    + split; [| lia]. intros st. split; [done |].
      intros [[= <-] Hreg]. exfalso. by apply Hnin, Hmem.
  - split; [| lia]. intros st. split; [done | by intros [? _]].
Qed.

Lemma refresh_tree_lists_registry_witness :
  ∃ s : State,
    run8 two_stations_fire (init [header]) = Some s
    ∧ StronglySorted Z.lt
        (tr_station
           <$> tree_rows (refresh_tree CHECKPOINTS_source 3000000 s
                            (mkTree [] [5; 3])))
    ∧ tree_selection (refresh_tree CHECKPOINTS_source 3000000 s
                        (mkTree [] [5; 3])) = [5].
Proof.
  assert (∃ s, run8 two_stations_fire (init [header]) = Some s
               ∧ is_Some (timers s !! 5)) as (s & Hs & Hreg).
  { eexists. split; [vm_compute; reflexivity |]. vm_compute. eauto. }
  destruct (refresh_tree_lists_registry 8 CHECKPOINTS_source [header] s
              3000000 (mkTree [] [5; 3])
              (run_reachable 8 CHECKPOINTS_source [header] _ _ _
                 (reach_init 8 CHECKPOINTS_source [header]) Hs))
    as (Hsorted & _ & _ & Hsel & _).
  exists s. split; [exact Hs |]. split; [exact Hsorted |].
  apply (proj2 (Hsel 5)). split; [reflexivity | exact Hreg].
Defined.

(** X22. The operator selects the row of a registered station and
    confirms Cancel: the station leaves the registry.  Pressing Cancel
    again before the tree is refreshed raises at [timers.pop], with
    nothing changed; after a refresh nothing is selected and Cancel only
    asks for a selection. *)
Theorem cancel_selected_row (NUM_STATIONS : Z) (CHECKPOINTS : list Z)
    (ws : list Row) (s : State) (now now' : Py.datetime) (t : Tree)
    (st : station_t) :
  reachable NUM_STATIONS CHECKPOINTS ws s →
  is_Some (timers s !! st) →
  let t1 := select_row st (refresh_tree CHECKPOINTS now s t) in
  ∃ (r : nat) (s1 : State),
    cancel_pressed true t1 s = (Cancelled r, s1)
    ∧ timers s1 = delete st (timers s)
    ∧ cancel_pressed true t1 s1 = (CancelKeyError, s1)
    ∧ cancel_pressed true (refresh_tree CHECKPOINTS now' s1 t1) s1
      = (NotSelected, s1).
Proof.
  intros Hreach [r Hr] t1.
  pose proof (reachable_inv _ _ _ _ Hreach) as (Hwf & _).
  assert (head (tree_selection t1) = Some st) as Hsel.
  { subst t1. unfold select_row.
    rewrite bool_decide_eq_true_2; [done |].
    rewrite (refresh_tree_stations _ _ _ _ Hwf), list_elem_of_fmap.
    exists (st, r). split; [done |]. by apply sorted_items_elem. }
  unfold cancel_pressed at 1 2. rewrite Hsel. unfold cancel at 1.
  cbn [negb]. rewrite Hr. eexists _, _. split; [reflexivity |].
  split; [reflexivity |]. split.
  - unfold cancel. cbn [negb timers]. by rewrite lookup_delete_eq.
  - unfold cancel_pressed. rewrite refresh_tree_selection, Hsel.
    rewrite bool_decide_eq_false_2; [done |].
    intros (row & -> & Hrow)%list_elem_of_fmap.
    apply refresh_tree_rows in Hrow as (r' & _ & Hr' & _).
    cbn [timers] in Hr'. by rewrite lookup_delete_eq in Hr'.
Qed.

Lemma cancel_selected_row_witness :
  ∃ (s s1 : State) (r : nat),
    run8 two_stations_fire (init [header]) = Some s
    ∧ cancel_pressed true
        (select_row 5 (refresh_tree CHECKPOINTS_source 3000000 s
                         (mkTree [] []))) s
      = (Cancelled r, s1)
    ∧ timers s1 = delete 5 (timers s).
Proof.
  assert (∃ s, run8 two_stations_fire (init [header]) = Some s
               ∧ is_Some (timers s !! 5)) as (s & Hs & Hreg).
  { eexists. split; [vm_compute; reflexivity |]. vm_compute. eauto. }
  destruct (cancel_selected_row 8 CHECKPOINTS_source [header] s
              3000000 4000000 (mkTree [] []) 5
              (run_reachable 8 CHECKPOINTS_source [header] _ _ _
                 (reach_init 8 CHECKPOINTS_source [header]) Hs) Hreg)
    as (r & s1 & Hc & Ht & _).
  exists s, s1, r. split; [exact Hs |]. split; [exact Hc | exact Ht].
Defined.

(** ** The log *)

(** X23. After any number of calls of [log], [activity_log] holds one
    line per call, the latest first, above what it held before; the log
    box shows its first five lines, so the five latest, and never more. *)
Theorem log_box_latest_five (calls : list (Py.datetime * Py.str)) (l0 : Log) :
  let l := fold_left (λ l c, log c.1 c.2 l) calls l0 in
  activity_log l = rev (log_entry <$> calls) ++ activity_log l0
  ∧ (calls ≠ [] →
     logbox l = take 5 (activity_log l)
     ∧ length (logbox l)
       = Nat.min 5 (length calls + length (activity_log l0))).
Proof.
  cbv zeta.
  assert (∀ l0, activity_log (fold_left (λ l c, log c.1 c.2 l) calls l0)
                = rev (log_entry <$> calls) ++ activity_log l0) as Hall.
  { induction calls as [|c calls IH]; intros l; [done |].
    cbn [fold_left fmap list_fmap rev]. rewrite IH, <- app_assoc. done. }
  split; [apply Hall |]. intros Hne.
  assert (logbox (fold_left (λ l c, log c.1 c.2 l) calls l0)
          = take 5 (activity_log
                      (fold_left (λ l c, log c.1 c.2 l) calls l0))) as Hbox.
  { destruct (rev calls) as [|c calls'] eqn:E.
    - apply (f_equal (@rev _)) in E. rewrite rev_involutive in E. done.
    - apply (f_equal (@rev _)) in E. rewrite rev_involutive in E.
      cbn [rev] in E. rewrite E, fold_left_app. reflexivity. }
  split; [exact Hbox |].
  rewrite Hbox, length_take, Hall, length_app, length_rev, length_fmap. lia.
Qed.

Lemma log_box_latest_five_witness :
  let calls := [(0, py "a"); (1000000, py "b"); (2000000, py "c");
                (3000000, py "d"); (4000000, py "e"); (5000000, py "f")] in
  let l := fold_left (λ l c, log c.1 c.2 l) calls (mkLog [] []) in
  logbox l = take 5 (activity_log l) ∧ length (logbox l) = 5%nat.
Proof.
  intros calls l.
  apply (proj2 (log_box_latest_five calls (mkLog [] []))). discriminate.
Defined.


(** ** The head of a committed row *)

(** X24. In every reachable state Confirm & Save on a review either
    fails to write (the worksheet refuses a text of the row and is left
    as it is, with the window and the semaphore) or appends a row of
    thirteen cells: what the worksheet keeps of the serial (an empty
    cell for an empty serial, else its first 32767 characters), the
    station and the checkpoint of the event, its scheduled time and the
    time of the commit as H:M:S, the whole seconds between the two
    whichever came first, the six fields, and what the worksheet keeps
    of the technician's name. *)
Theorem committed_row_head (NUM_STATIONS : Z) (CHECKPOINTS : list Z)
    (ws : list Row) (s s' : State) (f : nat) (ev : Event)
    (w : gmap string Val) (now1 now2 : Py.datetime) :
  reachable NUM_STATIONS CHECKPOINTS ws s →
  flows s !! f = Some (mkFlow ev (PReview w)) →
  exec NUM_STATIONS CHECKPOINTS (LAct f (AConfirm now1 now2)) s = Some s' →
  (∃ row : Row,
     save_row ev w now1 now2 = Some row
     ∧ write_excel row (sheet s) = None
     ∧ sheet s' = sheet s ∧ flows s' = flows s
     ∧ prompt_lock s' = prompt_lock s)
  ∨ ∃ (row : Row) (c_tech : Cell),
      sheet s' = sheet s ++ [row]
      ∧ length row = 13%nat
      ∧ take 6 row
        = [ match take Openpyxl.max_length (ev_serial ev) with
            | [] => CNone
            | _ => CStr (take Openpyxl.max_length (ev_serial ev))
            end;
            CInt (ev_station ev);
            CInt (Z.of_nat (ev_idx ev));
            CStr (Py.strftime_HMS (ev_sched ev));
            CStr (Py.strftime_HMS now1);
            CInt (Z.abs (now2 - ev_sched ev) / 1000000) ]
      ∧ last row = Some c_tech
      ∧ stored (CStr (ev_tech ev)) = Some c_tech.
Proof.
  intros Hreach Hf Hexec.
  pose proof (reachable_inv _ _ _ _ Hreach) as (_ & _ & Hok).
  pose proof (Forall_lookup_1 _ _ _ _ Hok Hf) as Hw. cbn in Hw.
  destruct (save_row_ok false ev w now1 now2 Hw) as (cells & Hrow & Hcells).
  cbn in Hexec. unfold flow_act in Hexec. rewrite Hf in Hexec.
  cbn in Hexec.
  apply save_Some in Hexec
    as (row & r & td & err & Hrow' & _ & _ & _
        & [(kept & Hst & ->) | (Hnone & ->)]).
  2: { left. exists row. unfold write_excel. by rewrite Hnone. }
  right. rewrite Hrow in Hrow'. apply (inj Some) in Hrow'. subst row.
  apply Forall2_length in Hcells. change (length fields) with 6%nat in Hcells.
  apply mapM_Some in Hst.
  apply Forall2_app_inv_l in Hst as (head' & rest' & Hhead & Hrest & ->).
  apply Forall2_app_inv_l in Hrest as (cells' & t' & Hc' & Ht & ->).
  apply Forall2_cons_inv_l in Ht
    as (c_tech & ? & Htech & ->%Forall2_nil_inv_l & ->).
  apply Forall2_cons_inv_l in Hhead as (c0 & ? & H0 & Hhead & ->).
  apply Forall2_cons_inv_l in Hhead as (c1 & ? & H1 & Hhead & ->).
  apply Forall2_cons_inv_l in Hhead as (c2 & ? & H2 & Hhead & ->).
  apply Forall2_cons_inv_l in Hhead as (c3 & ? & H3 & Hhead & ->).
  apply Forall2_cons_inv_l in Hhead as (c4 & ? & H4 & Hhead & ->).
  apply Forall2_cons_inv_l in Hhead
    as (c5 & ? & H5 & ->%Forall2_nil_inv_l & ->).
  apply stored_text in H0 as [_ ->].
  rewrite stored_HMS in H3, H4.
  cbn [stored] in H1, H2, H5.
  injection H1 as <-. injection H2 as <-. injection H3 as <-.
  injection H4 as <-. injection H5 as <-.
  apply Forall2_length in Hc'.
  eexists _, c_tech. split; [reflexivity |].
  split; [cbn [length app]; rewrite length_app; cbn [length]; lia |].
  split; [| split; [| done]].
  - cbn [take app]. do 5 f_equal. unfold Py.int_total_seconds.
    rewrite <- Z.quot_abs by lia. change (Z.abs 1000000) with 1000000.
    rewrite Z.quot_div_nonneg by lia. reflexivity.
  - apply last_Some. eexists ([_; _; _; _; _; _] ++ cells'). reflexivity.
Qed.

Lemma committed_row_head_witness :
  ∃ (s s' : State) (row : Row),
    run8 first_check_in_review (init [header]) = Some s
    ∧ exec 8 CHECKPOINTS_source (LAct 0 (AConfirm 21000000 17500000)) s
      = Some s'
    ∧ sheet s' = sheet s ++ [row]
    ∧ row !! 5%nat = Some (CInt 2).
Proof.
  assert (∃ s s' ev w,
            run8 first_check_in_review (init [header]) = Some s
            ∧ exec 8 CHECKPOINTS_source (LAct 0 (AConfirm 21000000 17500000)) s
              = Some s'
            ∧ flows s !! 0%nat = Some (mkFlow ev (PReview w))
            ∧ ev_sched ev = 20000000
            ∧ sheet s' ≠ sheet s)
    as (s & s' & ev & w & Hs & Hs' & Hf & Hsched & Hne).
  { do 4 eexists. split; [vm_compute; reflexivity |].
    split; [vm_compute; reflexivity |].
    split; [vm_compute; reflexivity |].
    split; [vm_compute; reflexivity |]. vm_compute. discriminate. }
  destruct (committed_row_head 8 CHECKPOINTS_source [header] s s' 0 ev w
              21000000 17500000
              (run_reachable 8 CHECKPOINTS_source [header] _ _ _
                 (reach_init 8 CHECKPOINTS_source [header]) Hs) Hf Hs')
    as [(row & _ & _ & Hsame & _)
       | (row & c_tech & Hsheet & _ & Htake & _)];
    [by destruct Hne |].
  exists s, s', row. split; [exact Hs |]. split; [exact Hs' |].
  split; [exact Hsheet |].
  assert (take 6 row !! 5%nat = row !! 5%nat) as <-
    by (apply lookup_take_lt; lia).
  rewrite Htake, Hsched. reflexivity.
Defined.

(** ** The outcomes of [start] *)

(** X25. [start] stops at the technician test exactly when the name is
    blank; it ends on a ValueError exactly when the name is not blank
    and the station loop ends on one; unless it registers a station it
    changes nothing; and when it registers one, the station lies within
    [1..NUM_STATIONS], was not busy, and the state is that of [schedule]
    with the scanned serial and the stripped name. *)
Theorem start_outcomes (NUM_STATIONS : Z) (CHECKPOINTS : list Z)
    (now : Py.datetime) (tech_var serial_typed : Py.str)
    (station_typed : list Py.str) (s : State) :
  let res := start NUM_STATIONS CHECKPOINTS now tech_var serial_typed
                   station_typed s in
  (res.1 = TechMissing ↔ forallb Py.is_space tech_var = true)
  ∧ (res.1 = StationRaised
     ↔ forallb Py.is_space tech_var = false
       ∧ station_loop NUM_STATIONS station_typed = SRaised)
  ∧ ((∀ st, res.1 ≠ Started st) → res.2 = s)
  ∧ (∀ st, res.1 = Started st →
       1 ≤ st ≤ NUM_STATIONS
       ∧ station_busy CHECKPOINTS st s = false
       ∧ res.2 = schedule CHECKPOINTS (scan serial_typed) st
                          (Py.strip tech_var) now s).
Proof.
  cbv zeta. rewrite <- (not_true_iff_false (forallb _ _)), <- strip_empty.
  unfold start.
  destruct (str_eqb_spec (Py.strip tech_var) []) as [E | E];
    cbn [fst snd].
  { split; [done |]. split; [split; [discriminate | by intros [? _]] |].
    split; [done |]. discriminate. }
  destruct (station_loop NUM_STATIONS station_typed) as [| |st0] eqn:Hst;
    cbn [fst snd].
  - split; [split; [discriminate | done] |].
    split; [split; [discriminate | by intros [_ ?]] |].
    split; [done | discriminate].
  - split; [split; [discriminate | done] |].
    split; [done |]. split; [done | discriminate].
  - destruct (station_busy CHECKPOINTS st0 s) eqn:Hbusy; cbn [fst snd].
    + split; [split; [discriminate | done] |].
      split; [split; [discriminate | by intros [_ ?]] |].
      split; [done | discriminate].
    + split; [split; [discriminate | done] |].
      split; [split; [discriminate | by intros [_ ?]] |].
      split; [intros H; by destruct (H st0) |].
      intros st [= <-].
      split; [by apply (station_loop_digits _ _ _ Hst) | done].
Qed.

(** ** Cancel during a review *)

(** X26. When the station of a check that waits in the review step is
    cancelled, Confirm & Save and closing the window both raise at
    [timers[station]]: the window stays, no row is appended, and the
    semaphore stays taken, so no other prompt opens. *)
Theorem cancel_during_review_blocks_commit (NUM_STATIONS : Z)
    (CHECKPOINTS : list Z) (ws : list Row) (s s1 : State) (f : nat)
    (ev : Event) (w : gmap string Val) (r : nat)
    (now1 now2 : Py.datetime) :
  reachable NUM_STATIONS CHECKPOINTS ws s →
  flows s !! f = Some (mkFlow ev (PReview w)) →
  cancel (Some (ev_station ev)) true s = (Cancelled r, s1) →
  exec NUM_STATIONS CHECKPOINTS (LAct f (AConfirm now1 now2)) s1 = None
  ∧ exec NUM_STATIONS CHECKPOINTS (LAct f (AClose now1 now2)) s1 = None
  ∧ flows s1 = flows s ∧ prompt_lock s1 = 0%nat
  ∧ (∀ p, exec NUM_STATIONS CHECKPOINTS (LAcquire p) s1 = None)
  ∧ sheet s1 = retract (ev_station ev) (sheet s).
Proof.
  intros Hreach Hf Hcancel.
  destruct (flow_in_progress _ _ _ _ _ _ Hreach Hf) as (-> & Hfs & Hlock).
  unfold cancel in Hcancel. cbn [negb] in Hcancel.
  destruct (timers s !! ev_station ev) as [r0|]; [| done].
  injection Hcancel as -> <-.
  set (s1 := mkState (delete (ev_station ev) (timers s))
                     (alter set_cancelled r (heap s)) (workers s)
                     (prompt_q s) (popups s) (prompt_lock s) (flows s)
                     (retract (ev_station ev) (sheet s))).
  assert (save 0 ev w now1 now2 s1 = None) as Hsave.
  { unfold save. destruct (save_row ev w now1 now2); [| done].
    cbn. by rewrite lookup_delete_eq. }
  assert (flows s1 !! 0%nat = Some (mkFlow ev (PReview w))) as Hf1 by done.
  split; [cbn [exec]; unfold flow_act; rewrite Hf1; exact Hsave |].
  split; [cbn [exec]; unfold flow_act; rewrite Hf1; exact Hsave |].
  split; [done |]. split; [done |]. split; [| done].
  intros p. cbn [exec]. unfold popup_acquire.
  change (popups s1) with (popups s). change (prompt_lock s1) with (prompt_lock s).
  destruct (popups s !! p); [| done]. cbn. by rewrite Hlock.
Qed.

Lemma cancel_during_review_blocks_commit_witness :
  ∃ s s1 : State,
    run8 first_check_in_review (init [header]) = Some s
    ∧ cancel (Some 3) true s = (Cancelled 0, s1)
    ∧ exec 8 CHECKPOINTS_source (LAct 0 (AConfirm 21000000 21000000)) s1
      = None
    ∧ prompt_lock s1 = 0%nat.
Proof.
  assert (∃ s s1 ev w,
            run8 first_check_in_review (init [header]) = Some s
            ∧ flows s !! 0%nat = Some (mkFlow ev (PReview w))
            ∧ ev_station ev = 3
            ∧ cancel (Some 3) true s = (Cancelled 0, s1))
    as (s & s1 & ev & w & Hs & Hf & Hst & Hc).
  { do 4 eexists. split; [vm_compute; reflexivity |].
    split; [vm_compute; reflexivity |]. split; vm_compute; reflexivity. }
  pose proof Hc as Hc'. rewrite <- Hst in Hc'.
  destruct (cancel_during_review_blocks_commit 8 CHECKPOINTS_source [header]
              s s1 0 ev w 0 21000000 21000000
              (run_reachable 8 CHECKPOINTS_source [header] _ _ _
                 (reach_init 8 CHECKPOINTS_source [header]) Hs) Hf Hc')
    as (Hconfirm & _ & _ & Hlock & _).
  exists s, s1. split; [exact Hs |]. split; [exact Hc |].
  split; [exact Hconfirm | exact Hlock].
Defined.
